(** * WebSecVisualizer: scan orchestration and scoring engine

    A shallow embedding of the server-side scoring code of the
    repository (SecurityScanner.js, SSLAnalyzer.js, WhoisAnalyzer.js and
    routes/scan.js) together with the properties its specification
    states about it.

    Modelling conventions.
    - JavaScript numbers that the code only ever fills with integers
      (weights, counts, port numbers, per-dimension scores) are [Z].
    - Where the code divides, the IEEE doubles are idealised by exact
      rationals [Q]; [Math.round x] is [floor (x + 1/2)].
    - [Math.sin] is the real sine; the seeded pseudo-random value lives
      in [R].
    - A JavaScript object is a record whose fields are [option]s where
      the code tests them for truthiness ([x || d], [if (x)]): [None]
      stands for [undefined] / [null].
    - [new Date().toISOString()] is read from a clock, a function from
      the number of readings made so far to the text of the time stamp.
    - Code after an [await] runs to its next [await] without
      interleaving, so a record is observed only between such blocks. *)

From Stdlib Require Import ZArith QArith Qround Qabs List String Ascii Lia Lra.
From Stdlib Require Import Reals Sorting Permutation DecimalString.
From stdpp Require Import gmap strings.
Import ListNotations.

Open Scope string_scope.
Open Scope Z_scope.

(** ** JavaScript primitives used by the code *)

Module JS.

(** [Array.prototype.includes] on an array of strings. *)
Definition includes (x : string) (l : list string) : bool :=
  existsb (String.eqb x) l.

(** [Array.prototype.includes] on an array of numbers. *)
Definition includesZ (x : Z) (l : list Z) : bool :=
  existsb (Z.eqb x) l.

(** [String.prototype.includes]: [t] occurs in [s]. *)
Fixpoint str_includes (s t : string) : bool :=
  String.prefix t s
  || match s with
     | EmptyString => false
     | String _ s' => str_includes s' t
     end.

(** [Math.round] on the rational idealisation of a double: the nearest
    integer, halves going up. *)
Definition Math_round (x : Q) : Z := Qfloor (x + (1 # 2))%Q.

(** [Math.max] on rationals. *)
Definition Math_max (x y : Q) : Q := if Qle_bool x y then y else x.

(** [x || d] for a numeric field: [undefined] and [0] are falsy. *)
Definition or_default (x : option Z) (d : Z) : Z :=
  match x with
  | Some v => if v =? 0 then d else v
  | None => d
  end.

(** [x || []] for an array field. *)
Definition or_empty {A : Type} (x : option (list A)) : list A :=
  match x with
  | Some l => l
  | None => []
  end.

(** [x === null] *)
Definition is_null {A : Type} (x : option A) : bool :=
  match x with
  | Some _ => false
  | None => true
  end.

(** [array.length] as a number. *)
Definition len {A : Type} (l : list A) : Z := Z.of_nat (List.length l).

(** [String.prototype.toLowerCase] on a text of ASCII characters (host
    names are ASCII; other bytes are kept). *)
Definition lower_char (c : ascii) : ascii :=
  let n := Z.of_N (N_of_ascii c) in
  if (65 <=? n) && (n <=? 90) then ascii_of_N (Z.to_N (n + 32)) else c.

Fixpoint toLowerCase (s : string) : string :=
  match s with
  | EmptyString => EmptyString
  | String c s' => String (lower_char c) (toLowerCase s')
  end.

(** The value of a hexadecimal digit, if the character is one. *)
Definition hex_value (c : ascii) : option Z :=
  let n := Z.of_N (N_of_ascii c) in
  if (48 <=? n) && (n <=? 57) then Some (n - 48)
  else if (97 <=? n) && (n <=? 102) then Some (n - 87)
  else if (65 <=? n) && (n <=? 70) then Some (n - 55)
  else None.

(** [parseInt(s, 16)] on a text that starts with neither blanks, a sign
    nor [0x]: the longest prefix of hexadecimal digits is read, and
    [None] stands for [NaN] when there is no such digit. *)
Fixpoint parseInt16_from (acc : option Z) (s : string) : option Z :=
  match s with
  | EmptyString => acc
  | String c s' =>
      match hex_value c with
      | Some v =>
          parseInt16_from
            (Some (16 * match acc with Some a => a | None => 0 end + v)) s'
      | None => acc
      end
  end.

Definition parseInt16 (s : string) : option Z := parseInt16_from None s.

(** [x || d] for a number that may be [NaN]. *)
Definition nan_or_default (x : option Z) (d : Z) : Z := or_default x d.

(** [Math.floor] and [Math.sin] on the real idealisation of doubles. *)
Definition Math_floor (x : R) : Z := Int_part x.
Definition Math_sin (x : R) : R := sin x.

(** [String(n)] for an integer, as template literals print it. *)
Definition Number_toString (z : Z) : string :=
  NilZero.string_of_int (Z.to_int z).

(** [Array.prototype.join] on an array of integers. *)
Definition join (sep : string) (l : list Z) : string :=
  String.concat sep (map Number_toString l).

(** [Array.prototype.sort(compare)]. ECMAScript reads a [NaN] returned
    by the comparator ([None] here) as 0 and, since ES2019, requires the
    sort to be stable; for a comparator that is a consistent ordering
    every stable sort returns the array this insertion sort returns. *)
Section Sort.
Context {A : Type} (compare : A -> A -> option Z).

Definition sort_compare (x y : A) : Z :=
  match compare x y with
  | Some v => v
  | None => 0
  end.

Fixpoint sort_insert (x : A) (l : list A) : list A :=
  match l with
  | [] => [x]
  | y :: l' =>
      if sort_compare x y >? 0 then y :: sort_insert x l' else x :: y :: l'
  end.

Fixpoint Array_sort (l : list A) : list A :=
  match l with
  | [] => []
  | x :: l' => sort_insert x (Array_sort l')
  end.
End Sort.

(** Ordering by a rank: [by_rank] is the order a sorted array obeys, and
  [compares_by_rank] says that the comparator orders [x] against the
  elements of [l] by the difference of the ranks. *)
Section Rank.
Context {A : Type} (compare : A -> A -> option Z) (rank : A -> Z).

Definition by_rank (x y : A) : Prop := rank x <= rank y.

Definition compares_by_rank (x : A) (l : list A) : Prop :=
  forall y, In y l -> sort_compare compare x y = rank x - rank y.
End Rank.

(** [x > y] on the real idealisation of doubles. *)
Definition gt (x y : R) : bool := if Rgt_dec x y then true else false.

(** [Math.ceil] on the rational idealisation of a double. *)
Definition Math_ceil (x : Q) : Z := Qceiling x.

(** [[...new Set(l)]]: the elements in the order of their first
    occurrence. *)
Definition Set_values (l : list string) : list string :=
  fold_left (fun seen x => if includes x seen then seen else (seen ++ [x])%list)
    l [].

(** The same on an array of numbers. *)
Definition Set_valuesZ (l : list Z) : list Z :=
  fold_left (fun seen x => if includesZ x seen then seen else (seen ++ [x])%list)
    l [].

(** [l[i]] for an integer [i]; [None] is [undefined]. *)
Definition Array_get {A : Type} (l : list A) (i : Z) : option A :=
  if i <? 0 then None else nth_error l (Z.to_nat i).

End JS.

(** ** The MD5 digest behind [crypto.createHash('md5')] (RFC 1321) *)

Module MD5.

Definition add32 (a b : Z) : Z := (a + b) mod 2 ^ 32.

Definition not32 (a : Z) : Z := Z.lxor a (Z.ones 32).

Definition rotl32 (x c : Z) : Z :=
  Z.lor (Z.shiftl x c mod 2 ^ 32) (Z.shiftr x (32 - c)).

Definition shifts : list Z :=
  [ 7; 12; 17; 22; 7; 12; 17; 22; 7; 12; 17; 22; 7; 12; 17; 22;
    5; 9; 14; 20; 5; 9; 14; 20; 5; 9; 14; 20; 5; 9; 14; 20;
    4; 11; 16; 23; 4; 11; 16; 23; 4; 11; 16; 23; 4; 11; 16; 23;
    6; 10; 15; 21; 6; 10; 15; 21; 6; 10; 15; 21; 6; 10; 15; 21 ].

Definition sines : list Z :=
  [ 0xd76aa478; 0xe8c7b756; 0x242070db; 0xc1bdceee;
    0xf57c0faf; 0x4787c62a; 0xa8304613; 0xfd469501;
    0x698098d8; 0x8b44f7af; 0xffff5bb1; 0x895cd7be;
    0x6b901122; 0xfd987193; 0xa679438e; 0x49b40821;
    0xf61e2562; 0xc040b340; 0x265e5a51; 0xe9b6c7aa;
    0xd62f105d; 0x02441453; 0xd8a1e681; 0xe7d3fbc8;
    0x21e1cde6; 0xc33707d6; 0xf4d50d87; 0x455a14ed;
    0xa9e3e905; 0xfcefa3f8; 0x676f02d9; 0x8d2a4c8a;
    0xfffa3942; 0x8771f681; 0x6d9d6122; 0xfde5380c;
    0xa4beea44; 0x4bdecfa9; 0xf6bb4b60; 0xbebfbc70;
    0x289b7ec6; 0xeaa127fa; 0xd4ef3085; 0x04881d05;
    0xd9d4d039; 0xe6db99e5; 0x1fa27cf8; 0xc4ac5665;
    0xf4292244; 0x432aff97; 0xab9423a7; 0xfc93a039;
    0x655b59c3; 0x8f0ccc92; 0xffeff47d; 0x85845dd1;
    0x6fa87e4f; 0xfe2ce6e0; 0xa3014314; 0x4e0811a1;
    0xf7537e82; 0xbd3af235; 0x2ad7d2bb; 0xeb86d391 ].

(** Little-endian bytes of a number. *)
Fixpoint le_bytes (n : nat) (x : Z) : list Z :=
  match n with
  | O => []
  | S n' => x mod 256 :: le_bytes n' (x / 256)
  end.

Fixpoint le_word (bs : list Z) : Z :=
  match bs with
  | [] => 0
  | b :: bs' => b + 256 * le_word bs'
  end.

(** The message, the byte 0x80, zeros up to 56 modulo 64, and the bit
    length on eight bytes. *)
Definition pad (msg : list Z) : list Z :=
  let n := Z.of_nat (List.length msg) in
  let zeros := Z.to_nat ((55 - n) mod 64) in
  msg ++ [128] ++ repeat 0 zeros ++ le_bytes 8 ((8 * n) mod 2 ^ 64).

(** The sixteen words of a 64-byte block. *)
Fixpoint words (n : nat) (bs : list Z) : list Z :=
  match n with
  | O => []
  | S n' => le_word (firstn 4 bs) :: words n' (skipn 4 bs)
  end.

Definition state : Type := (Z * Z * Z * Z)%type.

Definition round (m : list Z) (st : state) (i : Z) : state :=
  let '(a, b, c, d) := st in
  let f :=
    if i <? 16 then Z.lor (Z.land b c) (Z.land (not32 b) d)
    else if i <? 32 then Z.lor (Z.land d b) (Z.land (not32 d) c)
    else if i <? 48 then Z.lxor b (Z.lxor c d)
    else Z.lxor c (Z.lor b (not32 d)) in
  let g :=
    if i <? 16 then i
    else if i <? 32 then (5 * i + 1) mod 16
    else if i <? 48 then (3 * i + 5) mod 16
    else (7 * i) mod 16 in
  let f := add32 (add32 (add32 f a) (nth (Z.to_nat i) sines 0))
                 (nth (Z.to_nat g) m 0) in
  (d, add32 b (rotl32 f (nth (Z.to_nat i) shifts 0)), b, c).

Definition block (st : state) (bs : list Z) : state :=
  let m := words 16 bs in
  let '(a, b, c, d) := st in
  let '(a', b', c', d') :=
    fold_left (round m) (map Z.of_nat (seq 0 64)) st in
  (add32 a a', add32 b b', add32 c c', add32 d d').

Fixpoint blocks (n : nat) (st : state) (bs : list Z) : state :=
  match n with
  | O => st
  | S n' => blocks n' (block st (firstn 64 bs)) (skipn 64 bs)
  end.

Definition initial : state :=
  (0x67452301, 0xefcdab89, 0x98badcfe, 0x10325476).

(** The sixteen bytes of the digest. *)
Definition digest (msg : list Z) : list Z :=
  let p := pad msg in
  let '(a, b, c, d) := blocks (List.length p / 64) initial p in
  le_bytes 4 a ++ le_bytes 4 b ++ le_bytes 4 c ++ le_bytes 4 d.

Definition hex_digit (n : Z) : ascii :=
  nth (Z.to_nat n)
    [ "0"; "1"; "2"; "3"; "4"; "5"; "6"; "7";
      "8"; "9"; "a"; "b"; "c"; "d"; "e"; "f" ]%char "0"%char.

Fixpoint hex (bs : list Z) : string :=
  match bs with
  | [] => EmptyString
  | b :: bs' => String (hex_digit (b / 16)) (String (hex_digit (b mod 16)) (hex bs'))
  end.

(** The UTF-8 bytes of a text (the model keeps texts as byte strings). *)
Definition bytes_of (s : string) : list Z :=
  map (fun c => Z.of_N (N_of_ascii c)) (list_ascii_of_string s).

(** [crypto.createHash('md5').update(s).digest('hex')] *)
Definition md5_hex (s : string) : string := hex (digest (bytes_of s)).

End MD5.

(** ** SSLAnalyzer.js (mock-data revision): the score of the SSL dimension *)

Module SSLAnalyzer.
Import JS.

Record Cipher := {
  cipher_name : string;
  bits : Z;
  strength : string
}.

Record Certificate := {
  issuer : string;
  subject : string;
  validFrom : string;
  validTo : string;
  daysRemaining : Z;
  expired : bool;
  signatureAlgorithm : option string;
  isSelfSigned : bool
}.

Record Vulnerability := {
  vuln_id : string;
  severity : string;
  vuln_description : string
}.

(** The body of the [forEach] over the vulnerabilities. *)
Definition vulnerability_step (score : Z) (v : Vulnerability) : Z :=
  let score := if (severity v =? "critical")%string then score - 30 else score in
  let score := if (severity v =? "high")%string then score - 15 else score in
  let score := if (severity v =? "medium")%string then score - 7 else score in
  let score := if (severity v =? "low")%string then score - 3 else score in
  score.

(** [certificate.signatureAlgorithm && certificate.signatureAlgorithm.includes('ecdsa')] *)
Definition is_ecdsa (certificate : Certificate) : bool :=
  match signatureAlgorithm certificate with
  | Some alg => str_includes alg "ecdsa"
  | None => false
  end.

(** [SSLAnalyzer.calculateSslScore], statement by statement. *)
Definition calculateSslScore (protocols : list string) (ciphers : list Cipher)
    (certificate : Certificate) (vulnerabilities : list Vulnerability) : Z :=
  let score := 50 in
  let score := if includes "TLSv1.3" protocols then score + 20 else score in
  let score := if includes "TLSv1.2" protocols then score + 10 else score in
  let score := if includes "TLSv1.1" protocols then score - 5 else score in
  let score := if includes "TLSv1.0" protocols then score - 10 else score in
  let score := if includes "SSLv3" protocols then score - 25 else score in
  let strong := len (List.filter (fun c => (strength c =? "strong")%string) ciphers) in
  let weak := len (List.filter (fun c => (strength c =? "weak")%string) ciphers) in
  let score := score + strong * 8 in
  let score := score - weak * 12 in
  let score := if expired certificate then score - 30 else score in
  let score := if isSelfSigned certificate then score - 20 else score in
  let score := if daysRemaining certificate >? 180 then score + 10 else score in
  let score := if is_ecdsa certificate then score + 5 else score in
  let score := fold_left vulnerability_step vulnerabilities score in
  let score := if score >? 100 then 100 else score in
  let score := if score <? 0 then 0 else score in
  Math_round (inject_Z score).

(** [SSLAnalyzer.calculateGrade] of the same revision. *)
Definition calculateGrade (score : Z) : string :=
  if score >=? 90 then "A+"
  else if score >=? 80 then "A"
  else if score >=? 70 then "B"
  else if score >=? 60 then "C"
  else if score >=? 40 then "D"
  else "F".

(** *** The seed of the mock data and the seeded pseudo-random value *)

(** [crypto.createHash('md5').update(domain.toLowerCase()).digest('hex')] *)
Definition domainHash (domain : string) : string :=
  MD5.md5_hex (toLowerCase domain).

(** [parseInt(domainHash.substring(0, 8), 16) || 1] *)
Definition seed (domain : string) : Z :=
  nan_or_default (parseInt16 (String.substring 0 8 (domainHash domain))) 1.

(** [SSLAnalyzer.seededRandom] *)
Definition seededRandom (n : R) : R :=
  let x := (Math_sin n * 10000)%R in
  (x - IZR (Math_floor x))%R.

(** *** The closed form of the score *)

Definition clamp (lo hi x : Z) : Z := Z.max lo (Z.min hi x).

Definition b2z (b : bool) (z : Z) : Z := if b then z else 0.

Definition protocol_points (protocols : list string) : Z :=
  b2z (includes "TLSv1.3" protocols) 20
  + b2z (includes "TLSv1.2" protocols) 10
  - b2z (includes "TLSv1.1" protocols) 5
  - b2z (includes "TLSv1.0" protocols) 10
  - b2z (includes "SSLv3" protocols) 25.

Definition count_strength (s : string) (ciphers : list Cipher) : Z :=
  len (List.filter (fun c => (strength c =? s)%string) ciphers).

Definition cipher_points (ciphers : list Cipher) : Z :=
  8 * count_strength "strong" ciphers - 12 * count_strength "weak" ciphers.

Definition certificate_points (certificate : Certificate) : Z :=
  - b2z (expired certificate) 30
  - b2z (isSelfSigned certificate) 20
  + b2z (daysRemaining certificate >? 180) 10.

Definition severity_penalty (v : Vulnerability) : Z :=
  if (severity v =? "critical")%string then 30
  else if (severity v =? "high")%string then 15
  else if (severity v =? "medium")%string then 7
  else if (severity v =? "low")%string then 3
  else 0.

Definition vulnerability_penalty (vulnerabilities : list Vulnerability) : Z :=
  fold_right Z.add 0 (map severity_penalty vulnerabilities).

(** The score as the specification words it: the listed terms only,
    clamped to [0,100]. *)
Definition spec_ssl_score (protocols : list string) (ciphers : list Cipher)
    (certificate : Certificate) (vulnerabilities : list Vulnerability) : Z :=
  clamp 0 100
    (protocol_points protocols + cipher_points ciphers
     + certificate_points certificate
     - vulnerability_penalty vulnerabilities).

(** A certificate and cipher list of the kind the generator yields for a
    development host: TLS 1.2 only, ninety days left, RSA signature. *)
Definition dev_certificate : Certificate := {|
  issuer := "DigiCert";
  subject := "CN=dev.example.org";
  validFrom := "2025-01-01T00:00:00.000Z";
  validTo := "2025-07-01T00:00:00.000Z";
  daysRemaining := 90;
  expired := false;
  signatureAlgorithm := Some "rsa-sha256";
  isSelfSigned := false
|}.

Definition dev_ciphers : list Cipher :=
  [ {| cipher_name := "TLS_AES_128_GCM_SHA256"; bits := 128; strength := "strong" |};
    {| cipher_name := "AES128-SHA"; bits := 128; strength := "medium" |} ].

(** *** The mock data generator *)

(** [SSLAnalyzer.determineSslQuality] *)
Definition determineSslQuality (domain : string) (seed : Z) : string :=
  let domainLower := toLowerCase domain in
  if str_includes domainLower "bank" || str_includes domainLower "secure"
     || str_includes domainLower "finance" || str_includes domainLower "payment"
     || str_includes domainLower "google" || str_includes domainLower "microsoft"
     || str_includes domainLower "amazon" || str_includes domainLower "apple"
  then "excellent"
  else if str_includes domainLower "test" || str_includes domainLower "demo"
          || str_includes domainLower "old" || str_includes domainLower "legacy"
          || str_includes domainLower "insecure"
  then "poor"
  else if str_includes domainLower "dev" || str_includes domainLower "staging"
          || str_includes domainLower "localhost"
  then "development"
  else
    let random := seededRandom (IZR seed) in
    if gt random (8 / 10) then "excellent"
    else if gt random (6 / 10) then "good"
    else if gt random (4 / 10) then "average"
    else if gt random (2 / 10) then "below_average"
    else "poor".

(** [protocols.push(...)] when [c] holds. *)
Definition push_when (c : bool) (more protocols : list string) : list string :=
  if c then (protocols ++ more)%list else protocols.

(** [SSLAnalyzer.generateProtocols] *)
Definition generateProtocols (sslQuality : string) (seed : Z) : list string :=
  let protocols := [] in
  let protocols :=
    if (sslQuality =? "excellent")%string then
      (protocols ++ ["TLSv1.3"; "TLSv1.2"])%list
    else if (sslQuality =? "good")%string then
      let protocols := (protocols ++ ["TLSv1.2"])%list in
      let protocols :=
        push_when (gt (seededRandom (IZR (seed * 2))) (7 / 10)) ["TLSv1.3"]
          protocols in
      push_when (gt (seededRandom (IZR (seed * 3))) (8 / 10)) ["TLSv1.1"]
        protocols
    else if (sslQuality =? "average")%string then
      let protocols := (protocols ++ ["TLSv1.2"; "TLSv1.1"])%list in
      push_when (gt (seededRandom (IZR (seed * 4))) (6 / 10)) ["TLSv1.0"]
        protocols
    else if (sslQuality =? "below_average")%string then
      let protocols := (protocols ++ ["TLSv1.1"; "TLSv1.0"])%list in
      let protocols :=
        push_when (gt (seededRandom (IZR (seed * 5))) (7 / 10)) ["TLSv1.2"]
          protocols in
      push_when (gt (seededRandom (IZR (seed * 6))) (9 / 10)) ["SSLv3"]
        protocols
    else if (sslQuality =? "poor")%string then
      let protocols := (protocols ++ ["TLSv1.0"])%list in
      let protocols :=
        push_when (gt (seededRandom (IZR (seed * 7))) (5 / 10)) ["SSLv3"]
          protocols in
      push_when (gt (seededRandom (IZR (seed * 8))) (6 / 10)) ["TLSv1.1"]
        protocols
    else if (sslQuality =? "development")%string then
      let protocols := (protocols ++ ["TLSv1.2"])%list in
      push_when (gt (seededRandom (IZR (seed * 9))) (5 / 10))
        ["TLSv1.1"; "TLSv1.0"] protocols
    else protocols in
  Set_values protocols.

(** [Math.floor(this.seededRandom(seed * k) * n) + base] *)
Definition random_days (seed k n base : Z) : Z :=
  Math_floor (seededRandom (IZR (seed * k)) * IZR n) + base.

Definition day_ms : Z := 24 * 60 * 60 * 1000.

(** [SSLAnalyzer.generateCertificate]; [now] is [new Date()] in
    milliseconds and [toISOString] prints such a time. *)
Definition generateCertificate (toISOString : Z -> string) (now : Z)
    (domain sslQuality : string) (seed : Z) : Certificate :=
  let '(validFromDays, validToDays) :=
    if (sslQuality =? "excellent")%string then
      (random_days seed 10 30 30, random_days seed 11 180 275)
    else if (sslQuality =? "good")%string then
      (random_days seed 12 90 30, random_days seed 13 120 90)
    else if (sslQuality =? "average")%string then
      (random_days seed 14 180 60, random_days seed 15 90 30)
    else if (sslQuality =? "below_average")%string then
      (random_days seed 16 365 90, random_days seed 17 60 10)
    else if (sslQuality =? "poor")%string then
      (random_days seed 18 730 180, random_days seed 19 30 5)
    else (90, 90) in
  let validFrom := now - validFromDays * day_ms in
  let validTo := now + validToDays * day_ms in
  let daysRemaining :=
    Math_ceil (inject_Z (validTo - now) / inject_Z day_ms)%Q in
  {| issuer := if gt (seededRandom (IZR (seed * 21))) (5 / 10)
               then "Let's Encrypt" else "DigiCert";
     subject := "CN=" ++ domain;
     validFrom := toISOString validFrom;
     validTo := toISOString validTo;
     daysRemaining := daysRemaining;
     expired := daysRemaining <=? 0;
     signatureAlgorithm :=
       Some (if gt (seededRandom (IZR (seed * 23))) (6 / 10)
             then "rsa-sha256" else "ecdsa-sha256");
     isSelfSigned := gt (seededRandom (IZR (seed * 22))) (95 / 100) |}.

Definition cipherPool : list Cipher :=
  [ {| cipher_name := "TLS_AES_128_GCM_SHA256"; bits := 128; strength := "strong" |};
    {| cipher_name := "TLS_AES_256_GCM_SHA384"; bits := 256; strength := "strong" |};
    {| cipher_name := "ECDHE-RSA-AES128-GCM-SHA256"; bits := 128; strength := "strong" |};
    {| cipher_name := "ECDHE-RSA-AES256-GCM-SHA384"; bits := 256; strength := "strong" |};
    {| cipher_name := "AES128-SHA"; bits := 128; strength := "medium" |};
    {| cipher_name := "AES256-SHA"; bits := 256; strength := "medium" |};
    {| cipher_name := "RC4-SHA"; bits := 128; strength := "weak" |};
    {| cipher_name := "DES-CBC3-SHA"; bits := 168; strength := "weak" |};
    {| cipher_name := "SSLv3-KRB5"; bits := 56; strength := "weak" |} ].

(** [cipherPool[i]] for the indices the code uses. *)
Definition pool (i : nat) : Cipher :=
  nth i cipherPool {| cipher_name := ""; bits := 0; strength := "" |}.

(** [SSLAnalyzer.generateCiphers] *)
Definition generateCiphers (sslQuality : string) (seed : Z) : list Cipher :=
  let picks :=
    if (sslQuality =? "excellent")%string then [pool 1; pool 0; pool 2; pool 3]
    else if (sslQuality =? "good")%string then [pool 0; pool 2; pool 4]
    else if (sslQuality =? "average")%string then [pool 2; pool 4; pool 5]
    else if (sslQuality =? "below_average")%string then [pool 4; pool 6; pool 7]
    else if (sslQuality =? "poor")%string then [pool 6; pool 7; pool 8]
    else if (sslQuality =? "development")%string then [pool 0; pool 4]
    else [pool 4; pool 5] in
  map (fun p => {| cipher_name := cipher_name p; bits := bits p;
                   strength := strength p |}) picks.

(** [vulns.push(v)] when [c] holds. *)
Definition push_vuln (c : bool) (v : Vulnerability) (vulns : list Vulnerability)
    : list Vulnerability :=
  if c then (vulns ++ [v])%list else vulns.

(** [SSLAnalyzer.generateVulnerabilities] *)
Definition generateVulnerabilities (protocols : list string)
    (ciphers : list Cipher) (certificate : Certificate) (sslQuality : string)
    : list Vulnerability :=
  let vulns := [] in
  let vulns :=
    push_vuln (includes "SSLv3" protocols)
      {| vuln_id := "POODLE"; severity := "high";
         vuln_description := "SSLv3 is vulnerable to POODLE attacks." |} vulns in
  let vulns :=
    push_vuln (includes "TLSv1.0" protocols || includes "TLSv1.1" protocols)
      {| vuln_id := "LEGACY_TLS"; severity := "medium";
         vuln_description := "Legacy TLS versions have known weaknesses." |}
      vulns in
  let vulns :=
    push_vuln (existsb (fun c => str_includes (cipher_name c) "RC4") ciphers)
      {| vuln_id := "RC4"; severity := "high";
         vuln_description := "RC4 cipher is insecure and must not be used." |}
      vulns in
  let vulns :=
    push_vuln (existsb (fun c => (strength c =? "weak")%string) ciphers)
      {| vuln_id := "WEAK_CIPHERS"; severity := "medium";
         vuln_description := "Weak cipher suites present." |} vulns in
  let vulns :=
    push_vuln (isSelfSigned certificate)
      {| vuln_id := "SELF_SIGNED"; severity := "high";
         vuln_description := "Certificate is self-signed." |} vulns in
  let vulns :=
    push_vuln (expired certificate)
      {| vuln_id := "CERT_EXPIRED"; severity := "high";
         vuln_description := "Certificate has expired." |} vulns in
  let vulns :=
    push_vuln ((daysRemaining certificate <? 14) && negb (expired certificate))
      {| vuln_id := "CERT_NEAR_EXPIRY"; severity := "medium";
         vuln_description := "Certificate is near expiry." |} vulns in
  let vulns :=
    push_vuln
      ((sslQuality =? "poor")%string
       && gt (seededRandom
                (IZR (or_default (Some (daysRemaining certificate)) 1 + 99)))
            (7 / 10))
      {| vuln_id := "HEARTBLEED_MOCK"; severity := "critical";
         vuln_description :=
           "Mock: Heartbleed-like vulnerability flagged in handshake." |}
      vulns in
  vulns.

(** [recs.push(r)] when [c] holds. *)
Definition push_rec (c : bool) (r : string) (recs : list string) : list string :=
  if c then (recs ++ [r])%list else recs.

(** [SSLAnalyzer.generateRecommendations] of this revision (the two
    statements on [seededRandom(1)] and [seededRandom(2)] have empty
    bodies). *)
Definition generateRecommendations (protocols : list string)
    (ciphers : list Cipher) (vulnerabilities : list Vulnerability)
    (certificate : Certificate) (sslQuality : string) : list string :=
  let recs := [] in
  let recs :=
    push_rec (negb (includes "TLSv1.3" protocols))
      "Enable TLSv1.3 where possible for better performance and security."
      recs in
  let recs :=
    push_rec (includes "SSLv3" protocols || includes "TLSv1.0" protocols
              || includes "TLSv1.1" protocols)
      "Disable legacy protocols: SSLv3, TLSv1.0, and TLSv1.1." recs in
  let recs :=
    push_rec (existsb (fun c => (strength c =? "weak")%string) ciphers)
      "Remove weak cipher suites (RC4, DES, or SSLv3-based suites)." recs in
  let recs :=
    push_rec (negb (existsb (fun c => str_includes (cipher_name c) "GCM") ciphers))
      "Prefer AEAD ciphers (AES-GCM or ChaCha20-Poly1305)." recs in
  let recs :=
    push_rec (isSelfSigned certificate)
      "Replace self-signed certificate with one from a trusted CA." recs in
  let recs :=
    push_rec (expired certificate)
      "Renew the TLS certificate immediately." recs in
  let recs :=
    push_rec ((daysRemaining certificate <? 30) && negb (expired certificate))
      "Plan certificate renewal soon (less than 30 days remaining)." recs in
  let recs :=
    push_rec (sslQuality =? "poor")%string
      "Perform a full TLS configuration review and re-issue certificates as needed."
      recs in
  (recs ++ ["Use HSTS, enable OCSP stapling, and ensure proper certificate chain is served (include intermediates)."])%list.

(** [SSLAnalyzer.generateChainIssues] *)
Definition generateChainIssues (sslQuality : string) (seed : Z) : list string :=
  let issues := [] in
  if (sslQuality =? "poor")%string then
    let issues := (issues ++ ["Missing intermediate certificate(s)."])%list in
    push_rec (gt (seededRandom (IZR (seed * 31))) (5 / 10))
      "Certificate chain order incorrect." issues
  else if (sslQuality =? "development")%string then
    (issues ++ ["Self-signed or development CA used."])%list
  else
    push_rec (gt (seededRandom (IZR (seed * 32))) (85 / 100))
      "Intermediate certificate missing." issues.

Record Details := {
  hasSSL : bool;
  details_sslQuality : string;
  chainIssues : list string;
  ocspStapling : bool;
  hstsEnabled : bool;
  httpRedirect : bool;
  weakCiphers : Z;
  strongCiphers : Z
}.

Record MockData := {
  grade : string;
  protocols : list string;
  ciphers : list Cipher;
  certificate : Certificate;
  vulnerabilities : list Vulnerability;
  recommendations : list string;
  score : Z;
  details : Details
}.

(** [SSLAnalyzer.generateRealisticMockData], on a domain that is a
    string and at a time whose dates can be printed (nothing throws). *)
Definition generateRealisticMockData (toISOString : Z -> string) (now : Z)
    (domain : string) : MockData :=
  let seed := seed domain in
  let sslQuality := determineSslQuality domain seed in
  let protocols := generateProtocols sslQuality seed in
  let certificate := generateCertificate toISOString now domain sslQuality seed in
  let ciphers := generateCiphers sslQuality seed in
  let vulnerabilities :=
    generateVulnerabilities protocols ciphers certificate sslQuality in
  let score := calculateSslScore protocols ciphers certificate vulnerabilities in
  let grade := calculateGrade score in
  let recommendations :=
    generateRecommendations protocols ciphers vulnerabilities certificate
      sslQuality in
  {| grade := grade;
     protocols := protocols;
     ciphers := ciphers;
     certificate := certificate;
     vulnerabilities := vulnerabilities;
     recommendations := recommendations;
     score := score;
     details :=
       {| hasSSL := true;
          details_sslQuality := sslQuality;
          chainIssues := generateChainIssues sslQuality seed;
          ocspStapling := gt (seededRandom (IZR (seed * 7))) (3 / 10);
          hstsEnabled := gt (seededRandom (IZR (seed * 8))) (4 / 10);
          httpRedirect := gt (seededRandom (IZR (seed * 9))) (2 / 10);
          weakCiphers :=
            len (List.filter (fun c => (strength c =? "weak")%string) ciphers);
          strongCiphers :=
            len (List.filter (fun c => (strength c =? "strong")%string) ciphers)
       |} |}.

(** The words [determineSslQuality] looks for in the lower-cased domain,
    tier by tier, in the order in which it looks for them. *)
Definition excellent_words : list string :=
  ["bank"; "secure"; "finance"; "payment"; "google"; "microsoft"; "amazon";
   "apple"].

Definition poor_words : list string :=
  ["test"; "demo"; "old"; "legacy"; "insecure"].

Definition development_words : list string := ["dev"; "staging"; "localhost"].

(** The protocol names the generator draws from. *)
Definition known_protocols : list string :=
  ["TLSv1.3"; "TLSv1.2"; "TLSv1.1"; "TLSv1.0"; "SSLv3"].

(** A vulnerability of the kind [name] is among [l]. *)
Definition has_vuln (name : string) (l : list Vulnerability) : bool :=
  includes name (map vuln_id l).

End SSLAnalyzer.

(** ** SSLAnalyzer.js (the revision that connects to the host) *)

Module SSLAnalyzerLive.
Import JS.

(** The certificate information, as far as the analysis reads it;
    [None] is the [NaN] of a date that does not parse. *)
Record CertInfo := {
  validTo : string;
  daysUntilExpiry : option Z
}.

Record Cipher := {
  name : string;
  version : string;
  standardName : string
}.

Record Result := {
  grade : string;
  protocols : list string;
  ciphers : list Cipher;
  certificate : option CertInfo;
  vulnerabilities : list string;
  recommendations : list string;
  score : Z
}.

(** [SSLAnalyzer.checkProtocols], given what [testProtocol] resolves to
    for each protocol. *)
Definition checkProtocols (testProtocol : string -> bool) : list string :=
  let protocols := ["TLSv1.3"; "TLSv1.2"; "TLSv1.1"; "TLSv1.0"; "SSLv3"] in
  List.filter testProtocol protocols.

(** [SSLAnalyzer.calculateProtocolScore] *)
Definition calculateProtocolScore (protocols : list string) : Z :=
  let score := 0 in
  let score := if includes "TLSv1.3" protocols then score + 40 else score in
  let score := if includes "TLSv1.2" protocols then score + 30 else score in
  let score := if includes "TLSv1.1" protocols then score + 10 else score in
  let score := if includes "TLSv1.0" protocols then score + 5 else score in
  let score := if includes "SSLv3" protocols then score - 20 else score in
  Z.max 0 score.

(** [SSLAnalyzer.calculateCipherScore] *)
Definition calculateCipherScore (ciphers : list Cipher) : Z :=
  if len ciphers =? 0 then 0
  else
    let strongCiphers :=
      ["TLS_AES_256_GCM_SHA384"; "TLS_CHACHA20_POLY1305_SHA256";
       "TLS_AES_128_GCM_SHA256"] in
    let hasStrongCipher :=
      existsb
        (fun cipher =>
           includes (name cipher) strongCiphers
           || str_includes (name cipher) "GCM"
           || str_includes (name cipher) "CHACHA20")
        ciphers in
    if hasStrongCipher then 30 else 15.

(** [certInfo && certInfo.daysUntilExpiry < 30]; a comparison with
    [NaN] is false. *)
Definition expires_soon (certInfo : option CertInfo) : option Z :=
  match certInfo with
  | Some c =>
      match daysUntilExpiry c with
      | Some d => if d <? 30 then Some d else None
      | None => None
      end
  | None => None
  end.

(** [vulnerabilities.push(v)] when [c] holds. *)
Definition push_when (c : bool) (v : string) (l : list string) : list string :=
  if c then (l ++ [v])%list else l.

(** [SSLAnalyzer.checkVulnerabilities] *)
Definition checkVulnerabilities (protocols : list string)
    (ciphers : list Cipher) (certInfo : option CertInfo) : list string :=
  let vulnerabilities := [] in
  let vulnerabilities :=
    push_when (includes "SSLv3" protocols)
      "SSLv3 is vulnerable to POODLE attack" vulnerabilities in
  let vulnerabilities :=
    push_when (includes "TLSv1.0" protocols) "TLSv1.0 is considered weak"
      vulnerabilities in
  let vulnerabilities :=
    push_when (includes "TLSv1.1" protocols) "TLSv1.1 is considered weak"
      vulnerabilities in
  let vulnerabilities :=
    match expires_soon certInfo with
    | Some d =>
        (vulnerabilities
         ++ [("Certificate expires in " ++ Number_toString d ++ " days")%string])%list
    | None => vulnerabilities
    end in
  let weakCiphers := ["RC4"; "DES"; "3DES"; "MD5"] in
  let hasWeakCipher :=
    existsb
      (fun cipher =>
         existsb (fun weak => str_includes (name cipher) weak) weakCiphers)
      ciphers in
  push_when hasWeakCipher "Weak cipher suites detected" vulnerabilities.

(** [SSLAnalyzer.generateRecommendations] *)
Definition generateRecommendations (protocols : list string)
    (ciphers : list Cipher) (vulnerabilities : list string)
    (certInfo : option CertInfo) : list string :=
  let recommendations := [] in
  let recommendations :=
    push_when (negb (includes "TLSv1.3" protocols))
      "Enable TLS 1.3 for better security and performance" recommendations in
  let recommendations :=
    push_when
      (includes "SSLv3" protocols || includes "TLSv1.0" protocols
       || includes "TLSv1.1" protocols)
      "Disable SSLv3, TLS 1.0, and TLS 1.1" recommendations in
  let recommendations :=
    push_when (negb (is_null (expires_soon certInfo)))
      "Renew SSL certificate before expiration" recommendations in
  push_when (len vulnerabilities >? 0) "Address identified vulnerabilities"
    recommendations.

(** [SSLAnalyzer.calculateGrade] *)
Definition calculateGrade (score : Z) : string :=
  if score >=? 90 then "A+"
  else if score >=? 80 then "A"
  else if score >=? 70 then "B"
  else if score >=? 60 then "C"
  else if score >=? 50 then "D"
  else if score >=? 40 then "E"
  else "F".

(** [SSLAnalyzer.analyze], given what the connections to the host
    resolve to: whether it answers on HTTPS, its certificate, the
    protocols it accepts and the cipher it negotiates. *)
Definition analyze (hasHttps : bool) (certInfo : option CertInfo)
    (testProtocol : string -> bool) (ciphers : list Cipher) : Result :=
  if negb hasHttps then
    {| grade := "F"; protocols := []; ciphers := []; certificate := None;
       vulnerabilities := [];
       recommendations := ["Enable HTTPS for this domain"];
       score := 0 |}
  else
    let score := 0 in
    let score := if is_null certInfo then score else score + 20 in
    let protocols := checkProtocols testProtocol in
    let protocolScore := calculateProtocolScore protocols in
    let score := score + protocolScore in
    let cipherScore := calculateCipherScore ciphers in
    let score := score + cipherScore in
    let vulnerabilities := checkVulnerabilities protocols ciphers certInfo in
    let score := score - len vulnerabilities * 10 in
    {| grade := calculateGrade score;
       protocols := protocols;
       ciphers := ciphers;
       certificate := certInfo;
       vulnerabilities := vulnerabilities;
       recommendations :=
         generateRecommendations protocols ciphers vulnerabilities certInfo;
       score := score |}.

(** A host as good as the analysis can see, and one as bad. *)
Definition modern (protocol : string) : bool :=
  includes protocol ["TLSv1.3"; "TLSv1.2"].

Definition outdated (protocol : string) : bool :=
  includes protocol ["TLSv1.1"; "TLSv1.0"; "SSLv3"].

Definition strong_cipher : Cipher :=
  {| name := "TLS_AES_256_GCM_SHA384"; version := "TLSv1.3";
     standardName := "TLS_AES_256_GCM_SHA384" |}.

Definition lasting_certificate : CertInfo :=
  {| validTo := "Dec 31 23:59:59 2030 GMT"; daysUntilExpiry := Some 200 |}.

End SSLAnalyzerLive.

(** ** WhoisAnalyzer.js (mock-data revision): seed and pseudo-random value *)

Module WhoisAnalyzer.
Import JS.

(** [crypto.createHash('md5').update(domain.toLowerCase()).digest('hex')] *)
Definition domainHash (domain : string) : string :=
  MD5.md5_hex (toLowerCase domain).

(** [parseInt(domainHash.substring(0, 8), 16)]; [None] would be [NaN]. *)
Definition seed (domain : string) : option Z :=
  parseInt16 (String.substring 0 8 (domainHash domain)).

(** The local arrow function [seededRandom]. *)
Definition seededRandom (seed : R) : R :=
  let x := (Math_sin seed * 10000)%R in
  (x - IZR (Math_floor x))%R.

(** *** The record of a domain *)

(** [result.details]; a field that is not set ([undefined]) is [None].
    The [rawData] text, which embeds a [Math.random()] and formatted
    dates, is not modelled. *)
Record ContactInfo := {
  registrant : string;
  admin : string;
  tech : string;
  privacyService : option string;
  organization : option string
}.

Record Details := {
  hasPrivacy : option bool;
  hasDNSSEC : option bool;
  registrarReputation : option string;
  contactInfo : option ContactInfo
}.

(** The object [{}]. *)
Definition no_details : Details :=
  {| hasPrivacy := None; hasDNSSEC := None; registrarReputation := None;
     contactInfo := None |}.

(** The result of the analysis; a [Date] is the number of milliseconds
    its [getTime()] returns, and [None] is [null]. *)
Record Result := {
  error : option string;
  registrar : option string;
  creationDate : option Z;
  expirationDate : option Z;
  updatedDate : option Z;
  status : list string;
  nameServers : list string;
  domainAge : option Z;
  daysUntilExpiry : option Z;
  score : Z;
  recommendations : list string;
  details : Details
}.

Definition set_score (v : Z) (r : Result) : Result :=
  {| error := error r; registrar := registrar r;
     creationDate := creationDate r; expirationDate := expirationDate r;
     updatedDate := updatedDate r; status := status r;
     nameServers := nameServers r; domainAge := domainAge r;
     daysUntilExpiry := daysUntilExpiry r; score := v;
     recommendations := recommendations r; details := details r |}.

Definition set_recommendations (v : list string) (r : Result) : Result :=
  {| error := error r; registrar := registrar r;
     creationDate := creationDate r; expirationDate := expirationDate r;
     updatedDate := updatedDate r; status := status r;
     nameServers := nameServers r; domainAge := domainAge r;
     daysUntilExpiry := daysUntilExpiry r; score := score r;
     recommendations := v; details := details r |}.

Definition set_details (v : Details) (r : Result) : Result :=
  {| error := error r; registrar := registrar r;
     creationDate := creationDate r; expirationDate := expirationDate r;
     updatedDate := updatedDate r; status := status r;
     nameServers := nameServers r; domainAge := domainAge r;
     daysUntilExpiry := daysUntilExpiry r; score := score r;
     recommendations := recommendations r; details := v |}.

(** [WhoisAnalyzer.generateErrorResponse] *)
Definition generateErrorResponse (errorMessage : string) : Result :=
  {| error := Some errorMessage;
     registrar := None;
     creationDate := None;
     expirationDate := None;
     updatedDate := None;
     status := [];
     nameServers := [];
     domainAge := None;
     daysUntilExpiry := None;
     score := 0;
     recommendations :=
       ["Unable to retrieve domain information - verify domain exists"];
     details := {| hasPrivacy := Some false; hasDNSSEC := Some false;
                   registrarReputation := Some "unknown";
                   contactInfo := None |} |}.

(** *** The score *)

Definition goodStatuses : list string :=
  ["ok"; "active"; "clienttransferprohibited"; "clientupdateprohibited";
   "clientdeleteprohibited"].

Definition badStatuses : list string :=
  ["pendingdelete"; "redemptionperiod"; "clienthold"; "serverhold";
   "pendingrenew"].

(** One turn of [for (const status of result.status)]. *)
Definition status_step (score : Z) (status : string) : Z :=
  let statusLower := toLowerCase status in
  let score :=
    if existsb (fun s => str_includes statusLower s) goodStatuses
    then score + 3 else score in
  if existsb (fun s => str_includes statusLower s) badStatuses
  then score - 20 else score.

(** [WhoisAnalyzer.calculateWhoisScore]; a number that is [null] or 0 is
    falsy. *)
Definition calculateWhoisScore (result : Result)
    (domainAge daysUntilExpiry : option Z) : Z :=
  let score := 50 in
  let score :=
    match domainAge with
    | Some domainAge =>
        if domainAge =? 0 then score
        else if domainAge >? 365 * 10 then score + 25
        else if domainAge >? 365 * 5 then score + 20
        else if domainAge >? 365 * 2 then score + 15
        else if domainAge >? 365 then score + 10
        else if domainAge >? 180 then score + 5
        else if domainAge <? 30 then score - 25
        else if domainAge <? 90 then score - 15
        else score
    | None => score
    end in
  let score :=
    match daysUntilExpiry with
    | Some daysUntilExpiry =>
        if daysUntilExpiry =? 0 then score
        else if daysUntilExpiry <? 30 then score - 35
        else if daysUntilExpiry <? 90 then score - 20
        else if daysUntilExpiry <? 180 then score - 10
        else if daysUntilExpiry >? 365 * 2 then score + 15
        else if daysUntilExpiry >? 365 then score + 10
        else score
    | None => score
    end in
  let score := fold_left status_step (status result) score in
  let score :=
    if len (nameServers result) >=? 3 then score + 10
    else if len (nameServers result) >=? 2 then score + 5
    else if len (nameServers result) =? 1 then score - 5
    else score - 15 in
  let score :=
    match registrarReputation (details result) with
    | Some reputation =>
        if (reputation =? "reputable")%string then score + 5
        else if (reputation =? "unknown")%string then score - 5
        else score
    | None => score
    end in
  Z.max 0 (Z.min 100 score).

(** *** The recommendations *)

(** [recommendations.push(r)] when [c] holds. *)
Definition push_rec (c : bool) (r : string) (recommendations : list string)
    : list string :=
  if c then (recommendations ++ [r])%list else recommendations.

(** [x && x < k] and [x && x > k] for a number that may be [null]. *)
Definition below (x : option Z) (k : Z) : bool :=
  match x with
  | Some v => negb (v =? 0) && (v <? k)
  | None => false
  end.

Definition above (x : option Z) (k : Z) : bool :=
  match x with
  | Some v => negb (v =? 0) && (v >? k)
  | None => false
  end.

(** [!d.field] for a field of the details that may be [undefined]. *)
Definition not_set (x : option bool) : bool :=
  match x with
  | Some b => negb b
  | None => true
  end.

(** [WhoisAnalyzer.generateRecommendations] *)
Definition generateRecommendations (result : Result)
    (domainAge daysUntilExpiry : option Z) : list string :=
  let recommendations := [] in
  let recommendations :=
    if below domainAge 30 then
      (recommendations
       ++ ["🚨 Domain is very new (less than 30 days) - exercise caution"])%list
    else if below domainAge 90 then
      (recommendations
       ++ ["⚠️ Domain is relatively new (less than 3 months) - verify legitimacy"])%list
    else recommendations in
  let recommendations :=
    if below daysUntilExpiry 30 then
      (recommendations
       ++ ["🚨 CRITICAL: Domain expires in less than 30 days - renew immediately"])%list
    else if below daysUntilExpiry 90 then
      (recommendations
       ++ ["⚠️ Domain expires in less than 3 months - schedule renewal"])%list
    else if below daysUntilExpiry 180 then
      (recommendations
       ++ ["📅 Domain expires in less than 6 months - plan renewal"])%list
    else recommendations in
  let recommendations :=
    if len (status result) =? 0 then
      (recommendations
       ++ ["❓ No domain status information - verify domain legitimacy"])%list
    else
      let hasProtection :=
        existsb
          (fun status =>
             str_includes (toLowerCase status) "transferprohibited"
             || str_includes (toLowerCase status) "deleteprohibited"
             || str_includes (toLowerCase status) "updateprohibited")
          (status result) in
      push_rec (negb hasProtection)
        "🔒 Consider enabling domain protection (transfer/delete lock)"
        recommendations in
  let recommendations :=
    push_rec (len (nameServers result) <? 2)
      "⚡ Use multiple name servers (minimum 2) for redundancy"
      recommendations in
  let recommendations :=
    push_rec (not_set (hasPrivacy (details result)))
      "🛡️ Consider domain privacy protection to hide personal information"
      recommendations in
  let recommendations :=
    push_rec (not_set (hasDNSSEC (details result)))
      "🔐 Consider enabling DNSSEC for enhanced security"
      recommendations in
  let recommendations :=
    push_rec (above domainAge (365 * 5))
      "✅ Domain has excellent age (5+ years) - positive trust indicator"
      recommendations in
  push_rec (len (nameServers result) >=? 3)
    "✅ Good name server redundancy detected"
    recommendations.

(** *** The details *)

(** [WhoisAnalyzer.checkPrivacyProtection]; the digest is that of the
    domain as given, and the number read from its first four digits is
    never [NaN]. *)
Definition checkPrivacyProtection (registrar : option string) (domain : string)
    : bool :=
  let privacyEnabledRegistrars := ["Namecheap, Inc."; "Hover"; "Porkbun LLC"] in
  let hash := MD5.md5_hex domain in
  let seed := nan_or_default (parseInt16 (String.substring 0 4 hash)) 0 in
  if match registrar with
     | Some r => includes r privacyEnabledRegistrars
     | None => false
     end
  then seed mod 10 >? 3
  else seed mod 10 >? 6.

(** [WhoisAnalyzer.assessRegistrarReputation]; [null] and the empty text
    are falsy. *)
Definition assessRegistrarReputation (registrar : option string) : string :=
  match registrar with
  | None => "unknown"
  | Some registrar =>
      if (registrar =? "")%string then "unknown"
      else if includes registrar
                ["GoDaddy.com, LLC"; "Namecheap, Inc."; "Google LLC";
                 "Cloudflare, Inc."; "Name.com, Inc."; "Hover"; "Porkbun LLC"]
      then "reputable"
      else if existsb
                (fun s => str_includes (toLowerCase registrar) (toLowerCase s))
                ["Unknown Registrar"; "Private Registrar";
                 "Domain Privacy Service"]
      then "suspicious"
      else "other"
  end.

(** [WhoisAnalyzer.generateContactInfo] *)
Definition generateContactInfo (domain : string) (seed : R) : ContactInfo :=
  let hasPrivacy := gt seed (6 / 10) in
  if hasPrivacy then
    {| registrant := "REDACTED FOR PRIVACY";
       admin := "REDACTED FOR PRIVACY";
       tech := "REDACTED FOR PRIVACY";
       privacyService := Some "Domains By Proxy, LLC";
       organization := None |}
  else
    {| registrant := "Domain Administrator";
       admin := "hostmaster@" ++ domain;
       tech := "tech@" ++ domain;
       privacyService := None;
       organization := Some "Private" |}.

(** *** The data derived from the domain *)

Definition registrars : list string :=
  ["GoDaddy.com, LLC"; "Namecheap, Inc."; "Google LLC"; "Cloudflare, Inc.";
   "Name.com, Inc."; "Network Solutions, LLC"; "Tucows Domains Inc.";
   "eNom, LLC"; "Hover"; "Porkbun LLC"; "Dynadot LLC"; "NameSilo, LLC"].

Definition statusOptions : list (list string) :=
  [ ["clientTransferProhibited"; "clientUpdateProhibited";
     "clientDeleteProhibited"];
    ["ok"];
    ["clientTransferProhibited"; "serverTransferProhibited"];
    ["clientUpdateProhibited"; "serverUpdateProhibited"];
    ["active"] ].

(** [nameServerSets[registrar] || nameServerSets['default']] *)
Definition nameServerSets (registrar : option string) (domain : string)
    : list string :=
  let default := ["ns1." ++ domain; "ns2." ++ domain] in
  match registrar with
  | Some r =>
      if (r =? "GoDaddy.com, LLC")%string then
        ["ns1.godaddy.com"; "ns2.godaddy.com"]
      else if (r =? "Namecheap, Inc.")%string then
        ["dns1.registrar-servers.com"; "dns2.registrar-servers.com"]
      else if (r =? "Google LLC")%string then
        ["ns-cloud-e1.googledomains.com"; "ns-cloud-e2.googledomains.com";
         "ns-cloud-e3.googledomains.com"]
      else if (r =? "Cloudflare, Inc.")%string then
        ["ben.ns.cloudflare.com"; "roxy.ns.cloudflare.com"]
      else if (r =? "Name.com, Inc.")%string then
        ["ns1.name.com"; "ns2.name.com"; "ns3.name.com"]
      else default
  | None => default
  end.

Definition customDNS : list (list string) :=
  [ ["ns1.digitalocean.com"; "ns2.digitalocean.com"; "ns3.digitalocean.com"];
    ["dns1.p08.nsone.net"; "dns2.p08.nsone.net"; "dns3.p08.nsone.net";
     "dns4.p08.nsone.net"];
    ["ns1.linode.com"; "ns2.linode.com"; "ns3.linode.com"; "ns4.linode.com";
     "ns5.linode.com"];
    ["pdns1.ultradns.net"; "pdns2.ultradns.net"; "pdns3.ultradns.org";
     "pdns4.ultradns.org"] ].

Definition day_ms : Z := 24 * 60 * 60 * 1000.

(** The number the seed is in the arithmetic that follows: the digest
    being made of hexadecimal digits, the seed is never [NaN]. *)
Definition seed_number (domain : string) : Z := nan_or_default (seed domain) 0.

(** [let ageMultiplier], after the two biases. *)
Definition ageMultiplier (domain : string) (seed : Z) : R :=
  let ageMultiplier := seededRandom (IZR (seed * 2)) in
  if str_includes domain "google" || str_includes domain "microsoft"
     || str_includes domain "amazon" || str_includes domain "facebook"
  then (8 / 10 + ageMultiplier * (2 / 10))%R
  else if str_includes domain "test" || str_includes domain "demo"
          || str_includes domain "staging"
  then (ageMultiplier * (3 / 10))%R
  else ageMultiplier.

(** [WhoisAnalyzer.generateRealisticMockData]; [now] is the time
    [new Date()] reads. An entry read past the end of an array is
    [undefined], and iterating over it or taking its length throws: the
    [catch] then answers with the error response. *)
Definition generateRealisticMockData (now : Z) (domain : string) : Result :=
  let seed := seed_number domain in
  let registrar :=
    Array_get registrars
      (Math_floor (seededRandom (IZR seed) * IZR (len registrars))) in
  let maxAgeYears := 20%R in
  let minAgeDays := 1 in
  let ageMultiplier := ageMultiplier domain seed in
  let ageDays :=
    Z.max minAgeDays (Math_floor (ageMultiplier * maxAgeYears * 365)) in
  let creationDate := now - ageDays * 24 * 60 * 60 * 1000 in
  let expirationYears := 1 + Math_floor (seededRandom (IZR (seed * 3)) * 9) in
  let expirationDate := now + expirationYears * 365 * 24 * 60 * 60 * 1000 in
  let expiry :=
    Math_ceil (inject_Z (expirationDate - now) / inject_Z (24 * 60 * 60 * 1000)) in
  let daysSinceUpdate := Math_floor (seededRandom (IZR (seed * 4)) * 730) in
  let updatedDate := now - daysSinceUpdate * 24 * 60 * 60 * 1000 in
  match
    Array_get statusOptions
      (Math_floor (seededRandom (IZR (seed * 5)) * IZR (len statusOptions)))
  with
  | None => generateErrorResponse "result.status is not iterable"
  | Some status =>
      match
        if gt (seededRandom (IZR (seed * 6))) (7 / 10) then
          Array_get customDNS
            (Math_floor (seededRandom (IZR (seed * 7)) * IZR (len customDNS)))
        else Some (nameServerSets registrar domain)
      with
      | None =>
          generateErrorResponse
            "Cannot read properties of undefined (reading 'length')"
      | Some nameServers =>
          let result :=
            {| error := None;
               registrar := registrar;
               creationDate := Some creationDate;
               expirationDate := Some expirationDate;
               updatedDate := Some updatedDate;
               status := status;
               nameServers := nameServers;
               domainAge := Some ageDays;
               daysUntilExpiry := Some expiry;
               score := 0;
               recommendations := [];
               details := no_details |} in
          let result :=
            set_score
              (calculateWhoisScore result (domainAge result)
                 (daysUntilExpiry result)) result in
          let result :=
            set_recommendations
              (generateRecommendations result (domainAge result)
                 (daysUntilExpiry result)) result in
          set_details
            {| hasPrivacy := Some (checkPrivacyProtection registrar domain);
               hasDNSSEC := Some (gt (seededRandom (IZR (seed * 8))) (7 / 10));
               registrarReputation :=
                 Some (assessRegistrarReputation registrar);
               contactInfo :=
                 Some (generateContactInfo domain
                         (seededRandom (IZR (seed * 9)))) |}
            result
      end
  end.

End WhoisAnalyzer.

(** ** PortAnalyzer.js (the revision that scans nothing and derives its
       data from the domain) *)

Module PortAnalyzer.
Import JS.

(** An entry of [riskyPorts]: the port with its line of
    [riskDefinitions]. *)
Record RiskyPort := {
  port : Z;
  risk : string;
  service : string;
  risk_description : string
}.

(** [parseInt(domainHash.substring(0, 8), 16)]. The digest is made of 32
    hexadecimal digits, so that the number read is never [NaN] and the
    default here is never used. *)
Definition seed (domain : string) : Z :=
  nan_or_default
    (parseInt16 (String.substring 0 8 (MD5.md5_hex (toLowerCase domain)))) 0.

(** The local [seededRandom] *)
Definition seededRandom (seed : R) : R :=
  let x := (Math_sin seed * 10000)%R in
  (x - IZR (Math_floor x))%R.

Definition commonPorts_scanned : list Z :=
  [21; 22; 23; 25; 53; 80; 110; 143; 443; 993; 995;
   3306; 5432; 27017; 6379; 8080; 8443; 3000; 5000; 9000].

(** [PortAnalyzer.determineDomainType] *)
Definition determineDomainType (domain : string) : string :=
  let domainLower := toLowerCase domain in
  if str_includes domainLower "mail" || str_includes domainLower "smtp"
     || str_includes domainLower "imap"
  then "mail_server"
  else if str_includes domainLower "db" || str_includes domainLower "database"
          || str_includes domainLower "mysql"
          || str_includes domainLower "postgres"
  then "database_server"
  else if str_includes domainLower "dev" || str_includes domainLower "test"
          || str_includes domainLower "staging"
          || str_includes domainLower "localhost"
  then "development"
  else if str_includes domainLower "secure" || str_includes domainLower "bank"
          || str_includes domainLower "finance"
  then "secure_enterprise"
  else if str_includes domainLower "legacy" || str_includes domainLower "old"
          || str_includes domainLower "archive"
  then "legacy_system"
  else if str_includes domainLower "api" || str_includes domainLower "service"
  then "web_server"
  else "standard_web".

(** [baseOpenPorts.push(...)] when [c] holds. *)
Definition push_when (c : bool) (more ports : list Z) : list Z :=
  if c then (ports ++ more)%list else ports.

(** The [switch (domainType)] that fills [baseOpenPorts]. *)
Definition baseOpenPorts (domainType : string) (seed : Z) : list Z :=
  if (domainType =? "web_server")%string then
    let baseOpenPorts := [80; 443] in
    let baseOpenPorts :=
      push_when (gt (seededRandom (IZR (seed * 2))) (7 / 10)) [8080]
        baseOpenPorts in
    push_when (gt (seededRandom (IZR (seed * 3))) (8 / 10)) [8443] baseOpenPorts
  else if (domainType =? "mail_server")%string then
    let baseOpenPorts := [25; 143; 993; 80; 443] in
    push_when (gt (seededRandom (IZR (seed * 4))) (6 / 10)) [110; 995]
      baseOpenPorts
  else if (domainType =? "database_server")%string then
    let baseOpenPorts := [80; 443; 3306] in
    let baseOpenPorts :=
      push_when (gt (seededRandom (IZR (seed * 5))) (5 / 10)) [5432]
        baseOpenPorts in
    push_when (gt (seededRandom (IZR (seed * 6))) (3 / 10)) [27017]
      baseOpenPorts
  else if (domainType =? "development")%string then
    let baseOpenPorts := [80; 443; 3000; 8080] in
    let baseOpenPorts :=
      push_when (gt (seededRandom (IZR (seed * 7))) (6 / 10)) [5000; 9000]
        baseOpenPorts in
    push_when (gt (seededRandom (IZR (seed * 8))) (4 / 10)) [22] baseOpenPorts
  else if (domainType =? "secure_enterprise")%string then
    let baseOpenPorts := [443] in
    push_when (gt (seededRandom (IZR (seed * 9))) (8 / 10)) [22] baseOpenPorts
  else if (domainType =? "legacy_system")%string then
    let baseOpenPorts := [21; 23; 80] in
    push_when (gt (seededRandom (IZR (seed * 10))) (7 / 10)) [25; 110]
      baseOpenPorts
  else
    let baseOpenPorts := [80; 443] in
    push_when (gt (seededRandom (IZR (seed * 11))) (9 / 10)) [22] baseOpenPorts.

Definition additionalPorts : list Z := [22; 25; 53; 143; 993; 995].

(** One turn of [for (const port of additionalPorts)]. *)
Definition add_port (seed : Z) (baseOpenPorts : list Z) (port : Z) : list Z :=
  if negb (includesZ port baseOpenPorts)
     && gt (seededRandom (IZR (seed * port))) (85 / 100)
  then (baseOpenPorts ++ [port])%list
  else baseOpenPorts.

(** The comparator [(a, b) => a - b]. *)
Definition ascending (a b : Z) : option Z := Some (a - b).

(** [result.openPorts] *)
Definition generateOpenPorts (domainType : string) (seed : Z) : list Z :=
  let baseOpenPorts := baseOpenPorts domainType seed in
  let baseOpenPorts := fold_left (add_port seed) additionalPorts baseOpenPorts in
  Array_sort ascending (Set_valuesZ baseOpenPorts).

(** [riskDefinitions[port]]: the risk, the service and the description. *)
Definition riskDefinitions (port : Z) : option (string * string * string) :=
  if port =? 21 then
    Some ("critical", "FTP",
          "File Transfer Protocol - transmits credentials in plain text")
  else if port =? 23 then
    Some ("critical", "Telnet", "Telnet - unencrypted remote access protocol")
  else if port =? 3306 then
    Some ("critical", "MySQL",
          "MySQL database - should never be publicly accessible")
  else if port =? 5432 then
    Some ("critical", "PostgreSQL",
          "PostgreSQL database - should never be publicly accessible")
  else if port =? 27017 then
    Some ("critical", "MongoDB",
          "MongoDB database - should never be publicly accessible")
  else if port =? 6379 then
    Some ("critical", "Redis",
          "Redis database - often misconfigured without authentication")
  else if port =? 22 then
    Some ("high", "SSH",
          "SSH - secure but commonly targeted for brute force attacks")
  else if port =? 25 then
    Some ("high", "SMTP", "SMTP - can be abused for spam if misconfigured")
  else if port =? 53 then
    Some ("high", "DNS", "DNS - can be used for DDoS amplification attacks")
  else if port =? 110 then
    Some ("high", "POP3", "POP3 - transmits credentials in plain text")
  else if port =? 143 then
    Some ("high", "IMAP", "IMAP - transmits credentials in plain text")
  else if port =? 80 then
    Some ("medium", "HTTP",
          "HTTP - unencrypted web traffic, should redirect to HTTPS")
  else if port =? 8080 then
    Some ("medium", "HTTP-Alt",
          "Alternative HTTP port - often used for development/admin panels")
  else if port =? 3000 then
    Some ("medium", "Development",
          "Common development server port - should not be public")
  else if port =? 5000 then
    Some ("medium", "Development",
          "Common development server port - should not be public")
  else if port =? 9000 then
    Some ("medium", "Development",
          "Common development server port - should not be public")
  else if port =? 443 then
    Some ("low", "HTTPS", "HTTPS - secure web traffic (recommended)")
  else if port =? 993 then
    Some ("low", "IMAPS", "IMAP over SSL - secure email protocol")
  else if port =? 995 then
    Some ("low", "POP3S", "POP3 over SSL - secure email protocol")
  else if port =? 8443 then
    Some ("low", "HTTPS-Alt", "Alternative HTTPS port - generally secure")
  else None.

(** One turn of the loop of [identifyRiskyPorts]. *)
Definition push_risky (riskyPorts : list RiskyPort) (port : Z) : list RiskyPort :=
  match riskDefinitions port with
  | Some (risk, service, description) =>
      (riskyPorts
       ++ [ {| port := port; risk := risk; service := service;
               risk_description := description |} ])%list
  | None => riskyPorts
  end.

(** [PortAnalyzer.identifyRiskyPorts] *)
Definition identifyRiskyPorts (openPorts : list Z) : list RiskyPort :=
  fold_left push_risky openPorts [].

(** One turn of the first loop of [calculatePortScore]. *)
Definition deduct (score : Z) (riskyPort : RiskyPort) : Z :=
  if (risk riskyPort =? "critical")%string then score - 30
  else if (risk riskyPort =? "high")%string then score - 15
  else if (risk riskyPort =? "medium")%string then score - 8
  else if (risk riskyPort =? "low")%string then score - 2
  else score.

Definition databasePorts : list Z := [3306; 5432; 27017; 6379].
Definition legacyPorts : list Z := [21; 23; 110; 143].

(** [PortAnalyzer.calculatePortScore] *)
Definition calculatePortScore (openPorts : list Z) (riskyPorts : list RiskyPort)
    : Z :=
  let score := 100 in
  let score := fold_left deduct riskyPorts score in
  let score := if includesZ 443 openPorts then score + 10 else score in
  let score :=
    if includesZ 80 openPorts && negb (includesZ 443 openPorts)
    then score - 20 else score in
  let openDatabasePorts :=
    List.filter (fun port => includesZ port databasePorts) openPorts in
  let score := score - len openDatabasePorts * 35 in
  let openLegacyPorts :=
    List.filter (fun port => includesZ port legacyPorts) openPorts in
  let score := score - len openLegacyPorts * 25 in
  let score :=
    if len openPorts >? 5 then score - (len openPorts - 5) * 5 else score in
  let score :=
    if (len openPorts <=? 2) && includesZ 443 openPorts
    then score + 15 else score in
  Z.max 0 (Z.min 100 score).

(** [recommendations.push(r)] when [c] holds. *)
Definition push_rec (c : bool) (r : string) (recommendations : list string)
    : list string :=
  if c then (recommendations ++ [r])%list else recommendations.

(** [PortAnalyzer.generateRecommendations] *)
Definition generateRecommendations (openPorts : list Z)
    (riskyPorts : list RiskyPort) (domainType : string) : list string :=
  let recommendations := [] in
  let criticalPorts :=
    List.filter (fun p => (risk p =? "critical")%string) riskyPorts in
  let recommendations :=
    push_rec (len criticalPorts >? 0)
      ("🚨 CRITICAL: Close database/critical ports immediately ("
       ++ join ", " (map port criticalPorts)
       ++ ") - these should never be publicly accessible")
      recommendations in
  let databasePorts :=
    List.filter (fun p => includesZ (port p) [3306; 5432; 27017; 6379])
      riskyPorts in
  let recommendations :=
    push_rec (len databasePorts >? 0)
      "🔒 Database Security: Move databases behind firewall and use VPN/private networks for access"
      recommendations in
  let legacyPorts :=
    List.filter (fun p => includesZ (port p) [21; 23; 110; 143]) riskyPorts in
  let recommendations :=
    push_rec (len legacyPorts >? 0)
      ("🔧 Replace insecure protocols: "
       ++ String.concat ", "
            (map (fun p => service p ++ " (" ++ Number_toString (port p) ++ ")")
               legacyPorts)
       ++ " with secure alternatives (SFTP, SSH, IMAPS, POP3S)")
      recommendations in
  let recommendations :=
    if includesZ 80 openPorts && negb (includesZ 443 openPorts) then
      (recommendations
       ++ ["🔐 Enable HTTPS (port 443) and redirect all HTTP traffic to HTTPS"])%list
    else if includesZ 80 openPorts && includesZ 443 openPorts then
      (recommendations
       ++ ["✅ Ensure HTTP (port 80) properly redirects to HTTPS (port 443)"])%list
    else recommendations in
  let recommendations :=
    push_rec (includesZ 22 openPorts)
      "🛡️ SSH Security: Disable password authentication, use key-based auth, change default port, implement fail2ban"
      recommendations in
  let devPorts :=
    List.filter (fun port => includesZ port [3000; 5000; 8000; 8080; 9000])
      openPorts in
  let recommendations :=
    push_rec (len devPorts >? 0)
      ("⚠️ Development ports detected (" ++ join ", " devPorts
       ++ ") - ensure these are not production services")
      recommendations in
  let recommendations :=
    push_rec (includesZ 25 openPorts)
      "📧 SMTP Security: Implement proper authentication, SPF, DKIM, and DMARC records"
      recommendations in
  let recommendations :=
    push_rec (includesZ 53 openPorts)
      "🌐 DNS Security: Configure rate limiting and disable recursion for public queries"
      recommendations in
  let recommendations :=
    if (domainType =? "development")%string then
      (recommendations
       ++ ["🏗️ Development Environment: Ensure this is not accessible from production networks"])%list
    else if (domainType =? "secure_enterprise")%string then
      (recommendations
       ++ ["🏢 Enterprise Security: Implement network segmentation and VPN access"])%list
    else if (domainType =? "legacy_system")%string then
      (recommendations
       ++ ["⏰ Legacy System: Plan migration to modern, secure protocols"])%list
    else recommendations in
  let recommendations :=
    push_rec
      ((len openPorts <=? 2) && includesZ 443 openPorts
       && negb (existsb (fun p => (risk p =? "critical")%string
                                  || (risk p =? "high")%string) riskyPorts))
      "✅ Excellent port security - minimal attack surface detected"
      recommendations in
  let recommendations :=
    push_rec (len openPorts >? 5)
      ("📊 Attack Surface: " ++ Number_toString (len openPorts)
       ++ " open ports detected - review and close unnecessary services")
      recommendations in
  (recommendations
   ++ ["🔍 Regular Monitoring: Implement continuous port monitoring and alerting"])%list.

(** [result.details], the [serviceDetection] entry apart: the banners
    of [generateServiceInfo] are not modelled. *)
Record Details := {
  totalScanned : Z;
  openCount : Z;
  closedCount : Z;
  riskyCount : Z;
  domainType : string;
  scanDuration : Z;
  methodology : string
}.

Record MockData := {
  openPorts : list Z;
  closedPorts : list Z;
  commonPorts : list Z;
  riskyPorts : list RiskyPort;
  score : Z;
  recommendations : list string;
  details : Details
}.

(** [PortAnalyzer.generateRealisticMockData] *)
Definition generateRealisticMockData (domain : string) : MockData :=
  let seed := seed domain in
  let commonPorts := commonPorts_scanned in
  let domainType := determineDomainType domain in
  let openPorts := generateOpenPorts domainType seed in
  let closedPorts :=
    List.filter (fun port => negb (includesZ port openPorts)) commonPorts in
  let riskyPorts := identifyRiskyPorts openPorts in
  let score := calculatePortScore openPorts riskyPorts in
  let recommendations := generateRecommendations openPorts riskyPorts domainType in
  {| openPorts := openPorts;
     closedPorts := closedPorts;
     commonPorts := commonPorts;
     riskyPorts := riskyPorts;
     score := score;
     recommendations := recommendations;
     details :=
       {| totalScanned := len commonPorts;
          openCount := len openPorts;
          closedCount := len closedPorts;
          riskyCount := len riskyPorts;
          domainType := domainType;
          scanDuration :=
            Math_floor (seededRandom (IZR (seed * 12)) * 5000) + 2000;
          methodology := "mock_tcp_connect" |} |}.

(** *** The score in closed form *)

(** What [deduct] takes off for an open port, from its line of
    [riskDefinitions]. *)
Definition risk_penalty (port : Z) : Z :=
  match riskDefinitions port with
  | Some (risk, _, _) =>
      if (risk =? "critical")%string then 30
      else if (risk =? "high")%string then 15
      else if (risk =? "medium")%string then 8
      else if (risk =? "low")%string then 2
      else 0
  | None => 0
  end.

(** The sum of [f] over the ports of a list. *)
Definition total (f : Z -> Z) (l : list Z) : Z :=
  fold_right (fun p acc => f p + acc) 0 l.

Definition b2z (b : bool) : Z := if b then 1 else 0.

(** The score before it is clamped. *)
Definition raw_score (openPorts : list Z) : Z :=
  100 - total risk_penalty openPorts
  + 10 * b2z (includesZ 443 openPorts)
  - 20 * b2z (includesZ 80 openPorts && negb (includesZ 443 openPorts))
  - 35 * total (fun p => b2z (includesZ p databasePorts)) openPorts
  - 25 * total (fun p => b2z (includesZ p legacyPorts)) openPorts
  - 5 * Z.max 0 (len openPorts - 5)
  + 15 * b2z ((len openPorts <=? 2) && includesZ 443 openPorts).

(** The score of a list of open ports, their risks identified. *)
Definition port_score (openPorts : list Z) : Z :=
  calculatePortScore openPorts (identifyRiskyPorts openPorts).

(** Whether the line of [riskDefinitions] for a port, if any, says
    critical or high. *)
Definition severe (port : Z) : bool :=
  match riskDefinitions port with
  | Some (risk, _, _) => (risk =? "critical")%string || (risk =? "high")%string
  | None => false
  end.

End PortAnalyzer.

(** ** TechAnalyzer.js *)

Module TechAnalyzer.
Import JS.

Record Technology := {
  name : string;
  category : string;
  risk : string;
  outdated : bool;
  confidence : Z
}.

(** The regular expressions of the file, all with the flag [i] and none
    with a group: a text to be found whatever the case of its letters,
    and [/x-powered-by.*php/i]. *)
Inductive Pattern :=
  | Text (lower : string)
  | Powered_by_php.

(** The part of a text before its first line terminator, which is where
    [.*] stops: line feed, carriage return, and the line and paragraph
    separators (in UTF-8, E2 80 A8 and E2 80 A9). *)
Fixpoint first_line (s : string) : string :=
  match s with
  | EmptyString => EmptyString
  | String c s' =>
      if (Z.of_N (N_of_ascii c) =? 10) || (Z.of_N (N_of_ascii c) =? 13)
         || String.prefix (String (ascii_of_N 226) (String (ascii_of_N 128)
                             (String (ascii_of_N 168) EmptyString))) s
         || String.prefix (String (ascii_of_N 226) (String (ascii_of_N 128)
                             (String (ascii_of_N 169) EmptyString))) s
      then EmptyString
      else String c (first_line s')
  end.

Fixpoint drop (n : nat) (s : string) : string :=
  match n, s with
  | O, _ => s
  | S n', String _ s' => drop n' s'
  | S _, EmptyString => EmptyString
  end.

(** [/x-powered-by.*php/] on a lower-cased text. *)
Fixpoint powered_by_php (s : string) : bool :=
  (String.prefix "x-powered-by" s
   && str_includes (first_line (drop 12 s)) "php")
  || match s with
     | EmptyString => false
     | String _ s' => powered_by_php s'
     end.

(** [pattern.test(html)] *)
Definition test (pattern : Pattern) (html : string) : bool :=
  match pattern with
  | Text lower => str_includes (toLowerCase html) lower
  | Powered_by_php => powered_by_php (toLowerCase html)
  end.

Record Signature := {
  techName : string;
  patterns : list Pattern;
  sig_category : string;
  sig_risk : string
}.

(** [signatures], in the order of [Object.entries]. *)
Definition signatures : list Signature :=
  [ {| techName := "React";
       patterns := [Text "react.js"; Text "react-dom.js"; Text "__react__";
                    Text "data-reactroot"];
       sig_category := "JavaScript Framework";
       sig_risk := "low" |};
    {| techName := "jQuery";
       patterns := [Text "jquery.js"; Text "jquery.min.js"; Text "$(";
                    Text "jquery."];
       sig_category := "JavaScript Library";
       sig_risk := "medium" |};
    {| techName := "WordPress";
       patterns := [Text "wp-content"; Text "wp-includes"; Text "wordpress";
                    Text "wp-admin"];
       sig_category := "CMS";
       sig_risk := "medium" |};
    {| techName := "PHP";
       patterns := [Text ".php"; Text "php"; Powered_by_php];
       sig_category := "Server Technology";
       sig_risk := "medium" |} ].

(** [outdatedPatterns[techName] || []] *)
Definition outdatedPatterns (techName : string) : list Pattern :=
  if (techName =? "jQuery")%string then [Text "jquery-1."; Text "jquery-2."]
  else if (techName =? "PHP")%string then [Text "php/5."; Text "php/4."]
  else if (techName =? "WordPress")%string then [Text "wp-content/themes/twenty"]
  else [].

(** [TechAnalyzer.checkIfOutdated] *)
Definition checkIfOutdated (techName html : string) : bool :=
  existsb (fun p => test p html) (outdatedPatterns techName).

(** [TechAnalyzer.calculateConfidence]: a match of an expression that is
    not global and has no group is an array of length 1. *)
Definition calculateConfidence (pattern : Pattern) (html : string) : Z :=
  if test pattern html then Z.min 100 (1 * 25) else 0.

(** *** The score and the recommendations *)

(** One turn of the loop of [calculateSecurityScore]. *)
Definition score_step (score : Z) (tech : Technology) : Z :=
  let score :=
    if (risk tech =? "high")%string then score - 20
    else if (risk tech =? "medium")%string then score - 10
    else if (risk tech =? "low")%string then score - 5
    else score in
  if outdated tech then score - 15 else score.

(** [TechAnalyzer.calculateSecurityScore], on an array. *)
Definition calculateSecurityScore (technologies : list Technology) : Z :=
  if len technologies =? 0 then 50
  else
    let score := 100 in
    let score := fold_left score_step technologies score in
    Z.max 0 (Z.min 100 score).

(** [recommendations.push(r)] when [c] holds. *)
Definition push_rec (c : bool) (r : string) (recommendations : list string)
    : list string :=
  if c then (recommendations ++ [r])%list else recommendations.

(** [TechAnalyzer.generateRecommendations] *)
Definition generateRecommendations (technologies : list Technology)
    : list string :=
  let recommendations := [] in
  let outdatedTech := List.filter (fun t => outdated t) technologies in
  let recommendations :=
    push_rec (negb (len outdatedTech =? 0))
      ("Update " ++ Number_toString (len outdatedTech)
       ++ " outdated technology(ies)")
      recommendations in
  let highRiskTech :=
    List.filter (fun t => (risk t =? "high")%string) technologies in
  let recommendations :=
    push_rec (negb (len highRiskTech =? 0))
      ("Review security implications of " ++ Number_toString (len highRiskTech)
       ++ " high-risk technology(ies)")
      recommendations in
  let recommendations :=
    push_rec (existsb (fun t => (category t =? "CMS")%string) technologies)
      "Keep CMS and plugins updated" recommendations in
  let recommendations :=
    push_rec (existsb (fun t => (category t =? "Analytics")%string) technologies)
      "Review privacy policy for analytics/tracking tech" recommendations in
  push_rec (existsb (fun t => (category t =? "Payment")%string) technologies)
    "Ensure PCI DSS compliance" recommendations.

(** *** The analysis of a page *)

Record Details := {
  totalTechnologies : Z;
  categories_found : list string;
  outdatedCount : Z;
  highRiskCount : Z
}.

(** What [analyzeHtml] returns; [categories] is the object, as the list
    of its entries in the order of their insertion. *)
Record Analysis := {
  found : list Technology;
  found_categories : list (string * list Technology);
  found_details : Details
}.

(** [categories[c].push(t)] unless a technology of that name is there,
    the entry being created when missing. *)
Fixpoint add_to_category (c : string) (t : Technology)
    (categories : list (string * list Technology))
    : list (string * list Technology) :=
  match categories with
  | [] => [(c, [t])]
  | (c', ts) :: rest =>
      if (c' =? c)%string then
        (c', if existsb (fun t' => (name t' =? name t)%string) ts
             then ts else (ts ++ [t])%list) :: rest
      else (c', ts) :: add_to_category c t rest
  end.

(** One turn of the outer loop of [analyzeHtml]: the first pattern of
    the signature that the page matches, if any, decides. *)
Definition detect (html : string)
    (state : list Technology * list (string * list Technology))
    (s : Signature) : list Technology * list (string * list Technology) :=
  let '(technologies, categories) := state in
  match find (fun p => test p html) (patterns s) with
  | Some pattern =>
      let technology :=
        {| name := techName s;
           category := sig_category s;
           risk := toLowerCase (sig_risk s);
           outdated := checkIfOutdated (techName s) html;
           confidence := calculateConfidence pattern html |} in
      let technologies :=
        if existsb (fun t => (name t =? techName s)%string) technologies
        then technologies else (technologies ++ [technology])%list in
      (technologies, add_to_category (sig_category s) technology categories)
  | None => (technologies, categories)
  end.

(** [TechAnalyzer.analyzeHtml] *)
Definition analyzeHtml (html : string) : Analysis :=
  let '(technologies, categories) := fold_left (detect html) signatures ([], []) in
  {| found := technologies;
     found_categories := categories;
     found_details :=
       {| totalTechnologies := len technologies;
          categories_found := map fst categories;
          outdatedCount := len (List.filter (fun t => outdated t) technologies);
          highRiskCount :=
            len (List.filter (fun t => (risk t =? "high")%string) technologies)
       |} |}.

Record Result := {
  technologies : list Technology;
  categories : list (string * list Technology);
  score : Z;
  recommendations : list string;
  details : option Details
}.

(** The result [analyze] returns when no page could be fetched. *)
Definition offline_result : Result :=
  let technologies :=
    [ {| name := "MockCMS"; category := "CMS"; risk := "medium";
         outdated := false; confidence := 80 |} ] in
  {| technologies := technologies;
     categories := [("CMS", technologies)];
     score := 90;
     recommendations :=
       ["Replace mock data with live scan for accurate results"];
     details := Some {| totalTechnologies := 1;
                        categories_found := ["CMS"];
                        outdatedCount := 0;
                        highRiskCount := 0 |} |}.

(** [TechAnalyzer.analyze], given the page [getHtmlContent] fetched;
    [None] is [null], and the empty page is falsy as well. *)
Definition analyze (html : option string) : Result :=
  match html with
  | Some html' =>
      if (html' =? "")%string then offline_result
      else
        let techAnalysis := analyzeHtml html' in
        {| technologies := found techAnalysis;
           categories := found_categories techAnalysis;
           score := calculateSecurityScore (found techAnalysis);
           recommendations := generateRecommendations (found techAnalysis);
           details := Some (found_details techAnalysis) |}
  | None => offline_result
  end.

(** The names of the signatures the page matches, in their order. *)
Definition detected (html : string) : list string :=
  map techName
    (List.filter (fun s => existsb (fun p => test p html) (patterns s))
       signatures).

End TechAnalyzer.

(** ** HeadersAnalyzer.js *)

Module HeadersAnalyzer.
Import JS.

(** The headers of a response: the entries of the object, a header name
    with its value. *)
Definition Headers := list (string * string).

(** [headers[name]]; [None] is [undefined]. *)
Definition get (headers : Headers) (name : string) : option string :=
  option_map snd (find (fun kv => (fst kv =? name)%string) headers).

(** [headers[headerLower] || headers[header]]: a value that is missing
    or empty is falsy. *)
Definition headerValue (headers : Headers) (header : string) : option string :=
  match get headers (toLowerCase header) with
  | Some v => if (v =? "")%string then get headers header else Some v
  | None => get headers header
  end.

(** [!headerValue] *)
Definition absent (v : option string) : bool :=
  match v with
  | Some v' => (v' =? "")%string
  | None => true
  end.

(** [HeadersAnalyzer.getRequiredHeaders] *)
Definition getRequiredHeaders : list string :=
  ["Content-Security-Policy"; "X-Frame-Options"; "X-Content-Type-Options";
   "Strict-Transport-Security"; "X-XSS-Protection"; "Referrer-Policy";
   "Permissions-Policy"].

Definition additionalHeaders : list string :=
  ["X-Permitted-Cross-Domain-Policies"; "Cross-Origin-Embedder-Policy";
   "Cross-Origin-Opener-Policy"; "Cross-Origin-Resource-Policy"].

(** The analysis of one header. *)
Record HeaderAnalysis := {
  present : bool;
  value : string;
  score : Z;
  issues : list string;
  recommendations : list string
}.

Definition set_score (v : Z) (a : HeaderAnalysis) : HeaderAnalysis :=
  {| present := present a; value := value a; score := v; issues := issues a;
     recommendations := recommendations a |}.

(** [analysis.issues.push(i); analysis.recommendations.push(r)] *)
Definition report (i r : string) (a : HeaderAnalysis) : HeaderAnalysis :=
  {| present := present a; value := value a; score := score a;
     issues := (issues a ++ [i])%list;
     recommendations := (recommendations a ++ [r])%list |}.

(** [analysis.recommendations.push(r)] *)
Definition recommend (r : string) (a : HeaderAnalysis) : HeaderAnalysis :=
  {| present := present a; value := value a; score := score a;
     issues := issues a;
     recommendations := (recommendations a ++ [r])%list |}.

(** The functions that analyze one kind of header return the score and
    leave their remarks in the analysis they are given: here they
    return both. *)

(** [HeadersAnalyzer.analyzeCSP] *)
Definition analyzeCSP (value : string) (analysis : HeaderAnalysis)
    : Z * HeaderAnalysis :=
  let score := 20 in
  let essentialDirectives := ["default-src"; "script-src"; "style-src"] in
  let presentDirectives :=
    List.filter (fun dir => str_includes (toLowerCase value) (toLowerCase dir))
      essentialDirectives in
  let score := score + len presentDirectives * 5 in
  let '(score, analysis) :=
    if str_includes (toLowerCase value) "unsafe-inline" then
      (score - 5,
       report "CSP contains unsafe-inline" "Avoid unsafe-inline in CSP" analysis)
    else (score, analysis) in
  let '(score, analysis) :=
    if str_includes (toLowerCase value) "unsafe-eval" then
      (score - 5,
       report "CSP contains unsafe-eval" "Avoid unsafe-eval in CSP" analysis)
    else (score, analysis) in
  (Z.max 0 score, analysis).

(** [HeadersAnalyzer.analyzeXFrameOptions] *)
Definition analyzeXFrameOptions (value : string) (analysis : HeaderAnalysis)
    : Z * HeaderAnalysis :=
  let lowerValue := toLowerCase value in
  if str_includes lowerValue "deny" then (20, analysis)
  else if str_includes lowerValue "sameorigin" then (15, analysis)
  else
    (5, report "X-Frame-Options should be DENY or SAMEORIGIN"
          "Set X-Frame-Options to DENY or SAMEORIGIN" analysis).

(** [HeadersAnalyzer.analyzeXContentTypeOptions] *)
Definition analyzeXContentTypeOptions (value : string)
    (analysis : HeaderAnalysis) : Z * HeaderAnalysis :=
  let lowerValue := toLowerCase value in
  if str_includes lowerValue "nosniff" then (15, analysis)
  else
    (5, report "X-Content-Type-Options should be nosniff"
          "Set X-Content-Type-Options to nosniff" analysis).

(** A decimal digit, and the number written by the digits a text starts
    with, read after [acc]. *)
Definition is_digit (c : ascii) : bool :=
  (48 <=? Z.of_N (N_of_ascii c)) && (Z.of_N (N_of_ascii c) <=? 57).

Fixpoint digits (acc : Z) (s : string) : Z :=
  match s with
  | EmptyString => acc
  | String c s' =>
      if is_digit c then digits (10 * acc + (Z.of_N (N_of_ascii c) - 48)) s'
      else acc
  end.

Definition starts_with_digit (s : string) : bool :=
  match s with
  | EmptyString => false
  | String c _ => is_digit c
  end.

Fixpoint drop (n : nat) (s : string) : string :=
  match n, s with
  | O, _ => s
  | S n', String _ s' => drop n' s'
  | S _, EmptyString => EmptyString
  end.

(** [parseInt(value.match(/max-age=(\d+)/i)[1])] on the lower-cased
    value, [None] when there is no match: the first place where
    [max-age=] is followed by a digit decides. The number is compared
    with 31536000 and 86400 only, and what is read as a double compares
    with them as the integer does. *)
Fixpoint maxAgeMatch (lower : string) : option Z :=
  if String.prefix "max-age=" lower && starts_with_digit (drop 8 lower)
  then Some (digits 0 (drop 8 lower))
  else
    match lower with
    | EmptyString => None
    | String _ s' => maxAgeMatch s'
    end.

(** [HeadersAnalyzer.analyzeHSTS] *)
Definition analyzeHSTS (value : string) (analysis : HeaderAnalysis)
    : Z * HeaderAnalysis :=
  let score := 15 in
  let '(score, analysis) :=
    match maxAgeMatch (toLowerCase value) with
    | Some maxAge =>
        if maxAge >=? 31536000 then (score + 5, analysis)
        else if maxAge >=? 86400 then (score + 3, analysis)
        else
          (score,
           report "HSTS max-age should be at least 1 day"
             "Increase HSTS max-age to at least 1 day" analysis)
    | None =>
        (score - 5,
         report "HSTS missing max-age directive"
           "Add max-age directive to HSTS" analysis)
    end in
  let '(score, analysis) :=
    if str_includes (toLowerCase value) "includesubdomains"
    then (score + 3, analysis)
    else (score, recommend "Consider adding includeSubDomains to HSTS" analysis) in
  let score :=
    if str_includes (toLowerCase value) "preload" then score + 2 else score in
  (Z.max 0 score, analysis).

(** [HeadersAnalyzer.analyzeXXSSProtection] *)
Definition analyzeXXSSProtection (value : string) (analysis : HeaderAnalysis)
    : Z * HeaderAnalysis :=
  let lowerValue := toLowerCase value in
  if str_includes lowerValue "1; mode=block" then (10, analysis)
  else if str_includes lowerValue "1" then (8, analysis)
  else
    (2, report "X-XSS-Protection should be enabled"
          "Set X-XSS-Protection to 1; mode=block" analysis).

(** [HeadersAnalyzer.analyzeReferrerPolicy] *)
Definition analyzeReferrerPolicy (value : string) (analysis : HeaderAnalysis)
    : Z * HeaderAnalysis :=
  let lowerValue := toLowerCase value in
  let goodPolicies :=
    ["no-referrer"; "strict-origin"; "strict-origin-when-cross-origin"] in
  if existsb (fun policy => str_includes lowerValue policy) goodPolicies
  then (10, analysis)
  else
    (5, report "Referrer-Policy should use a strict policy"
          "Use strict-origin or no-referrer for Referrer-Policy" analysis).

(** [HeadersAnalyzer.analyzePermissionsPolicy] *)
Definition analyzePermissionsPolicy (value : string)
    (analysis : HeaderAnalysis) : Z * HeaderAnalysis :=
  if negb (value =? "")%string && (Z.of_nat (String.length value) >? 0)
  then (10, analysis)
  else
    (2, report "Permissions-Policy is empty or invalid"
          "Configure Permissions-Policy with appropriate restrictions"
          analysis).

(** [HeadersAnalyzer.analyzeSpecificHeader] *)
Definition analyzeSpecificHeader (headerName headerValue : string)
    : HeaderAnalysis :=
  let analysis :=
    {| present := true; value := headerValue; score := 0; issues := [];
       recommendations := [] |} in
  let '(score, analysis) :=
    if (headerName =? "Content-Security-Policy")%string then
      analyzeCSP headerValue analysis
    else if (headerName =? "X-Frame-Options")%string then
      analyzeXFrameOptions headerValue analysis
    else if (headerName =? "X-Content-Type-Options")%string then
      analyzeXContentTypeOptions headerValue analysis
    else if (headerName =? "Strict-Transport-Security")%string then
      analyzeHSTS headerValue analysis
    else if (headerName =? "X-XSS-Protection")%string then
      analyzeXXSSProtection headerValue analysis
    else if (headerName =? "Referrer-Policy")%string then
      analyzeReferrerPolicy headerValue analysis
    else if (headerName =? "Permissions-Policy")%string then
      analyzePermissionsPolicy headerValue analysis
    else (10, analysis) in
  set_score score analysis.

(** The advice [generateRecommendations] gives for a missing header,
    if it knows the header. *)
Definition advice (header : string) : option string :=
  if (header =? "Content-Security-Policy")%string then
    Some "Add Content-Security-Policy header to prevent XSS attacks"
  else if (header =? "X-Frame-Options")%string then
    Some "Add X-Frame-Options header to prevent clickjacking"
  else if (header =? "X-Content-Type-Options")%string then
    Some "Add X-Content-Type-Options: nosniff to prevent MIME sniffing"
  else if (header =? "Strict-Transport-Security")%string then
    Some "Add Strict-Transport-Security header to enforce HTTPS"
  else if (header =? "X-XSS-Protection")%string then
    Some "Add X-XSS-Protection header for additional XSS protection"
  else if (header =? "Referrer-Policy")%string then
    Some "Add Referrer-Policy header to control referrer information"
  else if (header =? "Permissions-Policy")%string then
    Some "Add Permissions-Policy header to control browser features"
  else None.

(** [HeadersAnalyzer.generateRecommendations]; [details] is the object,
    as the list of its entries. The array of an analysis is never
    falsy. *)
Definition generateRecommendations (missingHeaders : list string)
    (details : list (string * HeaderAnalysis)) : list string :=
  let recommendations := [] in
  let recommendations :=
    fold_left
      (fun recommendations header =>
         match advice header with
         | Some r => (recommendations ++ [r])%list
         | None => recommendations
         end)
      missingHeaders recommendations in
  let recommendations :=
    fold_left
      (fun recommendations entry =>
         (recommendations
          ++ HeadersAnalyzer.recommendations (snd entry))%list)
      details recommendations in
  Set_values recommendations.

(** What [analyzeHeaders] returns. *)
Record Analysis := {
  analysis_score : Z;
  missingHeaders : list string;
  details : list (string * HeaderAnalysis);
  analysis_recommendations : list string
}.

(** [analysis.details[header] = headerAnalysis]: the entry is replaced
    where it is, or added at the end. *)
Fixpoint set_detail (header : string) (a : HeaderAnalysis)
    (details : list (string * HeaderAnalysis))
    : list (string * HeaderAnalysis) :=
  match details with
  | [] => [(header, a)]
  | (h, a') :: rest =>
      if (h =? header)%string then (h, a) :: rest
      else (h, a') :: set_detail header a rest
  end.

(** The state of the two loops: the score, the missing headers and the
    details. *)
Definition State := (Z * list string * list (string * HeaderAnalysis))%type.

(** One turn of the loop over the required headers. *)
Definition required_step (headers : Headers) (state : State) (header : string)
    : State :=
  let '(score, missing, details) := state in
  let headerValue := headerValue headers header in
  if absent headerValue then (score, (missing ++ [header])%list, details)
  else
    let headerAnalysis :=
      analyzeSpecificHeader header
        (match headerValue with Some v => v | None => "" end) in
    (score + HeadersAnalyzer.score headerAnalysis, missing,
     set_detail header headerAnalysis details).

(** One turn of the loop over the additional headers. *)
Definition additional_step (headers : Headers) (state : State)
    (header : string) : State :=
  let '(score, missing, details) := state in
  let headerValue := headerValue headers header in
  if absent headerValue then (score, missing, details)
  else
    let headerAnalysis :=
      analyzeSpecificHeader header
        (match headerValue with Some v => v | None => "" end) in
    (score + HeadersAnalyzer.score headerAnalysis, missing,
     set_detail header headerAnalysis details).

(** [HeadersAnalyzer.analyzeHeaders] *)
Definition analyzeHeaders (headers : Headers) : Analysis :=
  let state := (0, [], []) in
  let state := fold_left (required_step headers) getRequiredHeaders state in
  let '(score, missing, details) :=
    fold_left (additional_step headers) additionalHeaders state in
  {| analysis_score := Z.min 100 (Z.max 0 score);
     missingHeaders := missing;
     details := details;
     analysis_recommendations := generateRecommendations missing details |}.

(** The result of [analyze]. *)
Record Result := {
  result_score : Z;
  result_error : option string;
  result_headers : Headers;
  result_missingHeaders : list string;
  presentHeaders : list string;
  result_recommendations : list string;
  result_details : list (string * HeaderAnalysis)
}.

(** [HeadersAnalyzer.analyze], given what the two calls of
    [checkHeaders] resolved to, [None] being [null]; an object is never
    falsy. *)
Definition analyze (httpHeaders httpsHeaders : option Headers) : Result :=
  let headers :=
    match httpsHeaders with
    | Some h => Some h
    | None => httpHeaders
    end in
  match headers with
  | None =>
      {| result_score := 0;
         result_error := None;
         result_headers := [];
         result_missingHeaders := getRequiredHeaders;
         presentHeaders := [];
         result_recommendations := ["Enable HTTPS for better security"];
         result_details := [] |}
  | Some headers =>
      let analysis := analyzeHeaders headers in
      {| result_score := analysis_score analysis;
         result_error := None;
         result_headers := headers;
         result_missingHeaders := missingHeaders analysis;
         presentHeaders := map fst headers;
         result_recommendations := analysis_recommendations analysis;
         result_details := details analysis |}
  end.

(** *** The analysis in closed form *)

(** Whether the response has a value for a header. *)
Definition sent (headers : Headers) (header : string) : bool :=
  negb (absent (headerValue headers header)).

(** The sum of the scores of the details. *)
Definition detail_scores (details : list (string * HeaderAnalysis)) : Z :=
  fold_right (fun entry acc => score (snd entry) + acc) 0 details.

(** The analyses of those headers of a list that the response sent. *)
Definition analysed (headers : Headers) (l : list string)
    : list (string * HeaderAnalysis) :=
  map (fun header =>
         (header,
          analyzeSpecificHeader header
            (match headerValue headers header with
             | Some v => v
             | None => ""
             end)))
    (List.filter (sent headers) l).

End HeadersAnalyzer.

(** ** SecurityScanner.js (store-backed revision): the orchestrator *)

Module SecurityScanner.
Import JS.

(** *** Data *)

Inductive Status := pending | scanning | completed | failed.

Record Technology := {
  tech_name : string;
  outdated : bool
}.

(** What an analyzer hands back, as far as the orchestrator and the
    read-time helpers look into it. [malicious] and [total] are the
    vendor counts of the malware report. *)
Record AnalysisResult := {
  grade : option string;
  score : option Z;
  malicious : option Z;
  total : option Z;
  openPorts : option (list Z);
  technologies : option (list Technology);
  missingHeaders : option (list string);
  error : option string
}.

Record Recommendation := {
  category : string;
  priority : string;
  title : string;
  description : string;
  action : string
}.

(** The [results] object of a scan record; [None] is [null]. *)
Record Results := {
  malware : option AnalysisResult;
  ssl : option AnalysisResult;
  headers : option AnalysisResult;
  tech : option AnalysisResult;
  ports : option AnalysisResult;
  whois : option AnalysisResult;
  riskScore : option Z;
  recommendations : list Recommendation
}.

Record StepError := {
  step : string;
  step_error : string;
  timestamp : string
}.

Record ScanRecord := {
  id : string;
  url : string;
  status : Status;
  progress : Z;
  startTime : string;
  endTime : option string;
  results : Results;
  errors : list StepError
}.

(** [results[name] = value] for the keys the scan steps use. *)
Definition set_result (name : string) (value : option AnalysisResult)
    (r : Results) : Results :=
  if (name =? "malware")%string then
    {| malware := value; ssl := ssl r; headers := headers r; tech := tech r;
       ports := ports r; whois := whois r; riskScore := riskScore r;
       recommendations := recommendations r |}
  else if (name =? "ssl")%string then
    {| malware := malware r; ssl := value; headers := headers r; tech := tech r;
       ports := ports r; whois := whois r; riskScore := riskScore r;
       recommendations := recommendations r |}
  else if (name =? "headers")%string then
    {| malware := malware r; ssl := ssl r; headers := value; tech := tech r;
       ports := ports r; whois := whois r; riskScore := riskScore r;
       recommendations := recommendations r |}
  else if (name =? "tech")%string then
    {| malware := malware r; ssl := ssl r; headers := headers r; tech := value;
       ports := ports r; whois := whois r; riskScore := riskScore r;
       recommendations := recommendations r |}
  else if (name =? "ports")%string then
    {| malware := malware r; ssl := ssl r; headers := headers r; tech := tech r;
       ports := value; whois := whois r; riskScore := riskScore r;
       recommendations := recommendations r |}
  else if (name =? "whois")%string then
    {| malware := malware r; ssl := ssl r; headers := headers r; tech := tech r;
       ports := ports r; whois := value; riskScore := riskScore r;
       recommendations := recommendations r |}
  else r.

(** [results[name]] for the same keys. *)
Definition get_result (name : string) (r : Results) : option AnalysisResult :=
  if (name =? "malware")%string then malware r
  else if (name =? "ssl")%string then ssl r
  else if (name =? "headers")%string then headers r
  else if (name =? "tech")%string then tech r
  else if (name =? "ports")%string then ports r
  else if (name =? "whois")%string then whois r
  else None.

Definition set_riskScore (v : Z) (r : Results) : Results :=
  {| malware := malware r; ssl := ssl r; headers := headers r; tech := tech r;
     ports := ports r; whois := whois r; riskScore := Some v;
     recommendations := recommendations r |}.

Definition set_recommendations (v : list Recommendation) (r : Results) : Results :=
  {| malware := malware r; ssl := ssl r; headers := headers r; tech := tech r;
     ports := ports r; whois := whois r; riskScore := riskScore r;
     recommendations := v |}.

(** *** The risk score *)

(** [g === s] for a grade that may be missing. *)
Definition grade_is (g : option string) (s : string) : bool :=
  match g with
  | Some g' => (g' =? s)%string
  | None => false
  end.

(** The ports the scanner calls risky. *)
Definition risky_port_numbers : list Z := [21; 23; 25; 53; 80; 110; 143; 993; 995].

Definition riskyPorts (r : AnalysisResult) : list Z :=
  List.filter (fun port => includesZ port risky_port_numbers)
    (or_empty (openPorts r)).

Definition outdatedTech (r : AnalysisResult) : list Technology :=
  List.filter (fun t => outdated t) (or_empty (technologies r)).

(** [SecurityScanner.calculateRiskScore]; the pair is
    [(score, maxScore)]. *)
Definition calculateRiskScore (results : Results) : Z :=
  let score := 0%Q in
  let maxScore := 0 in
  let '(score, maxScore) :=
    match ssl results with
    | Some r =>
        let maxScore := maxScore + 100 in
        let sslGrade := grade r in
        let score :=
          if grade_is sslGrade "A+" || grade_is sslGrade "A" then (score + 100)%Q
          else if grade_is sslGrade "B" then (score + 75)%Q
          else if grade_is sslGrade "C" then (score + 50)%Q
          else if grade_is sslGrade "D" then (score + 25)%Q
          else if grade_is sslGrade "E" || grade_is sslGrade "F" then (score + 0)%Q
          else (score + 0)%Q in
        (score, maxScore)
    | None => (score, maxScore)
    end in
  let '(score, maxScore) :=
    match headers results with
    | Some r =>
        let maxScore := maxScore + 100 in
        let score := (score + inject_Z (or_default (SecurityScanner.score r) 0))%Q in
        (score, maxScore)
    | None => (score, maxScore)
    end in
  let '(score, maxScore) :=
    match malware results with
    | Some r =>
        let maxScore := maxScore + 100 in
        let maliciousCount := or_default (malicious r) 0 in
        let totalCount := or_default (total r) 1 in
        let malwarePercentage :=
          (inject_Z maliciousCount / inject_Z totalCount * 100)%Q in
        let score := (score + Math_max 0 (100 - malwarePercentage))%Q in
        (score, maxScore)
    | None => (score, maxScore)
    end in
  let '(score, maxScore) :=
    match ports results with
    | Some r =>
        let maxScore := maxScore + 100 in
        let portScore :=
          Math_max 0 (100 - inject_Z (len (riskyPorts r) * 20))%Q in
        let score := (score + portScore)%Q in
        (score, maxScore)
    | None => (score, maxScore)
    end in
  let '(score, maxScore) :=
    match tech results with
    | Some r =>
        let maxScore := maxScore + 100 in
        let techScore :=
          Math_max 0 (100 - inject_Z (len (outdatedTech r) * 10))%Q in
        let score := (score + techScore)%Q in
        (score, maxScore)
    | None => (score, maxScore)
    end in
  if maxScore >? 0 then Math_round (score / inject_Z maxScore * 100)%Q else 0.

(** [SecurityScanner.getRiskLevel] *)
Definition getRiskLevel (score : Z) : string :=
  if score >=? 80 then "low"
  else if score >=? 60 then "medium"
  else if score >=? 40 then "high"
  else "critical".

(** *** The risk score in closed form, and as the specification words it *)

(** The points each counted dimension contributes. *)
Definition ssl_points (r : AnalysisResult) : Q :=
  if grade_is (grade r) "A+" || grade_is (grade r) "A" then 100
  else if grade_is (grade r) "B" then 75
  else if grade_is (grade r) "C" then 50
  else if grade_is (grade r) "D" then 25
  else 0.

Definition headers_points (r : AnalysisResult) : Q :=
  inject_Z (or_default (score r) 0).

Definition malware_points (r : AnalysisResult) : Q :=
  Math_max 0 (100 - inject_Z (or_default (malicious r) 0)
                    / inject_Z (or_default (total r) 1) * 100).

Definition ports_points (r : AnalysisResult) : Q :=
  Math_max 0 (100 - inject_Z (len (riskyPorts r) * 20)).

Definition tech_points (r : AnalysisResult) : Q :=
  Math_max 0 (100 - inject_Z (len (outdatedTech r) * 10)).

Definition points_of (f : AnalysisResult -> Q) (x : option AnalysisResult) : list Q :=
  match x with
  | Some r => [f r]
  | None => []
  end.

(** The points of the dimensions that have a result; [whois] is not
    among them. *)
Definition counted_points (results : Results) : list Q :=
  (points_of ssl_points (ssl results)
   ++ points_of headers_points (headers results)
   ++ points_of malware_points (malware results)
   ++ points_of ports_points (ports results)
   ++ points_of tech_points (tech results))%list.

Definition Qsum (l : list Q) : Q := fold_right Qplus 0%Q l.



(** The scenario of the specification: SSL 90, headers 80, technology
    70, malware 100, ports 85, whois 75, with fields such as the
    analyzers attach to these scores: the grade the SSL analyzer gives a
    score of 90, no flagging vendor, three technologies of medium risk
    none of which is outdated, ports 80 and 443 open. *)
Definition scenario_results : Results :=
  {| malware := Some {| grade := None; score := Some 100; malicious := Some 0;
                        total := Some 70; openPorts := None;
                        technologies := None; missingHeaders := None;
                        error := None |};
     ssl := Some {| grade := Some (SSLAnalyzer.calculateGrade 90);
                    score := Some 90; malicious := None;
                    total := None; openPorts := None; technologies := None;
                    missingHeaders := None; error := None |};
     headers := Some {| grade := None; score := Some 80; malicious := None;
                        total := None; openPorts := None; technologies := None;
                        missingHeaders := Some ["Permissions-Policy"];
                        error := None |};
     tech := Some {| grade := None; score := Some 70; malicious := None;
                     total := None; openPorts := None;
                     technologies :=
                       Some [ {| tech_name := "jQuery"; outdated := false |};
                              {| tech_name := "PHP"; outdated := false |};
                              {| tech_name := "WordPress"; outdated := false |} ];
                     missingHeaders := None; error := None |};
     ports := Some {| grade := None; score := Some 85; malicious := None;
                      total := None; openPorts := Some [80; 443];
                      technologies := None; missingHeaders := None;
                      error := None |};
     whois := Some {| grade := None; score := Some 75; malicious := None;
                      total := None; openPorts := None; technologies := None;
                      missingHeaders := None; error := None |};
     riskScore := None;
     recommendations := [] |}.

(** *** Recommendations *)

(** [priorityOrder[p]] of [generateRecommendations]; [None] is
    [undefined]. *)
Definition priorityOrder (p : string) : option Z :=
  if (p =? "critical")%string then Some 0
  else if (p =? "high")%string then Some 1
  else if (p =? "medium")%string then Some 2
  else if (p =? "low")%string then Some 3
  else None.

(** The comparator [priorityOrder[a.priority] - priorityOrder[b.priority]];
    a difference with [undefined] is [NaN]. *)
Definition compare_priority (a b : Recommendation) : option Z :=
  match priorityOrder (priority a), priorityOrder (priority b) with
  | Some x, Some y => Some (x - y)
  | _, _ => None
  end.

(** [array.push(r)] *)
Definition push {A : Type} (l : list A) (r : A) : list A := (l ++ [r])%list.

(** [recommendations.push(r)] when [c] holds. *)
Definition push_if {A : Type} (c : bool) (r : A) (l : list A) : list A :=
  if c then push l r else l.

(** [results.malware && results.malware.malicious > 0] *)
Definition malware_detected (results : Results) : option Z :=
  match malware results with
  | Some r =>
      match malicious r with
      | Some m => if m >? 0 then Some m else None
      | None => None
      end
  | None => None
  end.

(** The recommendations in the order the code pushes them, before the
    final sort. *)
Definition gathered_recommendations (results : Results) : list Recommendation :=
  let recommendations := [] in
  let recommendations :=
    match ssl results with
    | Some r =>
        if grade_is (grade r) "F" || grade_is (grade r) "E" then
          push recommendations
            {| category := "SSL/TLS";
               priority := "high";
               title := "Upgrade SSL/TLS Configuration";
               description := "Your SSL/TLS configuration is weak. Consider upgrading to stronger protocols and ciphers.";
               action := "Configure TLS 1.2+ and remove weak ciphers" |}
        else if grade_is (grade r) "D" || grade_is (grade r) "C" then
          push recommendations
            {| category := "SSL/TLS";
               priority := "medium";
               title := "Improve SSL/TLS Security";
               description := "Your SSL/TLS configuration can be improved for better security.";
               action := "Review and update SSL/TLS settings" |}
        else recommendations
    | None => recommendations
    end in
  let recommendations :=
    match headers results with
    | Some r =>
        let missing := or_empty (missingHeaders r) in
        let recommendations :=
          push_if (includes "Content-Security-Policy" missing)
            {| category := "Security Headers";
               priority := "high";
               title := "Add Content Security Policy";
               description := "CSP helps prevent XSS attacks by controlling resource loading.";
               action := "Implement Content-Security-Policy header" |}
            recommendations in
        let recommendations :=
          push_if (includes "X-Frame-Options" missing)
            {| category := "Security Headers";
               priority := "medium";
               title := "Add X-Frame-Options";
               description := "Prevents clickjacking attacks.";
               action := "Add X-Frame-Options: DENY or SAMEORIGIN" |}
            recommendations in
        let recommendations :=
          push_if (includes "X-Content-Type-Options" missing)
            {| category := "Security Headers";
               priority := "medium";
               title := "Add X-Content-Type-Options";
               description := "Prevents MIME type sniffing.";
               action := "Add X-Content-Type-Options: nosniff" |}
            recommendations in
        let recommendations :=
          push_if (includes "Strict-Transport-Security" missing)
            {| category := "Security Headers";
               priority := "high";
               title := "Add HSTS Header";
               description := "Forces HTTPS connections and prevents protocol downgrade attacks.";
               action := "Add Strict-Transport-Security header" |}
            recommendations in
        recommendations
    | None => recommendations
    end in
  let recommendations :=
    match malware_detected results with
    | Some m =>
        push recommendations
          {| category := "Malware";
             priority := "critical";
             title := "Malware Detected";
             description :=
               Number_toString m ++ " security vendors flagged this URL as malicious.";
             action := "Investigate and clean the website immediately" |}
    | None => recommendations
    end in
  let recommendations :=
    match ports results with
    | Some r =>
        let risky := riskyPorts r in
        push_if (len risky >? 0)
          {| category := "Network Security";
             priority := "medium";
             title := "Close Unnecessary Ports";
             description :=
               "Found " ++ Number_toString (len risky)
               ++ " potentially risky open ports: " ++ join ", " risky;
             action := "Review and close unnecessary ports" |}
          recommendations
    | None => recommendations
    end in
  let recommendations :=
    match tech results with
    | Some r =>
        let old := outdatedTech r in
        push_if (len old >? 0)
          {| category := "Technology Stack";
             priority := "medium";
             title := "Update Outdated Technologies";
             description :=
               "Found " ++ Number_toString (len old)
               ++ " outdated technologies that may have security vulnerabilities.";
             action := "Update to latest versions of identified technologies" |}
          recommendations
    | None => recommendations
    end in
  recommendations.

(** The place of a priority in the fixed order, unranked ones last. *)
Definition priority_rank (r : Recommendation) : Z :=
  match priorityOrder (priority r) with
  | Some v => v
  | None => 99
  end.

(** A recommendation whose priority is one of the four the order knows. *)
Definition ranked (r : Recommendation) : Prop :=
  priorityOrder (priority r) <> None.

(** [SecurityScanner.generateRecommendations] *)
Definition generateRecommendations (results : Results) : list Recommendation :=
  Array_sort compare_priority (gathered_recommendations results).

(** *** The scan *)

(** What awaiting an analyzer yields: its result, or the message of the
    error it threw. *)
Inductive Outcome :=
  | Returned (result : AnalysisResult)
  | Threw (message : string).

(** The collaborators of a scan: the validator's [extractDomain] (its
    [null] is [None]), the six analyzers on the input they are called
    with, and the clock behind [new Date().toISOString()]. *)
Record Environment := {
  extractDomain : string -> option string;
  MalwareAnalyzer_analyze : string -> Outcome;
  SSLAnalyzer_analyze : option string -> Outcome;
  HeadersAnalyzer_analyze : option string -> Outcome;
  TechAnalyzer_analyze : option string -> Outcome;
  PortAnalyzer_analyze : option string -> Outcome;
  WhoisAnalyzer_analyze : option string -> Outcome;
  clock : nat -> string
}.

Record ScanStep := {
  name : string;
  weight : Z;
  analyzer : unit -> Outcome
}.

(** [scanSteps] *)
Definition scanSteps (env : Environment) (url : string)
    (domain : option string) : list ScanStep :=
  [ {| name := "malware"; weight := 20;
       analyzer := fun _ => MalwareAnalyzer_analyze env url |};
    {| name := "ssl"; weight := 20;
       analyzer := fun _ => SSLAnalyzer_analyze env domain |};
    {| name := "headers"; weight := 20;
       analyzer := fun _ => HeadersAnalyzer_analyze env domain |};
    {| name := "tech"; weight := 15;
       analyzer := fun _ => TechAnalyzer_analyze env domain |};
    {| name := "ports"; weight := 15;
       analyzer := fun _ => PortAnalyzer_analyze env domain |};
    {| name := "whois"; weight := 10;
       analyzer := fun _ => WhoisAnalyzer_analyze env domain |} ].

Definition set_status (v : Status) (r : ScanRecord) : ScanRecord :=
  {| id := id r; url := url r; status := v; progress := progress r;
     startTime := startTime r; endTime := endTime r; results := results r;
     errors := errors r |}.

Definition set_progress (v : Z) (r : ScanRecord) : ScanRecord :=
  {| id := id r; url := url r; status := status r; progress := v;
     startTime := startTime r; endTime := endTime r; results := results r;
     errors := errors r |}.

Definition set_endTime (v : string) (r : ScanRecord) : ScanRecord :=
  {| id := id r; url := url r; status := status r; progress := progress r;
     startTime := startTime r; endTime := Some v; results := results r;
     errors := errors r |}.

Definition set_results (v : Results) (r : ScanRecord) : ScanRecord :=
  {| id := id r; url := url r; status := status r; progress := progress r;
     startTime := startTime r; endTime := endTime r; results := v;
     errors := errors r |}.

(** [scanResult.errors.push(e)] *)
Definition push_error (e : StepError) (r : ScanRecord) : ScanRecord :=
  {| id := id r; url := url r; status := status r; progress := progress r;
     startTime := startTime r; endTime := endTime r; results := results r;
     errors := push (errors r) e |}.

(** A scan as it unfolds: the store [scanResults], the number of clock
    readings made, the record as it stands at each point where the
    function waits (before the first analyzer, after every step, at the
    end), and the names of the analyzers called so far. *)
Record Run := {
  store : gmap string ScanRecord;
  readings : nat;
  observed : list ScanRecord;
  invoked : list string
}.

(** The state of the step loop: the record being mutated, the local
    [completedWeight], and the run. *)
Record Loop := {
  scanResult : ScanRecord;
  completedWeight : Z;
  run : Run
}.

(** One iteration of [for (const step of scanSteps)]: the [try] block,
    its [catch], and the [scanResults.set] that follows. *)
Definition run_step (env : Environment) (scanId : string) (totalWeight : Z)
    (l : Loop) (step : ScanStep) : Loop :=
  let '(scanResult, completedWeight, readings) :=
    match analyzer step tt with
    | Returned result =>
        let scanResult :=
          set_results (set_result (name step) (Some result)
                         (results (scanResult l))) (scanResult l) in
        let completedWeight := completedWeight l + weight step in
        let scanResult :=
          set_progress
            (Math_round (inject_Z completedWeight / inject_Z totalWeight * 100)%Q)
            scanResult in
        (scanResult, completedWeight, readings (run l))
    | Threw message =>
        let scanResult :=
          push_error {| step := name step;
                        step_error := message;
                        timestamp := clock env (readings (run l)) |}
            (scanResult l) in
        let completedWeight := completedWeight l + weight step in
        let scanResult :=
          set_progress
            (Math_round (inject_Z completedWeight / inject_Z totalWeight * 100)%Q)
            scanResult in
        (scanResult, completedWeight, S (readings (run l)))
    end in
  {| scanResult := scanResult;
     completedWeight := completedWeight;
     run := {| store := <[scanId := scanResult]> (store (run l));
               readings := readings;
               observed := push (observed (run l)) scanResult;
               invoked := push (invoked (run l)) (name step) |} |}.

(** The outer [catch (error)] of [startScan]. *)
Definition on_error (env : Environment) (scanId : string) (message : string)
    (r : Run) : Run :=
  match store r !! scanId with
  | Some scanResult =>
      let scanResult := set_status failed scanResult in
      let scanResult :=
        push_error {| step := "general";
                      step_error := message;
                      timestamp := clock env (readings r) |} scanResult in
      {| store := <[scanId := scanResult]> (store r);
         readings := S (readings r);
         observed := push (observed r) scanResult;
         invoked := invoked r |}
  | None => r
  end.

(** [SecurityScanner.startScan] *)
Definition startScan (env : Environment) (scanId url : string)
    (scanResults : gmap string ScanRecord) : Run :=
  let domain := extractDomain env url in
  match scanResults !! scanId with
  | None =>
      on_error env scanId "Scan result not found"
        {| store := scanResults; readings := 0; observed := []; invoked := [] |}
  | Some scanResult =>
      let scanResult := set_status scanning scanResult in
      let scanResult := set_progress 0 scanResult in
      let scanResults := <[scanId := scanResult]> scanResults in
      let steps := scanSteps env url domain in
      let completedWeight := 0 in
      let totalWeight := fold_left (fun sum step => sum + weight step) steps 0 in
      let l :=
        fold_left (run_step env scanId totalWeight) steps
          {| scanResult := scanResult;
             completedWeight := completedWeight;
             run := {| store := scanResults; readings := 0;
                       observed := [scanResult]; invoked := [] |} |} in
      let scanResult := SecurityScanner.scanResult l in
      let scanResult :=
        set_results (set_riskScore (calculateRiskScore (results scanResult))
                       (results scanResult)) scanResult in
      let scanResult :=
        set_results (set_recommendations
                       (generateRecommendations (results scanResult))
                       (results scanResult)) scanResult in
      let scanResult := set_status completed scanResult in
      let scanResult := set_progress 100 scanResult in
      let scanResult := set_endTime (clock env (readings (run l))) scanResult in
      {| store := <[scanId := scanResult]> (store (run l));
         readings := S (readings (run l));
         observed := push (observed (run l)) scanResult;
         invoked := invoked (run l) |}
  end.

(** *** The pieces of a scan, named for the proofs *)

(** The fields of the record the loop never writes. *)
Definition untouched (a b : ScanRecord) : Prop :=
  id a = id b /\ url a = url b /\ status a = status b
  /\ startTime a = startTime b /\ endTime a = endTime b.

(** The state in which the loop starts and the one in which it ends. *)
Definition loop_start (scanId : string) (scanResults : gmap string ScanRecord) (r0 : ScanRecord) : Loop :=
  {| scanResult := set_progress 0 (set_status scanning r0);
     completedWeight := 0;
     run := {| store := <[scanId := set_progress 0 (set_status scanning r0)]>
                          scanResults;
               readings := 0;
               observed := [set_progress 0 (set_status scanning r0)];
               invoked := [] |} |}.

Definition loop_end (env : Environment) (scanId url : string)
    (scanResults : gmap string ScanRecord) (r0 : ScanRecord) : Loop :=
  fold_left (run_step env scanId 100)
    (scanSteps env url (extractDomain env url)) (loop_start scanId scanResults r0).

(** The block that follows the loop. *)
Definition complete (env : Environment) (l : Loop) : ScanRecord :=
  let scanResult := scanResult l in
  let scanResult :=
    set_results (set_riskScore (calculateRiskScore (results scanResult))
                   (results scanResult)) scanResult in
  let scanResult :=
    set_results (set_recommendations
                   (generateRecommendations (results scanResult))
                   (results scanResult)) scanResult in
  let scanResult := set_status completed scanResult in
  let scanResult := set_progress 100 scanResult in
  set_endTime (clock env (readings (run l))) scanResult.

(** *** What the step loop leaves behind, in closed form *)

(** The progress the loop writes after each step, from the weights. *)
Fixpoint progress_after (totalWeight completedWeight : Z) (ws : list Z) : list Z :=
  match ws with
  | [] => []
  | w :: ws' =>
      Math_round (inject_Z (completedWeight + w) / inject_Z totalWeight * 100)%Q
      :: progress_after totalWeight (completedWeight + w) ws'
  end.

(** The results after the loop: every returned result is stored under
    the name of its step, a step that threw stores nothing. *)
Definition stored_results (steps : list ScanStep) (r : Results) : Results :=
  fold_left
    (fun r step =>
       match analyzer step tt with
       | Returned result => set_result (name step) (Some result) r
       | Threw _ => r
       end)
    steps r.

(** The errors the loop appends, the clock having been read [n] times. *)
Fixpoint step_errors (env : Environment) (n : nat) (steps : list ScanStep)
    : list StepError :=
  match steps with
  | [] => []
  | s :: steps' =>
      match analyzer s tt with
      | Returned _ => step_errors env n steps'
      | Threw message =>
          {| step := name s; step_error := message; timestamp := clock env n |}
          :: step_errors env (S n) steps'
      end
  end.

(** How many steps threw. *)
Fixpoint thrown (steps : list ScanStep) : nat :=
  match steps with
  | [] => O
  | s :: steps' =>
      match analyzer s tt with
      | Returned _ => thrown steps'
      | Threw _ => S (thrown steps')
      end
  end.

(** The record a scan that found its record [r] leaves in the store. *)
Definition final_record (env : Environment) (url : string) (r : ScanRecord)
    : ScanRecord :=
  let steps := scanSteps env url (extractDomain env url) in
  let stored := stored_results steps (results r) in
  let scored := set_riskScore (calculateRiskScore stored) stored in
  {| id := id r;
     SecurityScanner.url := SecurityScanner.url r;
     status := completed;
     progress := 100;
     startTime := startTime r;
     endTime := Some (clock env (thrown steps));
     results := set_recommendations (generateRecommendations scored) scored;
     errors := (errors r ++ step_errors env 0 steps)%list |}.

(** The names of the steps, in the order they run. *)
Definition step_names : list string :=
  ["malware"; "ssl"; "headers"; "tech"; "ports"; "whois"].

(** What the analyzer of the step called [n] yields in a scan of [url]. *)
Definition outcome_of (env : Environment) (url : string) (n : string)
    : option Outcome :=
  option_map (fun s => analyzer s tt)
    (find (fun s => (name s =? n)%string)
       (scanSteps env url (extractDomain env url))).

(** *** Two environments to run the scan in *)

Definition example_clock (n : nat) : string :=
  "2025-01-01T00:00:0" ++ Number_toString (Z.of_nat n) ++ ".000Z".

Definition from_results (r : Results) (name : string) : Outcome :=
  match get_result name r with
  | Some result => Returned result
  | None => Threw "no result"
  end.

(** Every analyzer returns its result of the scenario. *)
Definition steady_env : Environment :=
  {| extractDomain := fun _ => Some "example.com";
     MalwareAnalyzer_analyze := fun _ => from_results scenario_results "malware";
     SSLAnalyzer_analyze := fun _ => from_results scenario_results "ssl";
     HeadersAnalyzer_analyze := fun _ => from_results scenario_results "headers";
     TechAnalyzer_analyze := fun _ => from_results scenario_results "tech";
     PortAnalyzer_analyze := fun _ => from_results scenario_results "ports";
     WhoisAnalyzer_analyze := fun _ => from_results scenario_results "whois";
     clock := example_clock |}.

(** The same, except that the SSL analyzer throws. *)
Definition ssl_down_env : Environment :=
  {| extractDomain := fun _ => Some "example.com";
     MalwareAnalyzer_analyze := fun _ => from_results scenario_results "malware";
     SSLAnalyzer_analyze := fun _ => Threw "connect ETIMEDOUT";
     HeadersAnalyzer_analyze := fun _ => from_results scenario_results "headers";
     TechAnalyzer_analyze := fun _ => from_results scenario_results "tech";
     PortAnalyzer_analyze := fun _ => from_results scenario_results "ports";
     WhoisAnalyzer_analyze := fun _ => from_results scenario_results "whois";
     clock := example_clock |}.

(** Every analyzer throws. *)
Definition failing_env : Environment :=
  {| extractDomain := fun _ => None;
     MalwareAnalyzer_analyze := fun _ => Threw "down";
     SSLAnalyzer_analyze := fun _ => Threw "down";
     HeadersAnalyzer_analyze := fun _ => Threw "down";
     TechAnalyzer_analyze := fun _ => Threw "down";
     PortAnalyzer_analyze := fun _ => Threw "down";
     WhoisAnalyzer_analyze := fun _ => Threw "down";
     clock := example_clock |}.

(** Whether awaiting the analyzer of the step called [n] throws. *)
Definition throws (env : Environment) (url n : string) : bool :=
  match outcome_of env url n with
  | Some (Threw _) => true
  | _ => false
  end.

End SecurityScanner.

(** ** SecurityScanner.js (revision with the analyzers mocked in the file):
       the recommendation compiler *)

Module SecurityScannerMock.
Import JS.

(** A recommendation as the analyzers of this revision emit it; a plain
    text recommendation has no [priority]. *)
Record Advice := {
  message : string;
  priority : option string
}.

Record Result := {
  score : option Z;
  error : option string;
  recommendations : option (list Advice)
}.

(** [this.results]: an object, whose keys keep the order in which they
    were first assigned. *)
Definition Results : Type := list (string * option Result).


(** [priorityOrder[key]], where the key may be [undefined]: the four
    properties the object literal defines. (A key that names a property
    every object inherits, [constructor] or [__proto__], is outside the
    model; no analyzer emits such a priority.) *)
Definition priorityOrder (key : option string) : option Z :=
  match key with
  | Some p =>
      if (p =? "critical")%string then Some 0
      else if (p =? "high")%string then Some 1
      else if (p =? "medium")%string then Some 2
      else if (p =? "low")%string then Some 3
      else None
  | None => None
  end.

(** [priorityOrder[a.priority?.toLowerCase()] ?? 99] *)
Definition rank (a : Advice) : Z :=
  match priorityOrder (option_map toLowerCase (priority a)) with
  | Some v => v
  | None => 99
  end.

Definition compare_priority (a b : Advice) : option Z :=
  Some (rank a - rank b).



Definition advice (p : string) : Advice :=
  {| message := "Recommendation of priority " ++ p; priority := Some p |}.



End SecurityScannerMock.

(** ** routes/scan.js: the record a scan starts from and the read-time helpers *)

Module ScanRoutes.
Import JS SecurityScanner.

(** The record the route stores before it starts a scan. *)
Definition new_record (scanId url now : string) : ScanRecord :=
  {| id := scanId;
     url := url;
     status := pending;
     progress := 0;
     startTime := now;
     endTime := None;
     results := {| malware := None; ssl := None; headers := None; tech := None;
                   ports := None; whois := None; riskScore := None;
                   recommendations := [] |};
     errors := [] |}.

(** The store right after the route has accepted a scan of
    [https://example.com] under the id [scan-1]. *)
Definition example_store : gmap string ScanRecord :=
  {[ "scan-1" := new_record "scan-1" "https://example.com"
                   "2025-01-01T00:00:00.000Z" ]}.

(** [x === 0], [x < k] on a count that may be missing: comparisons with
    [undefined] are false. *)
Definition is_zero (x : option Z) : bool :=
  match x with
  | Some v => v =? 0
  | None => false
  end.

Definition less_than (x : option Z) (k : Z) : bool :=
  match x with
  | Some v => v <? k
  | None => false
  end.

(** [Object.values(results).every(r => r === null)]: the [recommendations]
    entry is an array, never [null]. *)
Definition every_null (results : Results) : bool :=
  is_null (malware results) && is_null (ssl results)
  && is_null (headers results) && is_null (tech results)
  && is_null (ports results) && is_null (whois results)
  && is_null (riskScore results)
  && false.

(** [calculateRiskLevel]; the pair is [(score, totalChecks)]. *)
Definition calculateRiskLevel (results : Results) : string :=
  if every_null results then "unknown" else
  let score := 0%Q in
  let totalChecks := 0 in
  let '(score, totalChecks) :=
    match ssl results with
    | Some r =>
        let totalChecks := totalChecks + 1 in
        let score :=
          if grade_is (grade r) "A" || grade_is (grade r) "A+" then (score + 10)%Q
          else if grade_is (grade r) "B" then (score + 7)%Q
          else if grade_is (grade r) "C" then (score + 4)%Q
          else (score + 1)%Q in
        (score, totalChecks)
    | None => (score, totalChecks)
    end in
  let '(score, totalChecks) :=
    match headers results with
    | Some r =>
        let totalChecks := totalChecks + 1 in
        let headerScore := or_default (SecurityScanner.score r) 0 in
        let score := (score + inject_Z headerScore / 100 * 10)%Q in
        (score, totalChecks)
    | None => (score, totalChecks)
    end in
  let '(score, totalChecks) :=
    match malware results with
    | Some r =>
        let totalChecks := totalChecks + 1 in
        let score :=
          if is_zero (malicious r) then (score + 10)%Q
          else if less_than (malicious r) 5 then (score + 7)%Q
          else if less_than (malicious r) 10 then (score + 4)%Q
          else (score + 1)%Q in
        (score, totalChecks)
    | None => (score, totalChecks)
    end in
  let '(score, totalChecks) :=
    match ports results with
    | Some r =>
        let totalChecks := totalChecks + 1 in
        let risky := riskyPorts r in
        let score :=
          if len risky =? 0 then (score + 10)%Q
          else if len risky <? 3 then (score + 7)%Q
          else (score + 4)%Q in
        (score, totalChecks)
    | None => (score, totalChecks)
    end in
  if totalChecks =? 0 then "unknown" else
  let averageScore := (score / inject_Z totalChecks)%Q in
  if Qle_bool 8 averageScore then "low"
  else if Qle_bool 5 averageScore then "medium"
  else "high".

Record Summary := {
  totalChecks : Z;
  passedChecks : Z;
  failedChecks : Z;
  warnings : Z
}.

Definition check (s : Summary) : Summary :=
  {| totalChecks := totalChecks s + 1; passedChecks := passedChecks s;
     failedChecks := failedChecks s; warnings := warnings s |}.

Definition pass (s : Summary) : Summary :=
  {| totalChecks := totalChecks s; passedChecks := passedChecks s + 1;
     failedChecks := failedChecks s; warnings := warnings s |}.

Definition fail (s : Summary) : Summary :=
  {| totalChecks := totalChecks s; passedChecks := passedChecks s;
     failedChecks := failedChecks s + 1; warnings := warnings s |}.

Definition warn (s : Summary) : Summary :=
  {| totalChecks := totalChecks s; passedChecks := passedChecks s;
     failedChecks := failedChecks s; warnings := warnings s + 1 |}.

(** [generateSummary] *)
Definition generateSummary (results : Results) : Summary :=
  let summary :=
    {| totalChecks := 0; passedChecks := 0; failedChecks := 0; warnings := 0 |} in
  let summary :=
    match ssl results with
    | Some r =>
        let summary := check summary in
        if grade_is (grade r) "A" || grade_is (grade r) "A+" then pass summary
        else fail summary
    | None => summary
    end in
  let summary :=
    match headers results with
    | Some r =>
        let summary := check summary in
        let headerScore := or_default (score r) 0 in
        if headerScore >=? 80 then pass summary
        else if headerScore >=? 60 then warn summary
        else fail summary
    | None => summary
    end in
  let summary :=
    match malware results with
    | Some r =>
        let summary := check summary in
        if is_zero (malicious r) then pass summary else fail summary
    | None => summary
    end in
  let summary :=
    match ports results with
    | Some r =>
        let summary := check summary in
        if len (riskyPorts r) =? 0 then pass summary else warn summary
    | None => summary
    end in
  summary.

(** *** The read-time level in closed form *)

(** The points, out of ten, each check contributes. *)
Definition ssl_check (r : AnalysisResult) : Q :=
  if grade_is (grade r) "A" || grade_is (grade r) "A+" then 10
  else if grade_is (grade r) "B" then 7
  else if grade_is (grade r) "C" then 4
  else 1.

Definition headers_check (r : AnalysisResult) : Q :=
  inject_Z (or_default (score r) 0) / 100 * 10.

Definition malware_check (r : AnalysisResult) : Q :=
  if is_zero (malicious r) then 10
  else if less_than (malicious r) 5 then 7
  else if less_than (malicious r) 10 then 4
  else 1.

Definition ports_check (r : AnalysisResult) : Q :=
  if len (riskyPorts r) =? 0 then 10
  else if len (riskyPorts r) <? 3 then 7
  else 4.

Definition check_points (results : Results) : list Q :=
  (points_of ssl_check (ssl results)
   ++ points_of headers_check (headers results)
   ++ points_of malware_check (malware results)
   ++ points_of ports_check (ports results))%list.

Definition level_of_checks (l : list Q) : string :=
  match l with
  | [] => "unknown"
  | _ =>
      let average := (Qsum l / inject_Z (len l))%Q in
      if Qle_bool 8 average then "low"
      else if Qle_bool 5 average then "medium"
      else "high"
  end.

(** A completed scan of a badly kept host: grade F, no security header,
    ten of ten vendors flagging it, one risky port open. *)
Definition grim_results : Results :=
  {| malware := Some {| grade := None; score := Some 0; malicious := Some 10;
                        total := Some 10; openPorts := None;
                        technologies := None; missingHeaders := None;
                        error := None |};
     ssl := Some {| grade := Some "F"; score := Some 0; malicious := None;
                    total := None; openPorts := None; technologies := None;
                    missingHeaders := None; error := None |};
     headers := Some {| grade := None; score := Some 0; malicious := None;
                        total := None; openPorts := None; technologies := None;
                        missingHeaders := Some []; error := None |};
     tech := None;
     ports := Some {| grade := None; score := Some 90; malicious := None;
                      total := None; openPorts := Some [80; 443];
                      technologies := None; missingHeaders := None;
                      error := None |};
     whois := None;
     riskScore := Some 20;
     recommendations := [] |}.

(** The entries [calculateRiskLevel] and [generateSummary] never read,
    replaced. *)
Definition with_unread (t w : option AnalysisResult) (s : option Z)
    (recs : list Recommendation) (r : Results) : Results :=
  {| malware := malware r; ssl := ssl r; headers := headers r; tech := t;
     ports := ports r; whois := w; riskScore := s; recommendations := recs |}.

(** *** The handlers *)

(** What a handler answers: the status code with the body of a success,
    or with the [error] text of a failure. *)
Inductive Response (A : Type) :=
  | Answer (code : Z) (body : A)
  | Failure (code : Z) (error : string).
Arguments Answer {A} code body.
Arguments Failure {A} code error.

(** The body of the answer to [POST /]. *)
Record Started := {
  started_message : string;
  started_scanId : string;
  started_status : string;
  estimatedTime : string
}.

(** [router.post('/')], up to the call of [SecurityScanner.startScan]:
    the answer and the store. [url] is the one of the request body,
    falsy when missing or empty; [uuid] is what [uuidv4()] returns and
    [now] what [new Date().toISOString()] does. *)
Definition post_scan (validateUrl : string -> bool) (uuid now : string)
    (url : option string) (scanResults : gmap string ScanRecord)
    : Response Started * gmap string ScanRecord :=
  match url with
  | None => (Failure 400 "Invalid URL", scanResults)
  | Some url =>
      if (url =? "")%string || negb (validateUrl url) then
        (Failure 400 "Invalid URL", scanResults)
      else
        let scanId := uuid in
        let scanResult := new_record scanId url now in
        let scanResults := <[scanId := scanResult]> scanResults in
        (Answer 201 {| started_message := "Security scan started successfully";
                       started_scanId := scanId;
                       started_status := "pending";
                       estimatedTime := "30-60 seconds" |},
         scanResults)
  end.

Definition status_text (s : Status) : string :=
  match s with
  | pending => "pending"
  | scanning => "scanning"
  | completed => "completed"
  | failed => "failed"
  end.

(** The body of the answer to [GET /:scanId]. *)
Record Report := {
  report_scanId : string;
  report_url : string;
  report_status : string;
  report_progress : Z;
  report_startTime : string;
  report_endTime : option string;
  report_results : Results;
  report_errors : list StepError;
  riskLevel : string;
  summary : Summary
}.

(** [router.get('/:scanId')] *)
Definition get_scan (scanResults : gmap string ScanRecord) (scanId : string)
    : Response Report :=
  match scanResults !! scanId with
  | None => Failure 404 "Scan not found"
  | Some scanResult =>
      Answer 200
        {| report_scanId := id scanResult;
           report_url := SecurityScanner.url scanResult;
           report_status := status_text (status scanResult);
           report_progress := progress scanResult;
           report_startTime := startTime scanResult;
           report_endTime := endTime scanResult;
           report_results := results scanResult;
           report_errors := errors scanResult;
           riskLevel := calculateRiskLevel (results scanResult);
           summary := generateSummary (results scanResult) |}
  end.

(** The body of the answer to [GET /:scanId/status]. *)
Record Progress := {
  progress_scanId : string;
  progress_status : string;
  progress_progress : Z;
  progress_startTime : string;
  progress_endTime : option string
}.

(** [router.get('/:scanId/status')] *)
Definition get_status (scanResults : gmap string ScanRecord) (scanId : string)
    : Response Progress :=
  match scanResults !! scanId with
  | None => Failure 404 "Scan not found"
  | Some scanResult =>
      Answer 200
        {| progress_scanId := id scanResult;
           progress_status := status_text (status scanResult);
           progress_progress := progress scanResult;
           progress_startTime := startTime scanResult;
           progress_endTime := endTime scanResult |}
  end.

End ScanRoutes.

(** * Properties *)

Section JSFacts.
Import JS.

Lemma Math_round_Z (z : Z) : Math_round (inject_Z z) = z.
Proof.
  unfold Math_round.
  assert (H : (inject_Z z + (1 # 2) == (2 * z + 1) # 2)%Q).
  { unfold Qeq, Qplus, inject_Z. simpl. lia. }
  rewrite H. unfold Qfloor.
  symmetry. apply Z.div_unique with (r := 1); lia.
Qed.

End JSFacts.

(** ** The SSL score *)

Section SSLScore.
Import JS SSLAnalyzer.

Lemma if_plus (b : bool) (s k : Z) : (if b then s + k else s) = s + b2z b k.
Proof. destruct b; simpl; lia. Qed.

Lemma if_minus (b : bool) (s k : Z) : (if b then s - k else s) = s - b2z b k.
Proof. destruct b; simpl; lia. Qed.

Lemma vulnerability_step_penalty (score : Z) (v : Vulnerability) :
  vulnerability_step score v = score - severity_penalty v.
Proof.
  unfold vulnerability_step, severity_penalty.
  destruct (String.eqb_spec (severity v) "critical") as [E | _].
  - rewrite E. simpl. lia.
  - destruct (String.eqb_spec (severity v) "high") as [E | _].
    + rewrite E. simpl. lia.
    + destruct (String.eqb_spec (severity v) "medium") as [E | _].
      * rewrite E. simpl. lia.
      * destruct (severity v =? "low")%string; lia.
Qed.

Lemma fold_vulnerability_step (vulnerabilities : list Vulnerability) :
  forall score : Z,
    fold_left vulnerability_step vulnerabilities score
    = score - vulnerability_penalty vulnerabilities.
Proof.
  induction vulnerabilities as [| v vs IH]; intros score; simpl.
  - unfold vulnerability_penalty. simpl. lia.
  - rewrite IH, vulnerability_step_penalty.
    unfold vulnerability_penalty. simpl. lia.
Qed.

(** C7 (as stated, refuted): on a TLS 1.2 development host with one
    strong cipher the code returns 68 while the listed terms alone give
    18: the code starts from a base of 50. *)
Lemma calculateSslScore_not_listed_terms :
  calculateSslScore ["TLSv1.2"] dev_ciphers dev_certificate [] = 68
  /\ spec_ssl_score ["TLSv1.2"] dev_ciphers dev_certificate [] = 18
  /\ calculateSslScore ["TLSv1.2"] dev_ciphers dev_certificate []
     <> spec_ssl_score ["TLSv1.2"] dev_ciphers dev_certificate [].
Proof. repeat split; vm_compute; congruence. Qed.

(** C7 (amended): the SSL score is the clamp to [0,100] of a base of 50
    plus the protocol, cipher and certificate terms the specification
    lists, plus 5 when the signature algorithm is ECDSA, minus the
    per-vulnerability penalties. *)
Theorem calculateSslScore_closed_form (protocols : list string)
    (ciphers : list Cipher) (certificate : Certificate)
    (vulnerabilities : list Vulnerability) :
  calculateSslScore protocols ciphers certificate vulnerabilities
  = clamp 0 100
      (50 + protocol_points protocols + cipher_points ciphers
       + certificate_points certificate
       + b2z (is_ecdsa certificate) 5
       - vulnerability_penalty vulnerabilities).
Proof.
  unfold calculateSslScore.
  rewrite Math_round_Z, fold_vulnerability_step.
  rewrite !if_plus, !if_minus.
  unfold clamp, protocol_points, cipher_points, certificate_points,
    count_strength.
  match goal with
  | |- (if (if ?a >? 100 then _ else _) <? 0 then _ else _) = _ =>
      destruct (Z.gtb_spec a 100); destruct (Z.ltb_spec a 0);
      try destruct (Z.ltb_spec 100 0); lia
  end.
Qed.

End SSLScore.

(** ** The seeded synthesizer *)

Section SeededSynthesizer.
Import JS.

Lemma hex_value_digit (x : Z) :
  0 <= x < 16 -> hex_value (MD5.hex_digit x) = Some x.
Proof.
  intros H.
  assert (C : x = 0 \/ x = 1 \/ x = 2 \/ x = 3 \/ x = 4 \/ x = 5 \/ x = 6
              \/ x = 7 \/ x = 8 \/ x = 9 \/ x = 10 \/ x = 11 \/ x = 12
              \/ x = 13 \/ x = 14 \/ x = 15) by lia.
  repeat (destruct C as [-> | C]; [reflexivity |]).
  subst x. reflexivity.
Qed.

Lemma nibbles_of_byte (b : Z) :
  0 <= b mod 256 / 16 < 16 /\ 0 <= b mod 256 mod 16 < 16.
Proof.
  pose proof (Z.mod_pos_bound b 256 ltac:(lia)).
  split.
  - split; [apply Z.div_pos; lia | apply Z.div_lt_upper_bound; lia].
  - apply Z.mod_pos_bound. lia.
Qed.

(** The first eight characters of a digest always parse: they are the
    hexadecimal digits of the first four bytes. *)
Lemma parse_digest_prefix (msg : list Z) :
  exists s : Z,
    parseInt16 (String.substring 0 8 (MD5.hex (MD5.digest msg))) = Some s
    /\ 0 <= s < 2 ^ 32.
Proof.
  unfold MD5.digest.
  destruct (MD5.blocks _ _ _) as [[[a b] c] d].
  cbn [MD5.le_bytes app MD5.hex String.substring].
  unfold parseInt16. cbn [parseInt16_from].
  set (b0 := a mod 256). set (b1 := a / 256 mod 256).
  set (b2 := a / 256 / 256 mod 256). set (b3 := a / 256 / 256 / 256 mod 256).
  destruct (nibbles_of_byte a) as [H0 H0'].
  destruct (nibbles_of_byte (a / 256)) as [H1 H1'].
  destruct (nibbles_of_byte (a / 256 / 256)) as [H2 H2'].
  destruct (nibbles_of_byte (a / 256 / 256 / 256)) as [H3 H3'].
  fold b0 in H0, H0'. fold b1 in H1, H1'. fold b2 in H2, H2'. fold b3 in H3, H3'.
  rewrite !hex_value_digit by assumption.
  cbn [parseInt16_from].
  eexists. split; [reflexivity | lia].
Qed.

Lemma whois_seed_parses (d : string) :
  exists s : Z,
    WhoisAnalyzer.seed d = Some s /\ 0 <= s < 2 ^ 32
    /\ SSLAnalyzer.seed d = (if s =? 0 then 1 else s).
Proof.
  unfold WhoisAnalyzer.seed, SSLAnalyzer.seed, WhoisAnalyzer.domainHash,
    SSLAnalyzer.domainHash, MD5.md5_hex.
  destruct (parse_digest_prefix (MD5.bytes_of (toLowerCase d))) as [s [E B]].
  exists s. rewrite E. repeat split; lia || reflexivity.
Qed.

Lemma seededRandom_range (n : R) :
  (0 <= SSLAnalyzer.seededRandom n < 1)%R.
Proof.
  unfold SSLAnalyzer.seededRandom, Math_floor.
  destruct (base_Int_part (Math_sin n * 10000)) as [Hle Hgt].
  split; lra.
Qed.

Lemma seed_of_empty_domain :
  WhoisAnalyzer.seed "" = Some 3558706393 /\ SSLAnalyzer.seed "" = 3558706393.
Proof. split; vm_compute; reflexivity. Qed.

(** C6: the seed is a function of the lower-cased domain alone (so two
    derivations from one domain agree), it is always a number below
    2^32 read from the first eight hexadecimal digits of the digest
    (never NaN; the SSL analyzer replaces 0 by 1), the pseudo-random
    value is a function of its argument with values in [0,1), and the
    empty domain has the seed 3558706393. *)
Theorem seed_and_seededRandom_deterministic (d d' : string) (n n' : R) :
  toLowerCase d = toLowerCase d' ->
  n = n' ->
  (WhoisAnalyzer.seed d = WhoisAnalyzer.seed d'
   /\ SSLAnalyzer.seed d = SSLAnalyzer.seed d')
  /\ (exists s : Z,
        WhoisAnalyzer.seed d = Some s /\ 0 <= s < 2 ^ 32
        /\ SSLAnalyzer.seed d = (if s =? 0 then 1 else s))
  /\ (SSLAnalyzer.seededRandom n = SSLAnalyzer.seededRandom n'
      /\ WhoisAnalyzer.seededRandom n = WhoisAnalyzer.seededRandom n'
      /\ WhoisAnalyzer.seededRandom n = SSLAnalyzer.seededRandom n)
  /\ (0 <= SSLAnalyzer.seededRandom n < 1)%R
  /\ (WhoisAnalyzer.seed "" = Some 3558706393
      /\ SSLAnalyzer.seed "" = 3558706393).
Proof.
  intros Hd Hn. subst n'.
  split; [| split; [| split; [| split]]].
  - unfold WhoisAnalyzer.seed, SSLAnalyzer.seed, WhoisAnalyzer.domainHash,
      SSLAnalyzer.domainHash.
    rewrite Hd. split; reflexivity.
  - apply whois_seed_parses.
  - repeat split; reflexivity.
  - apply seededRandom_range.
  - apply seed_of_empty_domain.
Qed.

Lemma seed_and_seededRandom_deterministic_witness :
  toLowerCase "Example.COM" = toLowerCase "example.com"
  /\ WhoisAnalyzer.seed "Example.COM" = WhoisAnalyzer.seed "example.com"
  /\ (0 <= SSLAnalyzer.seededRandom 1 < 1)%R.
Proof.
  assert (H : toLowerCase "Example.COM" = toLowerCase "example.com")
    by reflexivity.
  pose proof (seed_and_seededRandom_deterministic
                "Example.COM" "example.com" 1%R 1%R H eq_refl) as T.
  split; [exact H |].
  split; [exact (proj1 (proj1 T)) | exact (proj1 (proj2 (proj2 (proj2 T))))].
Defined.

End SeededSynthesizer.

(** ** The risk score *)

Section RiskScore.
Import JS SecurityScanner.

Lemma Math_round_proper (x y : Q) : (x == y)%Q -> Math_round x = Math_round y.
Proof. intros E. unfold Math_round. rewrite E. reflexivity. Qed.

Lemma ssl_block (r : AnalysisResult) (score : Q) :
  ((if grade_is (grade r) "A+" || grade_is (grade r) "A" then (score + 100)%Q
    else if grade_is (grade r) "B" then (score + 75)%Q
    else if grade_is (grade r) "C" then (score + 50)%Q
    else if grade_is (grade r) "D" then (score + 25)%Q
    else if grade_is (grade r) "E" || grade_is (grade r) "F" then (score + 0)%Q
    else (score + 0)%Q) = score + ssl_points r)%Q.
Proof.
  unfold ssl_points.
  destruct (grade_is (grade r) "A+" || grade_is (grade r) "A"); [reflexivity |].
  destruct (grade_is (grade r) "B"); [reflexivity |].
  destruct (grade_is (grade r) "C"); [reflexivity |].
  destruct (grade_is (grade r) "D"); [reflexivity |].
  destruct (grade_is (grade r) "E" || grade_is (grade r) "F"); reflexivity.
Qed.

Lemma calculateRiskScore_closed_form (results : Results) :
  calculateRiskScore results =
    match counted_points results with
    | [] => 0
    | l => Math_round (Qsum l / inject_Z (100 * len l) * 100)
    end.
Proof.
  unfold calculateRiskScore, counted_points.
  destruct (ssl results) as [s |], (headers results) as [h |],
    (malware results) as [m |], (ports results) as [p |],
    (tech results) as [t |]; cbn [points_of app];
    try rewrite ssl_block.
  all: try reflexivity.
  all: match goal with
       | |- (if ?c then _ else _) = _ => change c with true; cbv iota
       end.
  all: apply Math_round_proper.
  all: unfold Qsum; cbn [fold_right].
  all: unfold headers_points, malware_points, ports_points, tech_points.
  all: match goal with
       | |- (_ / inject_Z ?a * _ == _ / inject_Z ?b * _)%Q =>
          let a' := eval vm_compute in a in
          let b' := eval vm_compute in b in
          change (inject_Z a) with (a' # 1)%Q; change (inject_Z b) with (b' # 1)%Q
       end.
  all: field.
Qed.



End RiskScore.

(** ** The read-time helpers of the scan route *)

Section ReadTime.
Import JS SecurityScanner ScanRoutes.

Lemma Qle_bool_proper (a x y : Q) : (x == y)%Q -> Qle_bool a x = Qle_bool a y.
Proof.
  intros E.
  destruct (Qle_bool a x) eqn:Hx, (Qle_bool a y) eqn:Hy; try reflexivity.
  - apply Qle_bool_iff in Hx. rewrite E in Hx. apply Qle_bool_iff in Hx.
    congruence.
  - apply Qle_bool_iff in Hy. rewrite <- E in Hy. apply Qle_bool_iff in Hy.
    congruence.
Qed.

Lemma ssl_check_block (r : AnalysisResult) (score : Q) :
  ((if grade_is (grade r) "A" || grade_is (grade r) "A+" then (score + 10)%Q
    else if grade_is (grade r) "B" then (score + 7)%Q
    else if grade_is (grade r) "C" then (score + 4)%Q
    else (score + 1)%Q) = score + ssl_check r)%Q.
Proof.
  unfold ssl_check.
  destruct (grade_is (grade r) "A" || grade_is (grade r) "A+"); [reflexivity |].
  destruct (grade_is (grade r) "B"); [reflexivity |].
  destruct (grade_is (grade r) "C"); reflexivity.
Qed.

Lemma malware_check_block (r : AnalysisResult) (score : Q) :
  ((if is_zero (malicious r) then (score + 10)%Q
    else if less_than (malicious r) 5 then (score + 7)%Q
    else if less_than (malicious r) 10 then (score + 4)%Q
    else (score + 1)%Q) = score + malware_check r)%Q.
Proof.
  unfold malware_check.
  destruct (is_zero (malicious r)); [reflexivity |].
  destruct (less_than (malicious r) 5); [reflexivity |].
  destruct (less_than (malicious r) 10); reflexivity.
Qed.

Lemma ports_check_block (r : AnalysisResult) (score : Q) :
  ((if len (riskyPorts r) =? 0 then (score + 10)%Q
    else if len (riskyPorts r) <? 3 then (score + 7)%Q
    else (score + 4)%Q) = score + ports_check r)%Q.
Proof.
  unfold ports_check.
  destruct (len (riskyPorts r) =? 0); [reflexivity |].
  destruct (len (riskyPorts r) <? 3); reflexivity.
Qed.

Lemma level_of_average (x y : Q) :
  (x == y)%Q ->
  (if Qle_bool 8 x then "low" else if Qle_bool 5 x then "medium" else "high")
  = (if Qle_bool 8 y then "low" else if Qle_bool 5 y then "medium" else "high").
Proof.
  intros E. rewrite (Qle_bool_proper 8 x y E), (Qle_bool_proper 5 x y E).
  reflexivity.
Qed.

Lemma calculateRiskLevel_closed_form (results : Results) :
  calculateRiskLevel results = level_of_checks (check_points results).
Proof.
  unfold calculateRiskLevel, check_points, every_null.
  rewrite andb_false_r.
  destruct (ssl results) as [s |], (headers results) as [h |],
    (malware results) as [m |], (ports results) as [p |];
    cbn [points_of app];
    rewrite ?ssl_check_block, ?malware_check_block, ?ports_check_block.
  all: try reflexivity.
  all: match goal with
       | |- (if ?c then _ else _) = _ => change c with false; cbv iota
       end.
  all: unfold level_of_checks.
  all: apply level_of_average.
  all: unfold Qsum; cbn [fold_right].
  all: unfold headers_check.
  all: match goal with
       | |- (_ / inject_Z ?a == _ / inject_Z ?b)%Q =>
          let a' := eval vm_compute in a in
          let b' := eval vm_compute in b in
          change (inject_Z a) with (a' # 1)%Q;
          change (inject_Z b) with (b' # 1)%Q
       end.
  all: field.
Qed.

Lemma level_of_checks_not_critical (l : list Q) :
  level_of_checks l <> "critical".
Proof.
  unfold level_of_checks.
  destruct l as [| x l']; [discriminate |].
  destruct (Qle_bool 8 _); [discriminate |].
  destruct (Qle_bool 5 _); discriminate.
Qed.

(** C5 (as stated, refuted): on a completed scan whose aggregate score
    is 20 the thresholds give "critical", but the level computed for
    reads is "high". *)
Lemma read_time_level_ignores_thresholds :
  riskScore grim_results = Some 20
  /\ calculateRiskScore grim_results = 20
  /\ getRiskLevel 20 = "critical"
  /\ calculateRiskLevel grim_results = "high"
  /\ calculateRiskLevel grim_results <> getRiskLevel 20.
Proof. repeat split; vm_compute; congruence. Qed.

(** C5 (amended): the thresholds 80, 60 and 40 (85 low, 65 medium, 45
    high, 20 critical) are those of the scanner's [getRiskLevel], a
    function of the score alone. The level computed for reads is a
    function of the ssl, headers, malware and ports results alone: it
    averages the points of the checks that have a result, each out of
    ten, and answers low from 8 up, medium from 5 up, high below, and
    unknown when no check has a result; it never answers critical. *)
Theorem risk_level_thresholds_and_read_time_level (score : Z)
    (results : Results) :
  ((getRiskLevel score = "low" <-> 80 <= score)
   /\ (getRiskLevel score = "medium" <-> 60 <= score < 80)
   /\ (getRiskLevel score = "high" <-> 40 <= score < 60)
   /\ (getRiskLevel score = "critical" <-> score < 40))
  /\ (getRiskLevel 85 = "low" /\ getRiskLevel 65 = "medium"
      /\ getRiskLevel 45 = "high" /\ getRiskLevel 20 = "critical")
  /\ calculateRiskLevel results = level_of_checks (check_points results)
  /\ calculateRiskLevel results <> "critical"
  /\ (forall (t w : option AnalysisResult) (s : option Z)
             (recs : list Recommendation),
        calculateRiskLevel (with_unread t w s recs results)
        = calculateRiskLevel results).
Proof.
  split; [| split; [| split; [| split]]].
  - unfold getRiskLevel.
    destruct (Z.geb_spec score 80); [repeat split; intros; try lia; discriminate |].
    destruct (Z.geb_spec score 60); [repeat split; intros; try lia; discriminate |].
    destruct (Z.geb_spec score 40); repeat split; intros; try lia; discriminate.
  - repeat split; reflexivity.
  - apply calculateRiskLevel_closed_form.
  - rewrite calculateRiskLevel_closed_form. apply level_of_checks_not_critical.
  - intros t w s' recs. rewrite !calculateRiskLevel_closed_form. reflexivity.
Qed.

(** C10: the four counters of the summary add up, only the ssl, headers,
    malware and ports results are counted, one check each, and the tech
    and whois results (like the stored score and recommendations) change
    no field. *)
Theorem generateSummary_counts (results : Results) :
  totalChecks (generateSummary results)
  = passedChecks (generateSummary results)
    + failedChecks (generateSummary results)
    + warnings (generateSummary results)
  /\ totalChecks (generateSummary results)
     = len (List.filter (fun x => negb (is_null x))
              [ssl results; headers results; malware results; ports results])
  /\ 0 <= totalChecks (generateSummary results) <= 4
  /\ 0 <= passedChecks (generateSummary results)
  /\ 0 <= failedChecks (generateSummary results)
  /\ 0 <= warnings (generateSummary results)
  /\ (forall (t w : option AnalysisResult) (s : option Z)
             (recs : list Recommendation),
        generateSummary (with_unread t w s recs results)
        = generateSummary results).
Proof.
  assert (U : forall t w s recs,
             generateSummary (with_unread t w s recs results)
             = generateSummary results) by (intros; reflexivity).
  repeat (split; [| try exact U]); clear U; unfold generateSummary.
  all: destruct (ssl results) as [s |], (headers results) as [h |],
         (malware results) as [m |], (ports results) as [p |];
       repeat match goal with
              | |- context [if ?c then _ else _] => destruct c
              end;
       cbn; unfold len; cbn; lia.
Qed.

End ReadTime.

(** ** The recommendation compiler *)

Section SortFacts.
Import JS.
Context {A : Type} (compare : A -> A -> option Z) (rank : A -> Z).

Local Abbreviation by_rank := (by_rank rank).
Local Abbreviation compares_by_rank := (compares_by_rank compare rank).

Lemma sort_insert_perm (x : A) (l : list A) :
  Permutation (x :: l) (sort_insert compare x l).
Proof.
  induction l as [| y l IH]; cbn [sort_insert].
  - apply Permutation_refl.
  - destruct (sort_compare compare x y >? 0).
    + apply perm_trans with (y :: x :: l); [apply perm_swap |].
      apply perm_skip, IH.
    + apply Permutation_refl.
Qed.

Lemma Array_sort_perm (l : list A) : Permutation l (Array_sort compare l).
Proof.
  induction l as [| x l IH]; cbn [Array_sort].
  - apply perm_nil.
  - apply perm_trans with (x :: Array_sort compare l).
    + apply perm_skip, IH.
    + apply sort_insert_perm.
Qed.

Lemma sort_insert_sorted (x : A) (l : list A) :
  compares_by_rank x l ->
  StronglySorted by_rank l ->
  StronglySorted by_rank (sort_insert compare x l).
Proof.
  intros Hc Hs. induction Hs as [| y l Hs IH Hy]; cbn [sort_insert].
  - constructor; constructor.
  - assert (Hxy : sort_compare compare x y = rank x - rank y)
      by (apply Hc; left; reflexivity).
    assert (Hc' : compares_by_rank x l)
      by (intros z Hz; apply Hc; right; exact Hz).
    destruct (Z.gtb_spec (sort_compare compare x y) 0) as [Hgt | Hle].
    + constructor; [apply IH, Hc' |].
      apply (Permutation_Forall (sort_insert_perm x l)).
      constructor; [unfold by_rank; lia | exact Hy].
    + constructor; [constructor; assumption |].
      constructor; [unfold by_rank; lia |].
      apply List.Forall_impl with (P := by_rank y); [| exact Hy].
      unfold by_rank. intros z Hz. lia.
Qed.

Lemma Array_sort_sorted (l : list A) :
  (forall x, In x l -> compares_by_rank x l) ->
  StronglySorted by_rank (Array_sort compare l).
Proof.
  induction l as [| x l IH]; intros H; cbn [Array_sort].
  - constructor.
  - apply sort_insert_sorted.
    + intros y Hy. apply (H x); [left; reflexivity |].
      right. apply (Permutation_in _ (Permutation_sym (Array_sort_perm l))), Hy.
    + apply IH. intros z Hz y Hy. apply (H z); right; assumption.
Qed.

Lemma sort_insert_filter (k : Z) (x : A) (l : list A) :
  compares_by_rank x l ->
  List.filter (fun a => rank a =? k) (sort_insert compare x l)
  = List.filter (fun a => rank a =? k) (x :: l).
Proof.
  intros Hc. induction l as [| y l IH]; cbn [sort_insert]; [reflexivity |].
  assert (Hxy : sort_compare compare x y = rank x - rank y)
    by (apply Hc; left; reflexivity).
  destruct (Z.gtb_spec (sort_compare compare x y) 0) as [Hgt | Hle];
    [| reflexivity].
  cbn [List.filter]. rewrite IH by (intros z Hz; apply Hc; right; exact Hz).
  cbn [List.filter].
  destruct (Z.eqb_spec (rank x) k), (Z.eqb_spec (rank y) k);
    try reflexivity; lia.
Qed.

Lemma Array_sort_stable (k : Z) (l : list A) :
  (forall x, In x l -> compares_by_rank x l) ->
  List.filter (fun a => rank a =? k) (Array_sort compare l)
  = List.filter (fun a => rank a =? k) l.
Proof.
  induction l as [| x l IH]; intros H; cbn [Array_sort]; [reflexivity |].
  rewrite sort_insert_filter.
  - cbn [List.filter]. rewrite IH; [reflexivity |].
    intros z Hz y Hy. apply (H z); right; assumption.
  - intros y Hy. apply (H x); [left; reflexivity |].
    right. apply (Permutation_in _ (Permutation_sym (Array_sort_perm l))), Hy.
Qed.

End SortFacts.

Section RecommendationCompiler.
Import JS.

Local Abbreviation ranked := SecurityScanner.ranked.


Lemma ranked_push (l : list SecurityScanner.Recommendation)
    (r : SecurityScanner.Recommendation) :
  Forall ranked l -> ranked r -> Forall ranked (SecurityScanner.push l r).
Proof.
  intros Hl Hr. unfold SecurityScanner.push.
  apply Forall_app. split; [exact Hl | constructor; [exact Hr | constructor]].
Qed.

Lemma ranked_push_if (c : bool) (l : list SecurityScanner.Recommendation)
    (r : SecurityScanner.Recommendation) :
  Forall ranked l -> ranked r -> Forall ranked (SecurityScanner.push_if c r l).
Proof.
  intros Hl Hr. destruct c; cbn; [apply ranked_push |]; assumption.
Qed.

Lemma gathered_recommendations_ranked (results : SecurityScanner.Results) :
  Forall ranked (SecurityScanner.gathered_recommendations results).
Proof.
  unfold SecurityScanner.gathered_recommendations.
  repeat match goal with
         | |- Forall ranked (SecurityScanner.push_if _ _ _) =>
             apply ranked_push_if; [| discriminate]
         | |- Forall ranked (SecurityScanner.push _ _) =>
             apply ranked_push; [| discriminate]
         | |- Forall ranked [] => constructor
         | |- Forall ranked (match ?x with _ => _ end) => destruct x
         end.
Qed.

Lemma scanner_compares_by_rank (x : SecurityScanner.Recommendation)
    (l : list SecurityScanner.Recommendation) :
  ranked x -> Forall ranked l ->
  compares_by_rank SecurityScanner.compare_priority
    SecurityScanner.priority_rank x l.
Proof.
  intros Hx Hl y Hy.
  rewrite List.Forall_forall in Hl. specialize (Hl y Hy).
  unfold ranked in Hx, Hl.
  unfold sort_compare, SecurityScanner.compare_priority,
    SecurityScanner.priority_rank.
  destruct (SecurityScanner.priorityOrder (SecurityScanner.priority x));
    [| congruence].
  destruct (SecurityScanner.priorityOrder (SecurityScanner.priority y));
    [reflexivity | congruence].
Qed.


End RecommendationCompiler.

(** ** The scan *)

Section Scan.
Import JS SecurityScanner ScanRoutes.
Context (env : Environment) (scanId : string) (totalWeight : Z).

Local Abbreviation loop := (fold_left (run_step env scanId totalWeight)).

Lemma run_step_scanResult (l : Loop) (s : ScanStep) :
  scanResult (run_step env scanId totalWeight l s)
  = set_progress
      (Math_round (inject_Z (completedWeight l + weight s)
                   / inject_Z totalWeight * 100)%Q)
      match analyzer s tt with
      | Returned result =>
          set_results (set_result (name s) (Some result) (results (scanResult l)))
            (scanResult l)
      | Threw message =>
          push_error {| step := name s; step_error := message;
                        timestamp := clock env (readings (run l)) |}
            (scanResult l)
      end.
Proof. unfold run_step. destruct (analyzer s tt); reflexivity. Qed.

Lemma run_step_completedWeight (l : Loop) (s : ScanStep) :
  completedWeight (run_step env scanId totalWeight l s)
  = completedWeight l + weight s.
Proof. unfold run_step. destruct (analyzer s tt); reflexivity. Qed.

Lemma run_step_run (l : Loop) (s : ScanStep) :
  run (run_step env scanId totalWeight l s)
  = {| store := <[scanId := scanResult (run_step env scanId totalWeight l s)]>
                  (store (run l));
       readings := match analyzer s tt with
                   | Returned _ => readings (run l)
                   | Threw _ => S (readings (run l))
                   end;
       observed := push (observed (run l))
                     (scanResult (run_step env scanId totalWeight l s));
       invoked := push (invoked (run l)) (name s) |}.
Proof. unfold run_step. destruct (analyzer s tt); reflexivity. Qed.

Lemma loop_untouched (steps : list ScanStep) :
  forall l, untouched (scanResult (loop steps l)) (scanResult l).
Proof.
  induction steps as [| s steps IH]; intros l; cbn [fold_left].
  - repeat split.
  - destruct (IH (run_step env scanId totalWeight l s)) as (H1 & H2 & H3 & H4 & H5).
    rewrite run_step_scanResult in H1, H2, H3, H4, H5.
    destruct (analyzer s tt); cbn in *; repeat split; assumption.
Qed.

Lemma loop_results (steps : list ScanStep) :
  forall l,
    results (scanResult (loop steps l))
    = stored_results steps (results (scanResult l)).
Proof.
  induction steps as [| s steps IH]; intros l; cbn [fold_left stored_results];
    [reflexivity |].
  rewrite IH, run_step_scanResult. unfold stored_results.
  destruct (analyzer s tt); reflexivity.
Qed.

Lemma loop_readings (steps : list ScanStep) :
  forall l,
    readings (run (loop steps l)) = (readings (run l) + thrown steps)%nat.
Proof.
  induction steps as [| s steps IH]; intros l; cbn [fold_left thrown].
  - lia.
  - rewrite IH, run_step_run. cbn [readings].
    destruct (analyzer s tt); lia.
Qed.

Lemma loop_errors (steps : list ScanStep) :
  forall l,
    errors (scanResult (loop steps l))
    = (errors (scanResult l) ++ step_errors env (readings (run l)) steps)%list.
Proof.
  induction steps as [| s steps IH]; intros l; cbn [fold_left step_errors].
  - symmetry. apply app_nil_r.
  - rewrite IH, run_step_scanResult, run_step_run. cbn [readings].
    destruct (analyzer s tt); cbn [errors set_progress set_results push_error].
    + reflexivity.
    + unfold push. rewrite <- app_assoc. reflexivity.
Qed.

Lemma loop_invoked (steps : list ScanStep) :
  forall l,
    invoked (run (loop steps l)) = (invoked (run l) ++ map name steps)%list.
Proof.
  induction steps as [| s steps IH]; intros l; cbn [fold_left map].
  - symmetry. apply app_nil_r.
  - rewrite IH, run_step_run. cbn [invoked]. unfold push.
    rewrite <- app_assoc. reflexivity.
Qed.

Lemma loop_store (steps : list ScanStep) :
  forall l,
    store (run l) !! scanId = Some (scanResult l) ->
    store (run (loop steps l))
    = <[scanId := scanResult (loop steps l)]> (store (run l)).
Proof.
  induction steps as [| s steps IH]; intros l H; cbn [fold_left].
  - symmetry. apply insert_id, H.
  - rewrite IH.
    + rewrite run_step_run. cbn [store]. apply insert_insert_eq.
    + rewrite run_step_run. cbn [store]. apply lookup_insert_eq.
Qed.

(** What the loop adds to the observations: one record per step, with
    the progress of that step and the status and end time it began with. *)
Lemma loop_observed (steps : list ScanStep) :
  forall l,
    exists news : list ScanRecord,
      observed (run (loop steps l)) = (observed (run l) ++ news)%list
      /\ map progress news
         = progress_after totalWeight (completedWeight l) (map weight steps)
      /\ Forall (fun r => status r = status (scanResult l)
                          /\ endTime r = endTime (scanResult l)) news.
Proof.
  induction steps as [| s steps IH]; intros l; cbn [fold_left].
  - exists []. rewrite app_nil_r. repeat split. constructor.
  - destruct (IH (run_step env scanId totalWeight l s)) as (news & Ho & Hp & Hs).
    exists (scanResult (run_step env scanId totalWeight l s) :: news).
    split; [| split].
    + rewrite Ho, run_step_run. cbn [observed]. unfold push.
      rewrite <- app_assoc. reflexivity.
    + cbn [map progress_after]. rewrite Hp, run_step_completedWeight.
      f_equal. rewrite run_step_scanResult. reflexivity.
    + assert (U : status (scanResult (run_step env scanId totalWeight l s))
                  = status (scanResult l)
                  /\ endTime (scanResult (run_step env scanId totalWeight l s))
                     = endTime (scanResult l)).
      { rewrite run_step_scanResult. destruct (analyzer s tt); split; reflexivity. }
      destruct U as [Us Ue].
      constructor; [split; assumption |].
      apply List.Forall_impl with (2 := Hs).
      intros r [H1 H2]. split; congruence.
Qed.

End Scan.

Section StartScan.
Import JS SecurityScanner ScanRoutes.
Context (env : Environment) (scanId url : string).

Local Abbreviation loop_start := (loop_start scanId).
Local Abbreviation loop_end := (loop_end env scanId url).
Local Abbreviation complete := (complete env).

Lemma total_weight (domain : option string) :
  fold_left (fun sum step => sum + weight step) (scanSteps env url domain) 0
  = 100.
Proof. reflexivity. Qed.

Lemma startScan_not_found (scanResults : gmap string ScanRecord) :
  scanResults !! scanId = None ->
  startScan env scanId url scanResults
  = {| store := scanResults; readings := 0; observed := []; invoked := [] |}.
Proof.
  intros H. unfold startScan. rewrite H. unfold on_error. cbn [store].
  rewrite H. reflexivity.
Qed.

Lemma on_error_found (message : string) (r : Run) (scanResult : ScanRecord) :
  store r !! scanId = Some scanResult ->
  on_error env scanId message r
  = {| store :=
         <[scanId := push_error {| step := "general"; step_error := message;
                                   timestamp := clock env (readings r) |}
                       (set_status failed scanResult)]> (store r);
       readings := S (readings r);
       observed :=
         push (observed r)
           (push_error {| step := "general"; step_error := message;
                          timestamp := clock env (readings r) |}
              (set_status failed scanResult));
       invoked := invoked r |}.
Proof. intros H. unfold on_error. rewrite H. reflexivity. Qed.

Lemma startScan_unfold_let (scanResults : gmap string ScanRecord) (r0 : ScanRecord) :
  scanResults !! scanId = Some r0 ->
  startScan env scanId url scanResults
  = let l := loop_end scanResults r0 in
    {| store := <[scanId := complete l]> (store (run l));
       readings := S (readings (run l));
       observed := push (observed (run l)) (complete l);
       invoked := invoked (run l) |}.
Proof.
  intros H. unfold startScan. rewrite H. cbv zeta. rewrite total_weight.
  unfold loop_end, complete, loop_start. cbv zeta. reflexivity.
Qed.

Lemma startScan_unfold (scanResults : gmap string ScanRecord) (r0 : ScanRecord) :
  scanResults !! scanId = Some r0 ->
  startScan env scanId url scanResults
  = {| store := <[scanId := complete (loop_end scanResults r0)]>
                  (store (run (loop_end scanResults r0)));
       readings := S (readings (run (loop_end scanResults r0)));
       observed := push (observed (run (loop_end scanResults r0)))
                     (complete (loop_end scanResults r0));
       invoked := invoked (run (loop_end scanResults r0)) |}.
Proof.
  intros H. rewrite (startScan_unfold_let _ _ H).
  generalize (loop_end scanResults r0). intros L. reflexivity.
Qed.

Lemma progress_after_scanSteps :
  progress_after 100 0 [20; 20; 20; 15; 15; 10] = [20; 40; 60; 75; 90; 100].
Proof. vm_compute. reflexivity. Qed.

(** What is known of the state in which the loop ends. *)
Lemma loop_end_facts (scanResults : gmap string ScanRecord) (r0 : ScanRecord) :
  untouched (scanResult (loop_end scanResults r0))
    (set_progress 0 (set_status scanning r0))
  /\ results (scanResult (loop_end scanResults r0))
     = stored_results (scanSteps env url (extractDomain env url)) (results r0)
  /\ errors (scanResult (loop_end scanResults r0))
     = (errors r0
        ++ step_errors env 0 (scanSteps env url (extractDomain env url)))%list
  /\ readings (run (loop_end scanResults r0))
     = thrown (scanSteps env url (extractDomain env url))
  /\ invoked (run (loop_end scanResults r0)) = step_names
  /\ store (run (loop_end scanResults r0))
     = <[scanId := scanResult (loop_end scanResults r0)]> scanResults
  /\ exists news : list ScanRecord,
       observed (run (loop_end scanResults r0))
       = set_progress 0 (set_status scanning r0) :: news
       /\ map progress news = [20; 40; 60; 75; 90; 100]
       /\ Forall (fun r => status r = scanning /\ endTime r = endTime r0) news.
Proof.
  unfold loop_end.
  split; [apply loop_untouched |].
  split; [rewrite loop_results; reflexivity |].
  split; [rewrite loop_errors; reflexivity |].
  split; [rewrite loop_readings; reflexivity |].
  split; [rewrite loop_invoked; reflexivity |].
  split.
  - rewrite loop_store by apply lookup_insert_eq.
    cbn [loop_start run store]. apply insert_insert_eq.
  - destruct (loop_observed env scanId 100
                (scanSteps env url (extractDomain env url))
                (loop_start scanResults r0))
      as (news & Ho & Hp & Hs).
    exists news. split; [exact Ho |]. split; [| exact Hs].
    rewrite Hp. apply progress_after_scanSteps.
Qed.

Lemma complete_loop_end (scanResults : gmap string ScanRecord) (r0 : ScanRecord) :
  complete (loop_end scanResults r0) = final_record env url r0.
Proof.
  destruct (loop_end_facts scanResults r0) as (U & R & E & C & _).
  revert U R E C. generalize (loop_end scanResults r0). intros L U R E C.
  unfold complete, final_record. cbv zeta.
  generalize calculateRiskScore as f. generalize generateRecommendations as g.
  intros g f.
  destruct U as (U1 & U2 & _ & U4 & _).
  destruct L as [sr cw rn]. cbn [scanResult run] in *.
  destruct sr as [i u st p t0 t1 rs es].
  unfold set_progress, set_status in U1, U2, U4.
  cbn [id SecurityScanner.url startTime results errors] in U1, U2, U4, R, E.
  unfold set_endTime, set_progress, set_status, set_results.
  cbn [id SecurityScanner.url status progress startTime endTime results errors].
  rewrite U1, U2, U4, R, E, C. reflexivity.
Qed.

Lemma startScan_found (scanResults : gmap string ScanRecord) (r0 : ScanRecord) :
  scanResults !! scanId = Some r0 ->
  store (startScan env scanId url scanResults)
  = <[scanId := final_record env url r0]> scanResults
  /\ readings (startScan env scanId url scanResults)
     = S (thrown (scanSteps env url (extractDomain env url)))
  /\ invoked (startScan env scanId url scanResults) = step_names
  /\ exists news : list ScanRecord,
       observed (startScan env scanId url scanResults)
       = (set_progress 0 (set_status scanning r0) :: news
          ++ [final_record env url r0])%list
       /\ map progress news = [20; 40; 60; 75; 90; 100]
       /\ Forall (fun r => status r = scanning /\ endTime r = endTime r0) news.
Proof.
  intros H. rewrite (startScan_unfold _ _ H), complete_loop_end.
  destruct (loop_end_facts scanResults r0)
    as (_ & _ & _ & C & I & S & news & Ho & Hp & Hs).
  revert C I S Ho. generalize (loop_end scanResults r0). intros L C I S Ho.
  cbn [store readings observed invoked].
  rewrite C, I, S, Ho, insert_insert_eq.
  repeat split. exists news. repeat split; assumption.
Qed.

End StartScan.

(** ** The scan as a whole *)

Section ScanTheorems.
Import JS SecurityScanner ScanRoutes.

(** What the loop stores under the name of a step: the result its
    analyzer returned, or, when it threw, what the record held before. *)
Lemma get_stored_results (env : Environment) (url n : string) (res : Results) :
  In n step_names ->
  get_result n
    (stored_results (scanSteps env url (extractDomain env url)) res)
  = match outcome_of env url n with
    | Some (Returned r) => Some r
    | _ => get_result n res
    end.
Proof.
  intros Hn. unfold stored_results, outcome_of, scanSteps.
  cbn [fold_left find analyzer name option_map].
  destruct (MalwareAnalyzer_analyze env url),
    (SSLAnalyzer_analyze env (extractDomain env url)),
    (HeadersAnalyzer_analyze env (extractDomain env url)),
    (TechAnalyzer_analyze env (extractDomain env url)),
    (PortAnalyzer_analyze env (extractDomain env url)),
    (WhoisAnalyzer_analyze env (extractDomain env url));
    cbn in Hn; decompose [or] Hn; subst; try contradiction; reflexivity.
Qed.

Lemma get_result_final_record (env : Environment) (url n : string)
    (r0 : ScanRecord) :
  get_result n (results (final_record env url r0))
  = get_result n
      (stored_results (scanSteps env url (extractDomain env url)) (results r0)).
Proof.
  unfold final_record. cbn [results].
  generalize (stored_results (scanSteps env url (extractDomain env url))
                (results r0)) as stored.
  generalize calculateRiskScore as f. generalize generateRecommendations as g.
  intros g f stored. unfold get_result.
  repeat match goal with
         | |- context [if ?c then _ else _] => destruct c; [reflexivity |]
         end.
  reflexivity.
Qed.

Lemma outcome_of_steps (env : Environment) (url : string) :
  outcome_of env url "malware" = Some (MalwareAnalyzer_analyze env url)
  /\ outcome_of env url "ssl"
     = Some (SSLAnalyzer_analyze env (extractDomain env url))
  /\ outcome_of env url "headers"
     = Some (HeadersAnalyzer_analyze env (extractDomain env url))
  /\ outcome_of env url "tech"
     = Some (TechAnalyzer_analyze env (extractDomain env url))
  /\ outcome_of env url "ports"
     = Some (PortAnalyzer_analyze env (extractDomain env url))
  /\ outcome_of env url "whois"
     = Some (WhoisAnalyzer_analyze env (extractDomain env url)).
Proof. repeat split; reflexivity. Qed.

Lemma outcome_of_known (env : Environment) (url d : string) (o : Outcome) :
  outcome_of env url d = Some o -> In d step_names.
Proof.
  unfold outcome_of, scanSteps. cbn [find name]. intros Hd.
  repeat match type of Hd with
         | context [(?a =? d)%string] =>
             destruct (String.eqb_spec a d) as [<- | _]; [cbn; tauto |]
         end.
  discriminate Hd.
Qed.

(** The analyzers' outcomes when the step [d] throws and the others
    return: the loop appends one error, for [d], and reads the clock
    once. *)
Lemma single_throw (env : Environment) (url d m : string) :
  outcome_of env url d = Some (Threw m) ->
  (forall d', In d' step_names -> d' <> d ->
     exists r, outcome_of env url d' = Some (Returned r)) ->
  In d step_names
  /\ step_errors env 0 (scanSteps env url (extractDomain env url))
     = [ {| step := d; step_error := m; timestamp := clock env 0 |} ]
  /\ thrown (scanSteps env url (extractDomain env url)) = 1%nat.
Proof.
  intros Hd Ho.
  pose proof (outcome_of_known env url d _ Hd) as Hin.
  split; [exact Hin |].
  destruct (outcome_of_steps env url) as (O1 & O2 & O3 & O4 & O5 & O6).
  assert (K : forall d' o, In d' step_names -> outcome_of env url d' = Some o ->
              (d' = d /\ o = Threw m) \/ (d' <> d /\ exists r, o = Returned r)).
  { intros d' o Hin' E. destruct (string_dec d' d) as [-> | N].
    - left. split; [reflexivity | congruence].
    - right. split; [exact N |].
      destruct (Ho d' Hin' N) as [r Er]. exists r. congruence. }
  assert (I1 : In "malware" step_names) by (cbn; tauto).
  assert (I2 : In "ssl" step_names) by (cbn; tauto).
  assert (I3 : In "headers" step_names) by (cbn; tauto).
  assert (I4 : In "tech" step_names) by (cbn; tauto).
  assert (I5 : In "ports" step_names) by (cbn; tauto).
  assert (I6 : In "whois" step_names) by (cbn; tauto).
  pose proof (K _ _ I1 O1) as K1. pose proof (K _ _ I2 O2) as K2.
  pose proof (K _ _ I3 O3) as K3. pose proof (K _ _ I4 O4) as K4.
  pose proof (K _ _ I5 O5) as K5. pose proof (K _ _ I6 O6) as K6.
  clear K O1 O2 O3 O4 O5 O6 I1 I2 I3 I4 I5 I6 Ho Hd.
  unfold scanSteps. cbn [step_errors thrown analyzer name].
  revert K1 K2 K3 K4 K5 K6.
  generalize (MalwareAnalyzer_analyze env url) as o1.
  generalize (SSLAnalyzer_analyze env (extractDomain env url)) as o2.
  generalize (HeadersAnalyzer_analyze env (extractDomain env url)) as o3.
  generalize (TechAnalyzer_analyze env (extractDomain env url)) as o4.
  generalize (PortAnalyzer_analyze env (extractDomain env url)) as o5.
  generalize (WhoisAnalyzer_analyze env (extractDomain env url)) as o6.
  intros o6 o5 o4 o3 o2 o1 K1 K2 K3 K4 K5 K6.
  cbn [In step_names] in Hin.
  destruct Hin as [<- | [<- | [<- | [<- | [<- | [<- | []]]]]]];
    repeat match goal with
           | K : (?a = ?a /\ _) \/ _ |- _ =>
               destruct K as [[_ ->] | [N _]]; [| contradiction N; reflexivity]
           | K : (?a = ?b /\ _) \/ _ |- _ =>
               destruct K as [[N _] | [_ [? ->]]]; [discriminate N |]
           end;
    split; reflexivity.
Qed.

(** C2 (as stated, refuted): when the SSL analyzer throws and the five
    others return, the scan completes and the error is recorded, but
    nothing is stored for ssl: the entry keeps the [null] it started
    with, so there is no degraded result with score 0 and an error. *)
Lemma failed_step_stores_no_result :
  exists rec : ScanRecord,
    store (startScan ssl_down_env "scan-1" "https://example.com" example_store)
      !! "scan-1" = Some rec
    /\ status rec = completed
    /\ errors rec
       = [ {| step := "ssl"; step_error := "connect ETIMEDOUT";
              timestamp := "2025-01-01T00:00:00.000Z" |} ]
    /\ ssl (results rec) = None
    /\ ~ (exists r : AnalysisResult,
            ssl (results rec) = Some r /\ score r = Some 0 /\ error r <> None).
Proof.
  eexists. split; [vm_compute; reflexivity |].
  repeat split.
  intros (r & Hr & _). discriminate Hr.
Qed.

(** C2 (amended): when the analyzer of exactly one step throws and the
    five others return, the scan still ends completed, at progress 100
    and with its end time set, every analyzer having been called; the
    five returned results are stored, a step error naming the failed
    step and carrying the thrown message is appended, and the entry of
    the failed step is left as it was before the scan ([null] on a
    fresh record): no degraded result is stored for it. *)
Theorem one_failed_step_is_recorded (env : Environment)
    (scanId url d m : string) (scanResults : gmap string ScanRecord)
    (r0 : ScanRecord) :
  scanResults !! scanId = Some r0 ->
  outcome_of env url d = Some (Threw m) ->
  (forall d', In d' step_names -> d' <> d ->
     exists r, outcome_of env url d' = Some (Returned r)) ->
  exists rec : ScanRecord,
    store (startScan env scanId url scanResults) !! scanId = Some rec
    /\ status rec = completed
    /\ progress rec = 100
    /\ endTime rec = Some (clock env 1)
    /\ invoked (startScan env scanId url scanResults) = step_names
    /\ In d step_names
    /\ get_result d (results rec) = get_result d (results r0)
    /\ (forall d' r, In d' step_names -> d' <> d ->
          outcome_of env url d' = Some (Returned r) ->
          get_result d' (results rec) = Some r)
    /\ errors rec
       = (errors r0
          ++ [ {| step := d; step_error := m; timestamp := clock env 0 |} ])%list.
Proof.
  intros H Hd Ho.
  destruct (startScan_found env scanId url _ _ H) as (S & _ & I & _).
  destruct (single_throw env url d m Hd Ho) as (Hin & He & Ht).
  exists (final_record env url r0).
  rewrite S, lookup_insert_eq.
  split; [reflexivity |]. split; [reflexivity |]. split; [reflexivity |].
  split; [unfold final_record; cbn [endTime]; rewrite Ht; reflexivity |].
  split; [exact I |]. split; [exact Hin |].
  split; [| split].
  - rewrite get_result_final_record, get_stored_results by exact Hin.
    rewrite Hd. reflexivity.
  - intros d' r Hin' _ Hr.
    rewrite get_result_final_record, get_stored_results by exact Hin'.
    rewrite Hr. reflexivity.
  - unfold final_record. cbn [errors]. rewrite He. reflexivity.
Qed.

Lemma one_failed_step_is_recorded_witness :
  exists rec : ScanRecord,
    store (startScan ssl_down_env "scan-1" "https://example.com" example_store)
      !! "scan-1" = Some rec
    /\ status rec = completed
    /\ get_result "ssl" (results rec) = None
    /\ get_result "headers" (results rec) = headers scenario_results.
Proof.
  assert (H : example_store !! "scan-1"
              = Some (new_record "scan-1" "https://example.com"
                        "2025-01-01T00:00:00.000Z")) by reflexivity.
  assert (Hd : outcome_of ssl_down_env "https://example.com" "ssl"
               = Some (Threw "connect ETIMEDOUT")) by reflexivity.
  assert (Ho : forall d', In d' step_names -> d' <> "ssl" ->
               exists r, outcome_of ssl_down_env "https://example.com" d'
                         = Some (Returned r)).
  { intros d' Hin Hne. cbn in Hin.
    decompose [or] Hin; try contradiction; subst d';
      try (eexists; reflexivity).
    exfalso. apply Hne. reflexivity. }
  destruct (one_failed_step_is_recorded ssl_down_env "scan-1"
              "https://example.com" "ssl" "connect ETIMEDOUT" example_store
              _ H Hd Ho)
    as (rec & Hs & Hc & _ & _ & _ & _ & Hg & Hr & _).
  exists rec. split; [exact Hs |]. split; [exact Hc |].
  split; [exact Hg |].
  apply Hr; [cbn; tauto | discriminate | reflexivity].
Defined.

(** C3 (as stated, refuted): in a scan whose six analyzers all return,
    the progress read after the six steps is 20, 40, 60, 75, 90, 100;
    the third value is 60, not 55, for the third step is the headers
    step, of weight 20. *)
Lemma progress_is_not_20_40_55 :
  invoked (startScan steady_env "scan-1" "https://example.com" example_store)
  = ["malware"; "ssl"; "headers"; "tech"; "ports"; "whois"]
  /\ map progress
       (observed (startScan steady_env "scan-1" "https://example.com"
                    example_store))
     = [0; 20; 40; 60; 75; 90; 100; 100]
  /\ firstn 6 (tl (map progress
                     (observed (startScan steady_env "scan-1"
                                  "https://example.com" example_store))))
     <> [20; 40; 55; 75; 90; 100].
Proof. repeat split; vm_compute; congruence. Qed.

(** C3 (amended): in a scan in which all six analyzers return, the
    steps run in the order malware, ssl, headers, tech, ports, whois,
    and the progress of the record, read before the first step, after
    each of the six steps and at completion, is 0, then 20, 40, 60, 75,
    90, 100, then 100. *)
Theorem progress_after_each_step (env : Environment) (scanId url : string)
    (scanResults : gmap string ScanRecord) (r0 : ScanRecord) :
  scanResults !! scanId = Some r0 ->
  (forall n, In n step_names ->
     exists r, outcome_of env url n = Some (Returned r)) ->
  invoked (startScan env scanId url scanResults)
  = ["malware"; "ssl"; "headers"; "tech"; "ports"; "whois"]
  /\ map progress (observed (startScan env scanId url scanResults))
     = [0; 20; 40; 60; 75; 90; 100; 100].
Proof.
  intros H _.
  destruct (startScan_found env scanId url _ _ H)
    as (_ & _ & I & news & Ho & Hp & _).
  split; [exact I |].
  rewrite Ho. cbn [map]. rewrite map_app, Hp. reflexivity.
Qed.

Lemma progress_after_each_step_witness :
  example_store !! "scan-1"
  = Some (new_record "scan-1" "https://example.com" "2025-01-01T00:00:00.000Z")
  /\ map progress
       (observed (startScan steady_env "scan-1" "https://example.com"
                    example_store))
     = [0; 20; 40; 60; 75; 90; 100; 100].
Proof.
  assert (H : example_store !! "scan-1"
              = Some (new_record "scan-1" "https://example.com"
                        "2025-01-01T00:00:00.000Z")) by reflexivity.
  assert (Ho : forall n, In n step_names ->
               exists r, outcome_of steady_env "https://example.com" n
                         = Some (Returned r)).
  { intros n Hin. cbn in Hin.
    decompose [or] Hin; try contradiction; subst n; eexists; reflexivity. }
  split; [exact H |].
  exact (proj2 (progress_after_each_step steady_env "scan-1"
                  "https://example.com" example_store _ H Ho)).
Defined.

(** C4: whatever the analyzers do, the progress of the record never
    decreases from one observation of a scan to the next, a record
    observed with the status completed has progress 100 and its end time
    set, and the scan leaves such a record in the store. *)
Theorem progress_monotone_completed_at_100 (env : Environment)
    (scanId url : string) (scanResults : gmap string ScanRecord)
    (r0 : ScanRecord) :
  scanResults !! scanId = Some r0 ->
  Sorted Z.le (map progress (observed (startScan env scanId url scanResults)))
  /\ Forall (fun r => status r = completed ->
                      progress r = 100 /\ endTime r <> None)
       (observed (startScan env scanId url scanResults))
  /\ exists rec : ScanRecord,
       store (startScan env scanId url scanResults) !! scanId = Some rec
       /\ List.last (observed (startScan env scanId url scanResults)) r0 = rec
       /\ status rec = completed
       /\ progress rec = 100
       /\ endTime rec <> None.
Proof.
  intros H.
  destruct (startScan_found env scanId url _ _ H)
    as (S & _ & _ & news & Ho & Hp & Hs).
  rewrite Ho, S. split; [| split].
  - cbn [map]. rewrite map_app, Hp. cbn.
    repeat (constructor; try lia).
  - constructor; [intros E; discriminate E |].
    apply Forall_app. split.
    + apply List.Forall_impl with (2 := Hs).
      intros r [E _] C. rewrite E in C. discriminate C.
    + constructor; [| constructor].
      intros _. split; [reflexivity | discriminate].
  - exists (final_record env url r0).
    split; [apply lookup_insert_eq |].
    split; [| repeat split; discriminate].
    change (set_progress 0 (set_status scanning r0)
            :: (news ++ [final_record env url r0])%list)
      with ((set_progress 0 (set_status scanning r0) :: news)
            ++ [final_record env url r0])%list.
    apply last_last.
Qed.

Lemma progress_monotone_completed_at_100_witness :
  example_store !! "scan-1"
  = Some (new_record "scan-1" "https://example.com" "2025-01-01T00:00:00.000Z")
  /\ Sorted Z.le
       (map progress
          (observed (startScan ssl_down_env "scan-1" "https://example.com"
                       example_store))).
Proof.
  assert (H : example_store !! "scan-1"
              = Some (new_record "scan-1" "https://example.com"
                        "2025-01-01T00:00:00.000Z")) by reflexivity.
  split; [exact H |].
  exact (proj1 (progress_monotone_completed_at_100 ssl_down_env "scan-1"
                  "https://example.com" example_store _ H)).
Defined.

(** C9 (as stated, refuted): a scan started under an id the store does
    not hold calls no analyzer, but marks nothing as failed either: the
    store is left as it was, with no record under that id and the one
    record it holds still pending and free of errors. *)
Lemma lost_record_is_not_marked_failed :
  example_store !! "scan-2" = None
  /\ invoked (startScan steady_env "scan-2" "https://example.com" example_store)
     = []
  /\ store (startScan steady_env "scan-2" "https://example.com" example_store)
     = example_store
  /\ ~ (exists rec : ScanRecord,
          store (startScan steady_env "scan-2" "https://example.com"
                   example_store) !! "scan-2" = Some rec
          /\ status rec = failed)
  /\ (forall (i : string) (rec : ScanRecord),
        store (startScan steady_env "scan-2" "https://example.com"
                 example_store) !! i = Some rec ->
        status rec = pending /\ errors rec = []).
Proof.
  assert (N : example_store !! "scan-2" = None) by reflexivity.
  pose proof (startScan_not_found steady_env "scan-2" "https://example.com"
                example_store N) as E.
  rewrite E. cbn [store invoked].
  split; [exact N |]. split; [reflexivity |]. split; [reflexivity |].
  split.
  - intros (rec & Hr & _). rewrite N in Hr. discriminate Hr.
  - intros i rec Hi. unfold example_store in Hi.
    apply lookup_singleton_Some in Hi. destruct Hi as [_ <-].
    split; reflexivity.
Qed.

(** C9 (amended): when the record cannot be located at the start of the
    scan, no analyzer runs and the store is left as it was, so that no
    record is marked failed and no error is recorded; when the handler
    of orchestration errors runs while the record is in the store, it
    sets the status of the record to failed and appends a general step
    error with the message, calls no analyzer and leaves the other
    records alone. *)
Theorem orchestration_error (env : Environment) (scanId url message : string)
    (scanResults : gmap string ScanRecord) (r : Run) (scanResult : ScanRecord) :
  scanResults !! scanId = None ->
  store r !! scanId = Some scanResult ->
  startScan env scanId url scanResults
  = {| store := scanResults; readings := 0; observed := []; invoked := [] |}
  /\ (exists rec : ScanRecord,
        store (on_error env scanId message r) !! scanId = Some rec
        /\ status rec = failed
        /\ errors rec
           = (errors scanResult
              ++ [ {| step := "general"; step_error := message;
                      timestamp := clock env (readings r) |} ])%list
        /\ progress rec = progress scanResult
        /\ results rec = results scanResult)
  /\ invoked (on_error env scanId message r) = invoked r
  /\ (forall j : string,
        j <> scanId -> store (on_error env scanId message r) !! j = store r !! j).
Proof.
  intros N F. split; [apply startScan_not_found, N |].
  rewrite (on_error_found env scanId message r scanResult F).
  cbn [store invoked]. split; [| split].
  - eexists. split; [apply lookup_insert_eq |]. repeat split.
  - reflexivity.
  - intros j Hj. apply lookup_insert_ne. congruence.
Qed.

Lemma orchestration_error_witness :
  (∅ : gmap string ScanRecord) !! "scan-1" = None
  /\ example_store !! "scan-1"
     = Some (new_record "scan-1" "https://example.com"
               "2025-01-01T00:00:00.000Z")
  /\ startScan steady_env "scan-1" "https://example.com" ∅
     = {| store := ∅; readings := 0; observed := []; invoked := [] |}
  /\ exists rec : ScanRecord,
       store (on_error steady_env "scan-1" "Scan result not found"
                {| store := example_store; readings := 0; observed := [];
                   invoked := [] |}) !! "scan-1" = Some rec
       /\ status rec = failed.
Proof.
  assert (N : (∅ : gmap string ScanRecord) !! "scan-1" = None) by reflexivity.
  assert (F : store {| store := example_store; readings := 0; observed := [];
                       invoked := [] |} !! "scan-1"
              = Some (new_record "scan-1" "https://example.com"
                        "2025-01-01T00:00:00.000Z")) by reflexivity.
  split; [exact N |]. split; [exact F |].
  destruct (orchestration_error steady_env "scan-1" "https://example.com"
              "Scan result not found" ∅ _ _ N F)
    as (E & (rec & Hr & Hs & _) & _).
  split; [exact E |].
  exists rec. split; [exact Hr | exact Hs].
Defined.

End ScanTheorems.

(** * Further properties of the code *)

(** ** The mock data of the SSL analyzer *)

Section SSLMock.
Import JS SSLAnalyzer.

Lemma Math_floor_scaled (r : R) (n : Z) :
  (0 <= r < 1)%R -> 0 < n -> 0 <= Math_floor (r * IZR n) <= n - 1.
Proof.
  intros [H0 H1] Hn. unfold Math_floor.
  destruct (base_Int_part (r * IZR n)) as [Hle Hgt].
  assert (Hp : (0 < IZR n)%R) by (apply IZR_lt; exact Hn).
  assert (Hx0 : (0 <= r * IZR n)%R) by (apply Rmult_le_pos; lra).
  assert (Hx1 : (r * IZR n < IZR n)%R).
  { replace (IZR n) with (1 * IZR n)%R at 2 by lra.
    apply Rmult_lt_compat_r; assumption. }
  split.
  - assert (H : (-1 < Int_part (r * IZR n))%Z) by (apply lt_IZR; simpl; lra).
    lia.
  - assert (H : (Int_part (r * IZR n) < n)%Z) by (apply lt_IZR; lra).
    lia.
Qed.

Lemma random_days_range (seed k n base : Z) :
  0 < n -> base <= random_days seed k n base <= base + n - 1.
Proof.
  intros Hn. unfold random_days.
  pose proof (Math_floor_scaled _ n (seededRandom_range (IZR (seed * k))) Hn).
  lia.
Qed.

Lemma Math_ceil_days (d : Z) :
  Math_ceil (inject_Z (d * day_ms) / inject_Z day_ms)%Q = d.
Proof.
  unfold Math_ceil.
  assert (E : (inject_Z (d * day_ms) / inject_Z day_ms == inject_Z d)%Q).
  { rewrite inject_Z_mult. field. discriminate. }
  rewrite E. apply Qceiling_Z.
Qed.


Lemma generateCertificate_days (iso : Z -> string) (now : Z)
    (domain sslQuality : string) (seed : Z) :
  exists d : Z,
    daysRemaining (generateCertificate iso now domain sslQuality seed) = d
    /\ expired (generateCertificate iso now domain sslQuality seed) = (d <=? 0)
    /\ ((sslQuality = "excellent" /\ 275 <= d <= 454)
        \/ (sslQuality = "good" /\ 90 <= d <= 209)
        \/ (sslQuality = "average" /\ 30 <= d <= 119)
        \/ (sslQuality = "below_average" /\ 10 <= d <= 69)
        \/ (sslQuality = "poor" /\ 5 <= d <= 34)
        \/ (sslQuality <> "excellent" /\ sslQuality <> "good"
            /\ sslQuality <> "average" /\ sslQuality <> "below_average"
            /\ sslQuality <> "poor" /\ d = 90)).
Proof.
  unfold generateCertificate.
  pose proof (random_days_range seed 11 180 275 ltac:(lia)) as R1.
  pose proof (random_days_range seed 13 120 90 ltac:(lia)) as R2.
  pose proof (random_days_range seed 15 90 30 ltac:(lia)) as R3.
  pose proof (random_days_range seed 17 60 10 ltac:(lia)) as R4.
  pose proof (random_days_range seed 19 30 5 ltac:(lia)) as R5.
  destruct (String.eqb_spec sslQuality "excellent") as [E1 | N1];
  [| destruct (String.eqb_spec sslQuality "good") as [E2 | N2];
   [| destruct (String.eqb_spec sslQuality "average") as [E3 | N3];
    [| destruct (String.eqb_spec sslQuality "below_average") as [E4 | N4];
     [| destruct (String.eqb_spec sslQuality "poor") as [E5 | N5]]]]];
    cbn [daysRemaining expired];
    match goal with
    | |- context [Math_ceil (inject_Z (now + ?d * day_ms - now) / _)%Q] =>
        replace (now + d * day_ms - now) with (d * day_ms) by lia;
        rewrite Math_ceil_days; exists d
    end;
    (split; [reflexivity |]); (split; [reflexivity |]); tauto.
Qed.

Lemma generateCertificate_not_expired (iso : Z -> string) (now : Z)
    (domain sslQuality : string) (seed : Z) :
  (if (sslQuality =? "excellent")%string then 275 else 5)
  <= daysRemaining (generateCertificate iso now domain sslQuality seed) <= 454
  /\ expired (generateCertificate iso now domain sslQuality seed) = false.
Proof.
  destruct (generateCertificate_days iso now domain sslQuality seed)
    as (d & -> & -> & H).
  destruct (String.eqb_spec sslQuality "excellent") as [E | N].
  - assert (B : 275 <= d <= 454) by (decompose [and or] H; subst; try lia; congruence).
    split; [exact B | apply Z.leb_gt; lia].
  - assert (B : 5 <= d <= 454) by (decompose [and or] H; lia).
    split; [exact B | apply Z.leb_gt; lia].
Qed.

(** X1: the certificate of the mock data is never expired: it has between 5
    and 454 days left, whatever the domain, the tier and the time, and
    at least 275 in the excellent tier. *)
Theorem generated_certificate_never_expired (iso : Z -> string) (now : Z)
    (domain sslQuality : string) (seed : Z) :
  (if (sslQuality =? "excellent")%string then 275 else 5)
  <= daysRemaining (generateCertificate iso now domain sslQuality seed) <= 454
  /\ expired (generateCertificate iso now domain sslQuality seed) = false.
Proof. apply generateCertificate_not_expired. Qed.

Ltac tiers q :=
  destruct (String.eqb_spec q "excellent") as [-> | ?];
  [| destruct (String.eqb_spec q "good") as [-> | ?];
   [| destruct (String.eqb_spec q "average") as [-> | ?];
    [| destruct (String.eqb_spec q "below_average") as [-> | ?];
     [| destruct (String.eqb_spec q "poor") as [-> | ?];
      [| destruct (String.eqb_spec q "development") as [-> | ?]]]]]].

(** X2: the protocols of the mock data are distinct and among the five
    known ones; every tier the generator knows yields TLS 1.2 or
    TLS 1.0, SSLv3 comes only with the tiers below average and poor,
    and the excellent tier has TLS 1.3 and 1.2 and nothing else. *)
Theorem generated_protocols (sslQuality : string) (seed : Z) :
  List.NoDup (generateProtocols sslQuality seed)
  /\ incl (generateProtocols sslQuality seed) known_protocols
  /\ (generateProtocols sslQuality seed = []
      \/ includes "TLSv1.2" (generateProtocols sslQuality seed)
         || includes "TLSv1.0" (generateProtocols sslQuality seed) = true)
  /\ negb (includes "SSLv3" (generateProtocols sslQuality seed))
     || (sslQuality =? "below_average")%string
     || (sslQuality =? "poor")%string = true
  /\ generateProtocols "excellent" seed = ["TLSv1.3"; "TLSv1.2"].
Proof.
  unfold generateProtocols.
  tiers sslQuality;
    repeat match goal with
           | H : ?q <> ?s |- _ =>
               rewrite (proj2 (String.eqb_neq q s) H); clear H
           end;
    cbn [String.eqb Ascii.eqb Bool.eqb andb];
    repeat match goal with
           | |- context [gt ?a ?b] => destruct (gt a b)
           end;
    repeat split;
    match goal with
    | |- List.NoDup ?t =>
        let v := eval vm_compute in t in change t with v;
        repeat constructor; cbn; intuition discriminate
    | |- incl ?t _ =>
        let v := eval vm_compute in t in change t with v;
        intros x Hx; cbn in Hx; unfold known_protocols; cbn; tauto
    | |- _ =>
        vm_compute;
        (reflexivity || (left; reflexivity) || (right; reflexivity))
    end.
Qed.

Lemma map_push_vuln {B : Type} (f : Vulnerability -> B) (c : bool)
    (v : Vulnerability) (l : list Vulnerability) :
  map f (push_vuln c v l) = (map f l ++ if c then [f v] else [])%list.
Proof.
  unfold push_vuln. destruct c; [apply map_app | symmetry; apply app_nil_r].
Qed.

Lemma NoDup_by_nodup (l : list string) :
  nodup string_dec l = l -> List.NoDup l.
Proof. intros E. rewrite <- E. apply NoDup_nodup. Qed.

Lemma Forall_by_forallb {A : Type} (p : A -> bool) (l : list A) :
  forallb p l = true -> Forall (fun x => p x = true) l.
Proof.
  intros H. apply List.Forall_forall. intros x Hx.
  exact (proj1 (List.forallb_forall p l) H x Hx).
Qed.

(** X3: the vulnerabilities of the mock data: at most eight, no two of one
    kind, none of low severity; POODLE is reported exactly when SSLv3 is
    among the protocols, an expired certificate is never also reported
    as near expiry, and the Heartbleed mock only comes with the poor
    tier. *)
Theorem generated_vulnerabilities (protocols : list string)
    (ciphers : list Cipher) (certificate : Certificate) (sslQuality : string) :
  Forall (fun s => includes s ["critical"; "high"; "medium"] = true)
    (map severity
       (generateVulnerabilities protocols ciphers certificate sslQuality))
  /\ List.NoDup
       (map vuln_id
          (generateVulnerabilities protocols ciphers certificate sslQuality))
  /\ len (generateVulnerabilities protocols ciphers certificate sslQuality) <= 8
  /\ has_vuln "POODLE"
       (generateVulnerabilities protocols ciphers certificate sslQuality)
     = includes "SSLv3" protocols
  /\ has_vuln "CERT_EXPIRED"
       (generateVulnerabilities protocols ciphers certificate sslQuality)
     && has_vuln "CERT_NEAR_EXPIRY"
          (generateVulnerabilities protocols ciphers certificate sslQuality)
     = false
  /\ negb (has_vuln "HEARTBLEED_MOCK"
             (generateVulnerabilities protocols ciphers certificate sslQuality))
     || (sslQuality =? "poor")%string = true.
Proof.
  unfold has_vuln, len.
  rewrite <- (length_map vuln_id).
  unfold generateVulnerabilities. cbv zeta.
  rewrite !map_push_vuln. cbn [map vuln_id severity app].
  generalize (includes "SSLv3" protocols) as c1.
  generalize (includes "TLSv1.0" protocols || includes "TLSv1.1" protocols) as c2.
  generalize (existsb (fun c => str_includes (cipher_name c) "RC4") ciphers) as c3.
  generalize (existsb (fun c => (strength c =? "weak")%string) ciphers) as c4.
  generalize (isSelfSigned certificate) as c5.
  generalize (expired certificate) as c6.
  generalize (daysRemaining certificate <? 14) as c7.
  generalize (sslQuality =? "poor")%string as c8.
  generalize (gt (seededRandom
                    (IZR (or_default (Some (daysRemaining certificate)) 1 + 99)))
                (7 / 10)) as c9.
  intros c9 c8 c7 c6 c5 c4 c3 c2 c1.
  split; [apply Forall_by_forallb; destruct c1, c2, c3, c4, c5, c6, c7, c8, c9; reflexivity |].
  split; [apply NoDup_by_nodup; destruct c1, c2, c3, c4, c5, c6, c7, c8, c9; reflexivity |].
  split; [destruct c1, c2, c3, c4, c5, c6, c7, c8, c9; cbn; lia |].
  split; [destruct c1, c2, c3, c4, c5, c6, c7, c8, c9; reflexivity |].
  split; destruct c1, c2, c3, c4, c5, c6, c7, c8, c9; reflexivity.
Qed.

Lemma poor_tier_score (protocols : list string) (c : Certificate) (seed : Z) :
  In protocols [ ["TLSv1.0"]; ["TLSv1.0"; "SSLv3"]; ["TLSv1.0"; "TLSv1.1"];
                 ["TLSv1.0"; "SSLv3"; "TLSv1.1"] ] ->
  expired c = false ->
  daysRemaining c <= 180 ->
  calculateSslScore protocols (generateCiphers "poor" seed) c
    (generateVulnerabilities protocols (generateCiphers "poor" seed) c "poor")
  = 0.
Proof.
  intros Hp He Hd.
  assert (Hb : (daysRemaining c >? 180) = false)
    by (rewrite Z.gtb_ltb; apply Z.ltb_ge; lia).
  unfold calculateSslScore, generateVulnerabilities. rewrite He, Hb.
  cbn in Hp.
  destruct (isSelfSigned c), (is_ecdsa c), (daysRemaining c <? 14), (gt _ _);
    decompose [or] Hp; try contradiction; subst protocols;
    vm_compute; reflexivity.
Qed.

Lemma excellent_tier_score (c : Certificate) (seed : Z) :
  expired c = false ->
  180 < daysRemaining c ->
  calculateSslScore ["TLSv1.3"; "TLSv1.2"] (generateCiphers "excellent" seed) c
    (generateVulnerabilities ["TLSv1.3"; "TLSv1.2"]
       (generateCiphers "excellent" seed) c "excellent")
  = if isSelfSigned c then (if is_ecdsa c then 92 else 87) else 100.
Proof.
  intros He Hd.
  assert (Hb : (daysRemaining c >? 180) = true)
    by (rewrite Z.gtb_ltb; apply Z.ltb_lt; lia).
  assert (Hn : (daysRemaining c <? 14) = false) by (apply Z.ltb_ge; lia).
  unfold calculateSslScore, generateVulnerabilities. rewrite He, Hb, Hn.
  destruct (isSelfSigned c), (is_ecdsa c); vm_compute; reflexivity.
Qed.

Lemma poor_tier_protocols (seed : Z) :
  In (generateProtocols "poor" seed)
    [ ["TLSv1.0"]; ["TLSv1.0"; "SSLv3"]; ["TLSv1.0"; "TLSv1.1"];
      ["TLSv1.0"; "SSLv3"; "TLSv1.1"] ].
Proof.
  unfold generateProtocols. cbn [String.eqb Ascii.eqb Bool.eqb].
  destruct (gt _ _), (gt _ _); vm_compute; tauto.
Qed.

(** X4: a domain the generator puts in the poor tier always gets the SSL
    score 0 and the grade F. *)
Theorem poor_tier_scores_zero (iso : Z -> string) (now : Z) (domain : string) :
  determineSslQuality domain (seed domain) = "poor" ->
  score (generateRealisticMockData iso now domain) = 0
  /\ grade (generateRealisticMockData iso now domain) = "F".
Proof.
  intros Hq. unfold generateRealisticMockData. cbn [score grade]. rewrite Hq.
  destruct (generateCertificate_not_expired iso now domain "poor"
              (seed domain)) as [_ He].
  destruct (generateCertificate_days iso now domain "poor" (seed domain))
    as (d & Hd & _ & H).
  assert (B : d <= 180) by (decompose [and or] H; try lia; congruence).
  rewrite poor_tier_score;
    [split; reflexivity | apply poor_tier_protocols | exact He | lia].
Qed.

(** X5: a domain the generator puts in the excellent tier gets the SSL score
    100 and the grade A+, unless its certificate is drawn self-signed:
    then the score is 87 or 92 and the grade A or A+. *)
Theorem excellent_tier_scores_high (iso : Z -> string) (now : Z)
    (domain : string) :
  determineSslQuality domain (seed domain) = "excellent" ->
  87 <= score (generateRealisticMockData iso now domain) <= 100
  /\ (grade (generateRealisticMockData iso now domain) = "A+"
      \/ grade (generateRealisticMockData iso now domain) = "A")
  /\ (if isSelfSigned (certificate (generateRealisticMockData iso now domain))
      then True
      else score (generateRealisticMockData iso now domain) = 100
           /\ grade (generateRealisticMockData iso now domain) = "A+").
Proof.
  intros Hq. unfold generateRealisticMockData.
  cbn [score grade certificate]. rewrite Hq.
  destruct (generateCertificate_not_expired iso now domain "excellent"
              (seed domain)) as [[Hd _] He].
  cbn [String.eqb Ascii.eqb Bool.eqb] in Hd.
  change (generateProtocols "excellent" (seed domain))
    with ["TLSv1.3"; "TLSv1.2"].
  set (c := generateCertificate iso now domain "excellent" (seed domain)) in *.
  rewrite excellent_tier_score by (assumption || lia).
  destruct (isSelfSigned c), (is_ecdsa c); cbn; repeat split; try lia; tauto.
Qed.

Lemma poor_tier_scores_zero_witness :
  determineSslQuality "test.example.com" (seed "test.example.com") = "poor"
  /\ score (generateRealisticMockData (fun _ => "") 0 "test.example.com") = 0
  /\ grade (generateRealisticMockData (fun _ => "") 0 "test.example.com") = "F".
Proof.
  assert (H : determineSslQuality "test.example.com" (seed "test.example.com")
              = "poor") by reflexivity.
  split; [exact H |].
  exact (poor_tier_scores_zero (fun _ => "") 0 "test.example.com" H).
Defined.

Lemma excellent_tier_scores_high_witness :
  determineSslQuality "mybank.com" (seed "mybank.com") = "excellent"
  /\ 87 <= score (generateRealisticMockData (fun _ => "") 0 "mybank.com") <= 100.
Proof.
  assert (H : determineSslQuality "mybank.com" (seed "mybank.com")
              = "excellent") by reflexivity.
  split; [exact H |].
  exact (proj1 (excellent_tier_scores_high (fun _ => "") 0 "mybank.com" H)).
Defined.

Lemma determineSslQuality_cases (domain : string) (seed : Z) :
  if existsb (str_includes (toLowerCase domain)) excellent_words
  then determineSslQuality domain seed = "excellent"
  else if existsb (str_includes (toLowerCase domain)) poor_words
  then determineSslQuality domain seed = "poor"
  else if existsb (str_includes (toLowerCase domain)) development_words
  then determineSslQuality domain seed = "development"
  else In (determineSslQuality domain seed)
         ["excellent"; "good"; "average"; "below_average"; "poor"].
Proof.
  unfold determineSslQuality, excellent_words, poor_words, development_words.
  cbn [existsb]. rewrite !orb_false_r, !orb_assoc.
  destruct (_ || _ || _ || _ || _ || _ || _ || _); [reflexivity |].
  destruct (_ || _ || _ || _ || _); [reflexivity |].
  destruct (_ || _ || _); [reflexivity |].
  cbv zeta.
  destruct (gt _ _); [cbn; tauto |].
  destruct (gt _ _); [cbn; tauto |].
  destruct (gt _ _); [cbn; tauto |].
  destruct (gt _ _); cbn; tauto.
Qed.

(** X6: the tier of a domain is one of six. A word of the excellent list
    in the lower-cased domain decides for excellent, before any word of
    the poor list, which decides before any word of the development
    list; a domain with none of these words is never put in the
    development tier. Whatever the tier chosen, the protocol list
    generated for it is not empty. *)
Theorem ssl_quality_tiers (domain : string) (seed : Z) :
  In (determineSslQuality domain seed)
    ["excellent"; "good"; "average"; "below_average"; "poor"; "development"]
  /\ (if existsb (str_includes (toLowerCase domain)) excellent_words
      then determineSslQuality domain seed = "excellent"
      else if existsb (str_includes (toLowerCase domain)) poor_words
      then determineSslQuality domain seed = "poor"
      else if existsb (str_includes (toLowerCase domain)) development_words
      then determineSslQuality domain seed = "development"
      else determineSslQuality domain seed <> "development")
  /\ generateProtocols (determineSslQuality domain seed) seed <> [].
Proof.
  pose proof (determineSslQuality_cases domain seed) as H.
  destruct (existsb _ excellent_words);
    [| destruct (existsb _ poor_words);
       [| destruct (existsb _ development_words)]].
  1-3: rewrite H; repeat split; try (cbn; tauto);
       unfold generateProtocols; cbn [String.eqb Ascii.eqb Bool.eqb];
       repeat match goal with |- context [gt ?a ?b] => destruct (gt a b) end;
       vm_compute; discriminate.
  cbn in H.
  decompose [or] H; try contradiction;
    match goal with E : _ = determineSslQuality _ _ |- _ => rewrite <- E end;
    repeat split; try (cbn; tauto); try discriminate;
    unfold generateProtocols; cbn [String.eqb Ascii.eqb Bool.eqb];
    repeat match goal with |- context [gt ?a ?b] => destruct (gt a b) end;
    vm_compute; discriminate.
Qed.

(** X7: the SSL score lies between 0 and 100, whatever the protocols,
    the ciphers, the certificate and the vulnerabilities. *)
Theorem calculateSslScore_range (protocols : list string)
    (ciphers : list Cipher) (certificate : Certificate)
    (vulnerabilities : list Vulnerability) :
  0 <= calculateSslScore protocols ciphers certificate vulnerabilities <= 100.
Proof.
  unfold calculateSslScore. rewrite Math_round_Z.
  match goal with
  | |- _ <= (if (if ?a >? 100 then _ else _) <? 0 then _ else _) <= _ =>
      destruct (Z.gtb_spec a 100); destruct (Z.ltb_spec a 0);
      try destruct (Z.ltb_spec 100 0); lia
  end.
Qed.

(** X8: two domains that differ only in the case of their letters get the
    same mock data: the same score, grade, protocols, ciphers,
    vulnerabilities, recommendations and details. *)
Theorem mock_data_ignores_case (iso : Z -> string) (now : Z) (d d' : string) :
  toLowerCase d = toLowerCase d' ->
  score (generateRealisticMockData iso now d)
  = score (generateRealisticMockData iso now d')
  /\ grade (generateRealisticMockData iso now d)
     = grade (generateRealisticMockData iso now d')
  /\ protocols (generateRealisticMockData iso now d)
     = protocols (generateRealisticMockData iso now d')
  /\ ciphers (generateRealisticMockData iso now d)
     = ciphers (generateRealisticMockData iso now d')
  /\ vulnerabilities (generateRealisticMockData iso now d)
     = vulnerabilities (generateRealisticMockData iso now d')
  /\ recommendations (generateRealisticMockData iso now d)
     = recommendations (generateRealisticMockData iso now d')
  /\ details (generateRealisticMockData iso now d)
     = details (generateRealisticMockData iso now d').
Proof.
  intros H.
  assert (Hs : seed d = seed d')
    by (unfold seed, domainHash; rewrite H; reflexivity).
  assert (Hq : forall s, determineSslQuality d s = determineSslQuality d' s)
    by (intros s; unfold determineSslQuality; rewrite H; reflexivity).
  unfold generateRealisticMockData.
  cbn [score grade protocols ciphers vulnerabilities recommendations details].
  rewrite Hs, Hq.
  set (q := determineSslQuality d' (seed d')).
  set (s := seed d').
  assert (Hc : forall x, exists y,
             generateCertificate iso now x q s
             = {| issuer := issuer (generateCertificate iso now d' q s);
                  subject := y;
                  validFrom := validFrom (generateCertificate iso now d' q s);
                  validTo := validTo (generateCertificate iso now d' q s);
                  daysRemaining :=
                    daysRemaining (generateCertificate iso now d' q s);
                  expired := expired (generateCertificate iso now d' q s);
                  signatureAlgorithm :=
                    signatureAlgorithm (generateCertificate iso now d' q s);
                  isSelfSigned :=
                    isSelfSigned (generateCertificate iso now d' q s) |}).
  { intros x. unfold generateCertificate.
    destruct (if (q =? "excellent")%string then _ else _) as [a b].
    eexists. reflexivity. }
  destruct (Hc d) as [y Ey]. destruct (Hc d') as [y' Ey'].
  rewrite Ey. rewrite Ey' at 1 3 5 7.
  repeat split.
Qed.

Lemma mock_data_ignores_case_witness :
  toLowerCase "MyBank.COM" = toLowerCase "mybank.com"
  /\ score (generateRealisticMockData (fun _ => "") 0 "MyBank.COM")
     = score (generateRealisticMockData (fun _ => "") 0 "mybank.com").
Proof.
  assert (H : toLowerCase "MyBank.COM" = toLowerCase "mybank.com")
    by reflexivity.
  split; [exact H |].
  exact (proj1 (mock_data_ignores_case (fun _ => "") 0 _ _ H)).
Defined.

End SSLMock.

(** ** The range of the risk score *)

Section RiskScoreRange.
Import JS SecurityScanner.

Lemma Math_max_range (x : Q) : (x <= 100)%Q -> (0 <= Math_max 0 x <= 100)%Q.
Proof.
  intros H. unfold Math_max.
  destruct (Qle_bool 0 x) eqn:E.
  - apply Qle_bool_iff in E. split; assumption.
  - split; [apply Qle_refl | discriminate].
Qed.

Lemma Qminus_le_100 (x : Q) : (0 <= x)%Q -> (100 - x <= 100)%Q.
Proof.
  intros H. apply Qle_trans with (100 - 0)%Q; [| discriminate].
  apply Qplus_le_compat; [apply Qle_refl |]. apply Qopp_le_compat. exact H.
Qed.

Lemma Qsum_range (l : list Q) :
  Forall (fun p => 0 <= p <= 100)%Q l ->
  (0 <= Qsum l <= inject_Z (100 * len l))%Q.
Proof.
  induction 1 as [| p l [H0 H1] _ IH].
  - cbn. split; apply Qle_refl.
  - unfold len in *. cbn [Qsum fold_right List.length].
    fold (Qsum l). destruct IH as [I0 I1].
    rewrite Nat2Z.inj_succ.
    replace (100 * Z.succ (Z.of_nat (List.length l)))
      with (100 + 100 * Z.of_nat (List.length l)) by lia.
    rewrite inject_Z_plus. split.
    + replace 0%Q with (0 + 0)%Q by reflexivity. apply Qplus_le_compat; assumption.
    + apply Qplus_le_compat; assumption.
Qed.

Lemma rounded_mean_range (l : list Q) :
  l <> [] ->
  Forall (fun p => 0 <= p <= 100)%Q l ->
  0 <= Math_round (Qsum l / inject_Z (100 * len l) * 100) <= 100.
Proof.
  intros Hn Hl. destruct (Qsum_range l Hl) as [H0 H1].
  assert (Hp : 0 < 100 * len l).
  { destruct l; [congruence |]. unfold len. cbn [List.length]. lia. }
  assert (Hq : (0 < inject_Z (100 * len l))%Q).
  { change 0%Q with (inject_Z 0). rewrite <- Zlt_Qlt. exact Hp. }
  set (n := inject_Z (100 * len l)) in *.
  assert (X0 : (0 <= Qsum l / n * 100)%Q).
  { apply Qmult_le_0_compat; [| discriminate].
    apply Qle_shift_div_l; [exact Hq |]. rewrite Qmult_0_l. exact H0. }
  assert (X1 : (Qsum l / n * 100 <= 100)%Q).
  { apply Qle_trans with (1 * 100)%Q; [| discriminate].
    apply Qmult_le_compat_r; [| discriminate].
    apply Qle_shift_div_r; [exact Hq |]. rewrite Qmult_1_l. exact H1. }
  unfold Math_round. split.
  - change 0 with (Qfloor 0). apply Qfloor_resp_le.
    apply Qle_trans with (1 := X0).
    rewrite <- Qplus_0_r at 1. apply Qplus_le_compat; [apply Qle_refl | discriminate].
  - assert (F : Qfloor (Qsum l / n * 100 + (1 # 2)) <= Qfloor (100 + (1 # 2))).
    { apply Qfloor_resp_le. apply Qplus_le_compat; [exact X1 | apply Qle_refl]. }
    change (Qfloor (100 + (1 # 2))) with 100 in F. exact F.
Qed.

Lemma ssl_points_range (r : AnalysisResult) : (0 <= ssl_points r <= 100)%Q.
Proof.
  unfold ssl_points.
  destruct (_ || _); [split; discriminate |].
  destruct (grade_is _ "B"); [split; discriminate |].
  destruct (grade_is _ "C"); [split; discriminate |].
  destruct (grade_is _ "D"); split; discriminate.
Qed.

Lemma ports_points_range (r : AnalysisResult) : (0 <= ports_points r <= 100)%Q.
Proof.
  unfold ports_points. apply Math_max_range.
  apply Qminus_le_100.
  change 0%Q with (inject_Z 0). rewrite <- Zle_Qle. unfold len. lia.
Qed.

Lemma tech_points_range (r : AnalysisResult) : (0 <= tech_points r <= 100)%Q.
Proof.
  unfold tech_points. apply Math_max_range.
  apply Qminus_le_100.
  change 0%Q with (inject_Z 0). rewrite <- Zle_Qle. unfold len. lia.
Qed.

Lemma malware_points_range (r : AnalysisResult) :
  0 <= or_default (malicious r) 0 -> 0 <= or_default (total r) 1 ->
  (0 <= malware_points r <= 100)%Q.
Proof.
  intros Hm Ht. unfold malware_points. apply Math_max_range.
  assert (Hp : 0 < or_default (total r) 1).
  { assert (or_default (total r) 1 <> 0); [| lia].
    unfold or_default. destruct (total r) as [v |]; [| discriminate].
    destruct (Z.eqb_spec v 0); [discriminate | assumption]. }
  apply Qminus_le_100.
  apply Qmult_le_0_compat; [| discriminate].
  apply Qle_shift_div_l.
  - change 0%Q with (inject_Z 0). rewrite <- Zlt_Qlt. exact Hp.
  - rewrite Qmult_0_l. change 0%Q with (inject_Z 0). rewrite <- Zle_Qle. exact Hm.
Qed.

(** X9: the risk score lies between 0 and 100 when the headers score
    does and the vendor counts of the malware report are not negative. *)
Theorem calculateRiskScore_range (results : Results) :
  (forall r, headers results = Some r -> 0 <= or_default (score r) 0 <= 100) ->
  (forall r, malware results = Some r ->
     0 <= or_default (malicious r) 0 /\ 0 <= or_default (total r) 1) ->
  0 <= calculateRiskScore results <= 100.
Proof.
  intros Hh Hm. rewrite calculateRiskScore_closed_form.
  assert (F : Forall (fun p => 0 <= p <= 100)%Q (counted_points results)).
  { unfold counted_points.
    repeat apply Forall_app_2.
    - destruct (ssl results); constructor; [apply ssl_points_range | constructor].
    - destruct (headers results) as [r |]; constructor; [| constructor].
      specialize (Hh r eq_refl). unfold headers_points.
      change 0%Q with (inject_Z 0). change 100%Q with (inject_Z 100).
      rewrite <- !Zle_Qle. exact Hh.
    - destruct (malware results) as [r |]; constructor; [| constructor].
      destruct (Hm r eq_refl). apply malware_points_range; assumption.
    - destruct (ports results); constructor; [apply ports_points_range | constructor].
    - destruct (tech results); constructor; [apply tech_points_range | constructor]. }
  destruct (counted_points results) as [| p l] eqn:E; [lia |].
  apply rounded_mean_range; [discriminate | exact F].
Qed.

Lemma calculateRiskScore_range_witness :
  0 <= calculateRiskScore scenario_results <= 100.
Proof.
  apply calculateRiskScore_range.
  - intros r H. injection H as <-. vm_compute. split; discriminate.
  - intros r H. injection H as <-. vm_compute. split; discriminate.
Defined.

End RiskScoreRange.

(** ** The shape of the recommendations *)

Section RecommendationShape.
Import JS SecurityScanner.

Lemma sorted_rank_prefix {A : Type} (rank : A -> Z) (l : list A) :
  StronglySorted (by_rank rank) l ->
  Forall (fun x => 0 <= rank x) l ->
  l = (List.filter (fun a => rank a =? 0) l
       ++ List.filter (fun a => negb (rank a =? 0)) l)%list.
Proof.
  induction 1 as [| x l Hs IH Hx]; intros Hp; [reflexivity |].
  apply Forall_cons_1 in Hp. destruct Hp as [Hx0 Hp].
  cbn [List.filter]. destruct (Z.eqb_spec (rank x) 0) as [E | N]; cbn [negb app].
  - f_equal. apply IH, Hp.
  - assert (Z : List.filter (fun a => rank a =? 0) l = []).
    { clear IH Hs Hp. induction Hx as [| y l Hy _ IHl]; [reflexivity |].
      cbn [List.filter]. unfold by_rank in Hy.
      destruct (Z.eqb_spec (rank y) 0); [lia | exact IHl]. }
    rewrite Z in *. cbn [app] in *. f_equal. apply IH, Hp.
Qed.

Lemma filter_push {A : Type} (f : A -> bool) (l : list A) (r : A) :
  List.filter f (push l r) = (List.filter f l ++ if f r then [r] else [])%list.
Proof. unfold push. rewrite List.filter_app. reflexivity. Qed.

Lemma filter_push_if {A : Type} (f : A -> bool) (c : bool) (r : A) (l : list A) :
  List.filter f (push_if c r l)
  = (List.filter f l ++ if c && f r then [r] else [])%list.
Proof.
  unfold push_if. destruct c; cbn [andb]; [apply filter_push |].
  symmetry. apply app_nil_r.
Qed.

Lemma filter_push_if_out {A : Type} (f : A -> bool) (c : bool) (r : A)
    (l : list A) :
  f r = false -> List.filter f (push_if c r l) = List.filter f l.
Proof.
  intros H. rewrite filter_push_if, H, andb_false_r. apply app_nil_r.
Qed.

Lemma filter_push_out {A : Type} (f : A -> bool) (r : A) (l : list A) :
  f r = false -> List.filter f (push l r) = List.filter f l.
Proof. intros H. rewrite filter_push, H. apply app_nil_r. Qed.

Lemma gathered_recommendations_critical (results : Results) :
  List.filter (fun a => priority_rank a =? 0) (gathered_recommendations results)
  = match malware_detected results with
    | Some m =>
        [ {| category := "Malware";
             priority := "critical";
             title := "Malware Detected";
             description :=
               Number_toString m ++ " security vendors flagged this URL as malicious.";
             action := "Investigate and clean the website immediately" |} ]
    | None => []
    end.
Proof.
  unfold gathered_recommendations. cbv zeta.
  destruct (tech results);
    [rewrite filter_push_if_out by reflexivity |];
    (destruct (ports results);
     [rewrite filter_push_if_out by reflexivity |]).
  all: destruct (malware_detected results);
    [rewrite filter_push; cbn [priority_rank priorityOrder priority String.eqb
                               Ascii.eqb Bool.eqb Z.eqb];
     match goal with
     | |- (?l ++ _)%list = _ =>
         assert (E : l = []); [| rewrite E; reflexivity]
     end |].
  all: destruct (headers results);
    [rewrite !filter_push_if_out by reflexivity |].
  all: destruct (ssl results) as [s |]; [| reflexivity].
  all: destruct (grade_is (grade s) "F" || grade_is (grade s) "E");
    [reflexivity |];
    destruct (grade_is (grade s) "D" || grade_is (grade s) "C"); reflexivity.
Qed.

Lemma priorities_push (l : list Recommendation) (r : Recommendation) :
  Forall (fun r => includes (priority r) ["critical"; "high"; "medium"] = true) l ->
  includes (priority r) ["critical"; "high"; "medium"] = true ->
  Forall (fun r => includes (priority r) ["critical"; "high"; "medium"] = true)
    (push l r).
Proof.
  intros Hl Hr. unfold push.
  apply Forall_app. split; [exact Hl | constructor; [exact Hr | constructor]].
Qed.

Lemma priorities_push_if (c : bool) (l : list Recommendation)
    (r : Recommendation) :
  Forall (fun r => includes (priority r) ["critical"; "high"; "medium"] = true) l ->
  includes (priority r) ["critical"; "high"; "medium"] = true ->
  Forall (fun r => includes (priority r) ["critical"; "high"; "medium"] = true)
    (push_if c r l).
Proof.
  intros Hl Hr. destruct c; cbn [push_if]; [apply priorities_push |]; assumption.
Qed.

Lemma gathered_recommendations_priorities (results : Results) :
  Forall (fun r => includes (priority r) ["critical"; "high"; "medium"] = true)
    (gathered_recommendations results).
Proof.
  unfold gathered_recommendations.
  repeat match goal with
         | |- Forall _ (push_if _ _ _) =>
             apply priorities_push_if; [| reflexivity]
         | |- Forall _ (push _ _) =>
             apply priorities_push; [| reflexivity]
         | |- Forall _ [] => constructor
         | |- Forall _ (match ?x with _ => _ end) => destruct x
         end.
Qed.

(** X10: the recommendations of a scan have the priorities critical, high and
    medium only. When vendors flagged the URL, the list starts with the
    critical recommendation that reports how many did, and nothing else
    in it is critical; otherwise no recommendation is critical. *)
Theorem malware_recommendation_comes_first (results : Results) :
  Forall (fun r => includes (priority r) ["critical"; "high"; "medium"] = true)
    (generateRecommendations results)
  /\ match malware_detected results with
     | Some m =>
         exists (first : Recommendation) (rest : list Recommendation),
           generateRecommendations results = first :: rest
           /\ category first = "Malware"
           /\ priority first = "critical"
           /\ title first = "Malware Detected"
           /\ description first
              = Number_toString m
                ++ " security vendors flagged this URL as malicious."
           /\ Forall (fun r => priority r <> "critical") rest
     | None =>
         Forall (fun r => priority r <> "critical")
           (generateRecommendations results)
     end.
Proof.
  pose proof (gathered_recommendations_priorities results) as P.
  pose proof (gathered_recommendations_ranked results) as R.
  pose proof (gathered_recommendations_critical results) as C.
  assert (Cmp : forall x, In x (gathered_recommendations results) ->
                compares_by_rank compare_priority priority_rank x
                  (gathered_recommendations results)).
  { intros x Hx. apply scanner_compares_by_rank; [| exact R].
    rewrite List.Forall_forall in R. apply R, Hx. }
  unfold generateRecommendations.
  pose proof (Array_sort_perm compare_priority (gathered_recommendations results))
    as Perm.
  pose proof (Array_sort_sorted compare_priority priority_rank _ Cmp) as Srt.
  pose proof (Array_sort_stable compare_priority priority_rank 0 _ Cmp) as Stb.
  rewrite C in Stb.
  assert (P' := Permutation_Forall Perm P).
  revert Srt Stb P'.
  generalize (Array_sort compare_priority (gathered_recommendations results)).
  intros l Srt Stb P'. split; [exact P' |].
  assert (Pos : Forall (fun x => 0 <= priority_rank x) l).
  { apply List.Forall_impl with (2 := P'). intros a Ha.
    unfold priority_rank, priorityOrder. cbn in Ha.
    destruct (priority a =? "critical")%string; [lia |].
    destruct (priority a =? "high")%string; [lia |].
    destruct (priority a =? "medium")%string; [lia | discriminate Ha]. }
  assert (Rest : Forall (fun r => priority r <> "critical")
                   (List.filter (fun a => negb (priority_rank a =? 0)) l)).
  { apply List.Forall_forall. intros a Ha. apply List.filter_In in Ha.
    destruct Ha as [_ Ha]. intros E. unfold priority_rank in Ha.
    rewrite E in Ha. discriminate Ha. }
  pose proof (sorted_rank_prefix priority_rank l Srt Pos) as Split.
  rewrite Stb in Split. clear Stb C.
  destruct (malware_detected results) as [m |].
  - eexists. eexists. split; [exact Split |].
    repeat split. exact Rest.
  - cbn [app] in Split. rewrite Split. exact Rest.
Qed.

End RecommendationShape.

(** ** Scans with failing analyzers, and the routes around a scan *)

Section ScanExtras.
Import JS SecurityScanner ScanRoutes.

Lemma step_errors_timestamps (env : Environment) (steps : list ScanStep) (n : nat) :
  map timestamp (step_errors env n steps)
  = map (clock env) (seq n (List.length (step_errors env n steps))).
Proof.
  revert n. induction steps as [| s steps IH]; intros n; [reflexivity |].
  cbn [step_errors]. destruct (analyzer s tt); [apply IH |].
  cbn [map List.length seq timestamp]. rewrite IH. reflexivity.
Qed.

Lemma thrown_step_errors (env : Environment) (steps : list ScanStep) (n : nat) :
  thrown steps = List.length (step_errors env n steps).
Proof.
  revert n. induction steps as [| s steps IH]; intros n; [reflexivity |].
  cbn [step_errors thrown]. destruct (analyzer s tt); [apply IH |].
  cbn [List.length]. rewrite (IH (S n)). reflexivity.
Qed.

Lemma step_errors_steps (env : Environment) (url : string) (n : nat) :
  map step (step_errors env n (scanSteps env url (extractDomain env url)))
  = List.filter (throws env url) step_names
  /\ Forall (fun e => outcome_of env url (step e) = Some (Threw (step_error e)))
       (step_errors env n (scanSteps env url (extractDomain env url))).
Proof.
  unfold throws, outcome_of, scanSteps, step_names.
  cbn [step_errors List.filter find analyzer name option_map String.eqb
       Ascii.eqb Bool.eqb].
  generalize (MalwareAnalyzer_analyze env url) as o1.
  generalize (SSLAnalyzer_analyze env (extractDomain env url)) as o2.
  generalize (HeadersAnalyzer_analyze env (extractDomain env url)) as o3.
  generalize (TechAnalyzer_analyze env (extractDomain env url)) as o4.
  generalize (PortAnalyzer_analyze env (extractDomain env url)) as o5.
  generalize (WhoisAnalyzer_analyze env (extractDomain env url)) as o6.
  intros o6 o5 o4 o3 o2 o1.
  destruct o1, o2, o3, o4, o5, o6; split; try reflexivity;
    repeat constructor.
Qed.

(** X11: whatever the analyzers do, a scan that finds its record ends
    completed. It appends one error for every step whose analyzer threw,
    in the order of the steps, each with the message thrown and with the
    clock read at its turn, and sets the end time from the reading that
    follows; under the name of every step it stores the result returned,
    or leaves what the record held when the analyzer threw; the risk
    score and the recommendations it stores are those of the results it
    stores. *)
Theorem every_failed_step_is_recorded (env : Environment)
    (scanId url : string) (scanResults : gmap string ScanRecord)
    (r0 : ScanRecord) :
  scanResults !! scanId = Some r0 ->
  exists (rec : ScanRecord) (new : list StepError),
    store (startScan env scanId url scanResults) !! scanId = Some rec
    /\ status rec = completed
    /\ errors rec = (errors r0 ++ new)%list
    /\ map step new = List.filter (throws env url) step_names
    /\ Forall (fun e => outcome_of env url (step e) = Some (Threw (step_error e)))
         new
    /\ map timestamp new = map (clock env) (seq 0 (List.length new))
    /\ endTime rec = Some (clock env (List.length new))
    /\ (forall n, In n step_names ->
          get_result n (results rec)
          = match outcome_of env url n with
            | Some (Returned r) => Some r
            | _ => get_result n (results r0)
            end)
    /\ riskScore (results rec) = Some (calculateRiskScore (results rec))
    /\ recommendations (results rec) = generateRecommendations (results rec).
Proof.
  intros H.
  destruct (startScan_found env scanId url _ _ H) as (S & _).
  exists (final_record env url r0).
  exists (step_errors env 0 (scanSteps env url (extractDomain env url))).
  rewrite S, lookup_insert_eq.
  destruct (step_errors_steps env url 0) as [Hs Ho].
  split; [reflexivity |]. split; [reflexivity |]. split; [reflexivity |].
  split; [exact Hs |]. split; [exact Ho |].
  split; [apply step_errors_timestamps |].
  split; [unfold final_record; cbn [endTime];
          rewrite (thrown_step_errors env _ 0); reflexivity |].
  split; [intros n Hn; rewrite get_result_final_record;
          apply get_stored_results, Hn |].
  unfold final_record. cbn [results].
  generalize (stored_results (scanSteps env url (extractDomain env url))
                (results r0)) as stored.
  intros stored. split; reflexivity.
Qed.

Lemma every_failed_step_is_recorded_witness :
  exists (rec : ScanRecord) (new : list StepError),
    store (startScan ssl_down_env "scan-1" "https://example.com" example_store)
      !! "scan-1" = Some rec
    /\ status rec = completed
    /\ errors rec = ([] ++ new)%list
    /\ map step new = ["ssl"].
Proof.
  assert (H : example_store !! "scan-1"
              = Some (new_record "scan-1" "https://example.com"
                        "2025-01-01T00:00:00.000Z")) by reflexivity.
  destruct (every_failed_step_is_recorded ssl_down_env "scan-1"
              "https://example.com" example_store _ H)
    as (rec & new & Hs & Hc & He & Hn & _).
  exists rec, new. repeat split; assumption.
Defined.

(** X12: a scan touches no record but its own, and leaves the id, the
    URL and the start time of its own record as they are; without a
    record of its own it adds none. *)
Theorem startScan_touches_its_record_only (env : Environment)
    (scanId url : string) (scanResults : gmap string ScanRecord) :
  (forall j : string,
     j <> scanId ->
     store (startScan env scanId url scanResults) !! j = scanResults !! j)
  /\ match scanResults !! scanId with
     | Some r0 =>
         exists rec : ScanRecord,
           store (startScan env scanId url scanResults) !! scanId = Some rec
           /\ id rec = id r0
           /\ SecurityScanner.url rec = SecurityScanner.url r0
           /\ startTime rec = startTime r0
     | None => store (startScan env scanId url scanResults) !! scanId = None
     end.
Proof.
  destruct (scanResults !! scanId) as [r0 |] eqn:H.
  - destruct (startScan_found env scanId url _ _ H) as (S & _).
    rewrite S. split.
    + intros j Hj. apply lookup_insert_ne. congruence.
    + exists (final_record env url r0).
      split; [apply lookup_insert_eq |]. repeat split.
  - rewrite (startScan_not_found env scanId url _ H). cbn [store].
    split; [reflexivity | exact H].
Qed.

(** X13: when every analyzer throws, a fresh record still ends completed,
    with the risk score 0, no recommendation, no result and six errors,
    and its level, when read, is unknown. *)
Theorem scan_with_every_analyzer_failing (env : Environment)
    (scanId url now : string) (scanResults : gmap string ScanRecord) :
  scanResults !! scanId = Some (new_record scanId url now) ->
  (forall n, In n step_names -> throws env url n = true) ->
  exists rec : ScanRecord,
    store (startScan env scanId url scanResults) !! scanId = Some rec
    /\ status rec = completed
    /\ progress rec = 100
    /\ riskScore (results rec) = Some 0
    /\ recommendations (results rec) = []
    /\ (forall n, get_result n (results rec) = None)
    /\ map step (errors rec) = step_names
    /\ endTime rec = Some (clock env 6)
    /\ calculateRiskLevel (results rec) = "unknown"
    /\ totalChecks (generateSummary (results rec)) = 0.
Proof.
  intros H Ht.
  destruct (startScan_found env scanId url _ _ H) as (S & _).
  exists (final_record env url (new_record scanId url now)).
  rewrite S, lookup_insert_eq. split; [reflexivity |].
  assert (T : forall n, In n step_names ->
              exists m, outcome_of env url n = Some (Threw m)).
  { intros n Hn. specialize (Ht n Hn). unfold throws in Ht.
    destruct (outcome_of env url n) as [[r | m] |]; try discriminate Ht.
    exists m. reflexivity. }
  destruct (outcome_of_steps env url) as (O1 & O2 & O3 & O4 & O5 & O6).
  destruct (T "malware") as [m1 E1]; [cbn; tauto |].
  destruct (T "ssl") as [m2 E2]; [cbn; tauto |].
  destruct (T "headers") as [m3 E3]; [cbn; tauto |].
  destruct (T "tech") as [m4 E4]; [cbn; tauto |].
  destruct (T "ports") as [m5 E5]; [cbn; tauto |].
  destruct (T "whois") as [m6 E6]; [cbn; tauto |].
  rewrite O1 in E1. rewrite O2 in E2. rewrite O3 in E3.
  rewrite O4 in E4. rewrite O5 in E5. rewrite O6 in E6.
  injection E1 as E1. injection E2 as E2. injection E3 as E3.
  injection E4 as E4. injection E5 as E5. injection E6 as E6.
  unfold final_record, stored_results, scanSteps.
  cbn [fold_left step_errors thrown analyzer name].
  rewrite E1, E2, E3, E4, E5, E6.
  repeat split.
  intros n. unfold get_result.
  repeat match goal with
         | |- context [if ?c then _ else _] => destruct c; [reflexivity |]
         end.
  reflexivity.
Qed.

Lemma scan_with_every_analyzer_failing_witness :
  exists rec : ScanRecord,
    store (startScan failing_env "scan-1" "https://example.com" example_store)
      !! "scan-1" = Some rec
    /\ status rec = completed
    /\ progress rec = 100
    /\ riskScore (results rec) = Some 0.
Proof.
  assert (H : example_store !! "scan-1"
              = Some (new_record "scan-1" "https://example.com"
                        "2025-01-01T00:00:00.000Z")) by reflexivity.
  assert (T : forall n, In n step_names ->
              throws failing_env "https://example.com" n = true).
  { intros n Hn. cbn in Hn.
    decompose [or] Hn; try contradiction; subst n; reflexivity. }
  destruct (scan_with_every_analyzer_failing failing_env "scan-1"
              "https://example.com" _ example_store H T)
    as (rec & Hs & Hc & Hp & Hr & _).
  exists rec. repeat split; assumption.
Defined.

(** X14: a request to scan a URL the validator accepts is answered 201
    with the id drawn and the status pending, and stores a fresh record
    under that id. Once the scan of that record has run, the status
    route answers 200 with completed, progress 100, the start time of
    the request and an end time, the report route answers with the URL
    and with the risk score of the results it reports, and the report of
    every other id is what it was before the request. *)
Theorem posted_scan_reads_completed (validateUrl : string -> bool)
    (env : Environment) (uuid now url : string)
    (scanResults : gmap string ScanRecord) :
  url <> "" ->
  validateUrl url = true ->
  exists (stored : gmap string ScanRecord) (started : Started),
    post_scan validateUrl uuid now (Some url) scanResults
    = (Answer 201 started, stored)
    /\ started_scanId started = uuid
    /\ started_status started = "pending"
    /\ (exists p : Progress,
          get_status (store (startScan env uuid url stored)) uuid = Answer 200 p
          /\ progress_scanId p = uuid
          /\ progress_status p = "completed"
          /\ progress_progress p = 100
          /\ progress_startTime p = now
          /\ progress_endTime p <> None)
    /\ (exists r : Report,
          get_scan (store (startScan env uuid url stored)) uuid = Answer 200 r
          /\ report_url r = url
          /\ report_status r = "completed"
          /\ riskScore (report_results r)
             = Some (calculateRiskScore (report_results r)))
    /\ (forall j : string,
          j <> uuid ->
          get_scan (store (startScan env uuid url stored)) j
          = get_scan scanResults j).
Proof.
  intros Hu Hv. unfold post_scan.
  rewrite (proj2 (String.eqb_neq url "") Hu), Hv. cbn [negb orb].
  eexists. eexists. split; [reflexivity |].
  split; [reflexivity |]. split; [reflexivity |].
  assert (H : <[uuid := new_record uuid url now]> scanResults !! uuid
              = Some (new_record uuid url now)) by apply lookup_insert_eq.
  destruct (startScan_found env uuid url _ _ H) as (S & _).
  rewrite S. unfold get_status, get_scan. rewrite lookup_insert_eq.
  split; [| split].
  - eexists. split; [reflexivity |]. repeat split. discriminate.
  - eexists. split; [reflexivity |]. repeat split.
  - intros j Hj. rewrite !lookup_insert_ne by congruence. reflexivity.
Qed.

Lemma posted_scan_reads_completed_witness :
  exists (stored : gmap string ScanRecord) (started : Started),
    post_scan (fun _ => true) "scan-1" "2025-01-01T00:00:00.000Z"
      (Some "https://example.com") ∅
    = (Answer 201 started, stored)
    /\ started_scanId started = "scan-1".
Proof.
  destruct (posted_scan_reads_completed (fun _ => true) steady_env "scan-1"
              "2025-01-01T00:00:00.000Z" "https://example.com" ∅)
    as (stored & started & Hp & Hi & _); [discriminate | reflexivity |].
  exists stored, started. split; assumption.
Defined.

End ScanExtras.

(** ** The port analyzer *)

Section Ports.
Import JS PortAnalyzer.

Lemma NoDup_by_nodupZ (l : list Z) : nodup Z.eq_dec l = l -> List.NoDup l.
Proof. intros E. rewrite <- E. apply NoDup_nodup. Qed.

Lemma port_seededRandom_range (n : R) : (0 <= seededRandom n < 1)%R.
Proof.
  unfold seededRandom, Math_floor. cbv zeta.
  destruct (base_Int_part (Math_sin n * 10000)) as [H1 H2]. lra.
Qed.

Lemma total_app (f : Z -> Z) (l l' : list Z) :
  total f (l ++ l') = total f l + total f l'.
Proof.
  unfold total. induction l as [| x l IH]; cbn [app fold_right]; lia.
Qed.

Lemma total_nonneg (f : Z -> Z) (l : list Z) :
  (forall p, 0 <= f p) -> 0 <= total f l.
Proof.
  intros H. unfold total.
  induction l as [| x l IH]; cbn [fold_right]; [lia |].
  specialize (H x). lia.
Qed.

Lemma total_incl (f : Z -> Z) (ds l : list Z) :
  (forall p, 0 <= f p) -> List.NoDup ds -> incl ds l -> total f ds <= total f l.
Proof.
  intros Hf Hd. revert l. induction Hd as [| d ds Hn Hd IH]; intros l Hi.
  - cbn. apply total_nonneg, Hf.
  - destruct (in_split d l (Hi d (or_introl eq_refl))) as (l1 & l2 & ->).
    rewrite total_app. cbn [total fold_right]. fold (total f l2). fold (total f ds).
    assert (H : total f ds <= total f (l1 ++ l2)).
    { apply IH. intros x Hx.
      assert (Hx' : In x (l1 ++ d :: l2)) by (apply Hi; right; exact Hx).
      apply in_app_or in Hx'. apply in_or_app.
      destruct Hx' as [? | [-> | ?]]; [left; assumption | contradiction | right; assumption]. }
    rewrite total_app in H. lia.
Qed.

Lemma len_total (l : list Z) : len l = total (fun _ => 1) l.
Proof.
  unfold len. induction l as [| x l IH]; [reflexivity |].
  cbn [List.length total fold_right]. fold (total (fun _ => 1) l). lia.
Qed.

Lemma len_filter_total (f : Z -> bool) (l : list Z) :
  len (List.filter f l) = total (fun p => b2z (f p)) l.
Proof.
  unfold len. induction l as [| x l IH]; [reflexivity |].
  cbn [List.filter total fold_right]. fold (total (fun p => b2z (f p)) l).
  destruct (f x); cbn [List.length b2z]; lia.
Qed.

Lemma identifyRiskyPorts_from (l : list Z) (acc : list RiskyPort) :
  fold_left push_risky l acc = (acc ++ identifyRiskyPorts l)%list.
Proof.
  unfold identifyRiskyPorts. revert acc.
  induction l as [| x l IH]; intros acc; cbn [fold_left].
  - symmetry. apply app_nil_r.
  - rewrite IH, (IH (push_risky [] x)). unfold push_risky.
    destruct (riskDefinitions x) as [[[r s] d] |].
    + rewrite <- app_assoc. reflexivity.
    + reflexivity.
Qed.

Lemma deduct_from (l : list RiskyPort) (s : Z) :
  fold_left deduct l s = s + fold_left deduct l 0.
Proof.
  revert s. induction l as [| x l IH]; intros s; cbn [fold_left]; [lia |].
  rewrite IH, (IH (deduct 0 x)). unfold deduct.
  repeat match goal with |- context [if ?c then _ else _] => destruct c end; lia.
Qed.

Lemma deduct_risky (l : list Z) (s : Z) :
  fold_left deduct (identifyRiskyPorts l) s = s - total risk_penalty l.
Proof.
  revert s. induction l as [| x l IH]; intros s; [cbn; lia |].
  unfold identifyRiskyPorts. cbn [fold_left total fold_right].
  fold (total risk_penalty l).
  rewrite identifyRiskyPorts_from, fold_left_app, IH.
  unfold push_risky, risk_penalty.
  destruct (riskDefinitions x) as [[[r sv] d] |]; cbn [fold_left app]; [| lia].
  unfold deduct. cbn [risk].
  repeat match goal with |- context [if ?c then _ else _] => destruct c end; lia.
Qed.

Lemma calculatePortScore_raw (l : list Z) :
  port_score l = Z.max 0 (Z.min 100 (raw_score l)).
Proof.
  unfold port_score, calculatePortScore, raw_score. cbv zeta.
  rewrite deduct_risky, !len_filter_total.
  f_equal. f_equal.
  destruct (Z.gtb_spec (len l) 5), (Z.leb_spec (len l) 2),
    (includesZ 443 l), (includesZ 80 l); cbn [andb negb b2z]; lia.
Qed.

Lemma calculatePortScore_identified (l : list Z) :
  calculatePortScore l (identifyRiskyPorts l) = Z.max 0 (Z.min 100 (raw_score l)).
Proof. exact (calculatePortScore_raw l). Qed.

Lemma risk_penalty_nonneg (p : Z) : 0 <= risk_penalty p.
Proof.
  unfold risk_penalty, riskDefinitions.
  repeat match goal with
         | |- context [if ?c then _ else _] => destruct c; [cbn; lia |]
         end.
  lia.
Qed.

Lemma includesZ_app (x : Z) (l l' : list Z) :
  includesZ x (l ++ l') = includesZ x l || includesZ x l'.
Proof. unfold includesZ. apply existsb_app. Qed.

Lemma includesZ_In (x : Z) (l : list Z) : includesZ x l = true <-> In x l.
Proof.
  unfold includesZ. rewrite existsb_exists. split.
  - intros (y & Hy & E). apply Z.eqb_eq in E. subst y. exact Hy.
  - intros H. exists x. split; [exact H | apply Z.eqb_refl].
Qed.

(** X15: opening one more port, other than 443, never raises the score
    of a list of open ports. *)
Theorem opening_a_port_never_raises_the_score (openPorts : list Z) (p : Z) :
  p <> 443 ->
  port_score (openPorts ++ [p]) <= port_score openPorts.
Proof.
  intros Hp. rewrite !calculatePortScore_raw.
  apply Z.max_le_compat_l, Z.min_le_compat_l.
  unfold raw_score. rewrite !total_app, !includesZ_app, !len_total, !total_app.
  cbn [total fold_right includesZ existsb].
  rewrite <- !len_total.
  destruct (Z.eqb_spec 443 p) as [E | _]; [congruence |].
  rewrite !orb_false_r.
  pose proof (risk_penalty_nonneg p).
  assert (0 <= len openPorts) by (unfold len; lia).
  fold (includesZ 443 openPorts) (includesZ 80 openPorts).
  destruct (includesZ p databasePorts), (includesZ p legacyPorts),
    (includesZ 443 openPorts), (includesZ 80 openPorts), (80 =? p),
    (Z.leb_spec (len openPorts + (1 + 0)) 2), (Z.leb_spec (len openPorts) 2);
    cbn [andb orb negb b2z]; lia.
Qed.

Lemma opening_a_port_never_raises_the_score_witness :
  port_score ([80; 443] ++ [3306]) <= port_score [80; 443].
Proof. apply opening_a_port_never_raises_the_score. discriminate. Defined.

Lemma members_total (f : Z -> Z) (ds l : list Z) (k : Z) :
  (forall p, 0 <= f p) ->
  forallb (fun d => includesZ d l) ds = true ->
  List.NoDup ds ->
  total f ds = k ->
  k <= total f l.
Proof.
  intros Hf Hi Hd <-. apply total_incl; [exact Hf | exact Hd |].
  intros x Hx. apply includesZ_In.
    exact (proj1 (forallb_forall _ _) Hi x Hx).
Qed.

Lemma b2z_nonneg (b : bool) : 0 <= b2z b.
Proof. destruct b; cbn; lia. Qed.

(** X16: the score is between 0 and 100; an open database port (3306,
    5432, 27017, 6379) caps it at 58, an open FTP or Telnet port (21,
    23) at 68, whatever else is open. *)
Theorem exposed_services_cap_the_score (openPorts : list Z) (p : Z) :
  In p openPorts ->
  0 <= port_score openPorts <= 100
  /\ (if includesZ p databasePorts then port_score openPorts <= 58
      else if includesZ p [21; 23] then port_score openPorts <= 68
      else True).
Proof.
  intros Hp. rewrite calculatePortScore_raw. split; [lia |].
  assert (Hin : includesZ p openPorts = true) by (apply includesZ_In, Hp).
  assert (L : 0 <= len openPorts) by (unfold len; lia).
  pose proof (total_nonneg (fun p => b2z (includesZ p databasePorts)) openPorts
                (fun p => b2z_nonneg _)) as D0.
  pose proof (total_nonneg (fun p => b2z (includesZ p legacyPorts)) openPorts
                (fun p => b2z_nonneg _)) as L0.
  assert (R : forall k, risk_penalty p = k ->
              k + 2 * b2z (includesZ 443 openPorts) * b2z (negb (p =? 443))
              <= total risk_penalty openPorts).
  { intros k <-. destruct (includesZ 443 openPorts) eqn:E443;
      destruct (Z.eqb_spec p 443) as [-> | N]; cbn [b2z negb].
    - apply (members_total risk_penalty [443] openPorts);
        [apply risk_penalty_nonneg | cbn; rewrite E443; reflexivity
        | repeat constructor; cbn; tauto | reflexivity].
    - apply (members_total risk_penalty [p; 443] openPorts);
        [apply risk_penalty_nonneg | cbn; rewrite E443, Hin; reflexivity
        | | cbn; vm_compute (risk_penalty 443); lia].
      constructor; [cbn; intros [E | []]; congruence |].
      repeat constructor; cbn; tauto.
    - rewrite Hin in E443. discriminate.
    - apply (members_total risk_penalty [p] openPorts);
        [apply risk_penalty_nonneg | cbn; rewrite Hin; reflexivity
        | repeat constructor; cbn; tauto | cbn; lia]. }
  assert (C : forall f : Z -> bool, f p = true ->
              1 <= total (fun p => b2z (f p)) openPorts).
  { intros f Hf.
    apply (members_total (fun p => b2z (f p)) [p] openPorts);
      [intros; apply b2z_nonneg | cbn; rewrite Hin; reflexivity
      | repeat constructor; cbn; tauto | cbn; rewrite Hf; reflexivity]. }
  unfold raw_score.
  destruct (includesZ p databasePorts) eqn:Edb.
  - specialize (C (fun p => includesZ p databasePorts) Edb).
    assert (K : risk_penalty p = 30 /\ p <> 443).
    { unfold databasePorts in Edb. cbn in Edb.
      destruct (Z.eqb_spec p 3306) as [-> | _]; [split; [reflexivity | lia] |].
      destruct (Z.eqb_spec p 5432) as [-> | _]; [split; [reflexivity | lia] |].
      destruct (Z.eqb_spec p 27017) as [-> | _]; [split; [reflexivity | lia] |].
      destruct (Z.eqb_spec p 6379) as [-> | _]; [split; [reflexivity | lia] |].
      discriminate Edb. }
    destruct K as [K N]. specialize (R _ K).
    rewrite (proj2 (Z.eqb_neq p 443) N) in R. cbn [negb b2z] in R.
    destruct (includesZ 443 openPorts), (includesZ 80 openPorts),
      (Z.leb_spec (len openPorts) 2); cbn [andb negb b2z] in *; lia.
  - destruct (includesZ p [21; 23]) eqn:Elg; [| exact I].
    assert (K : risk_penalty p = 30 /\ p <> 443
                /\ includesZ p legacyPorts = true).
    { cbn in Elg.
      destruct (Z.eqb_spec p 21) as [-> | _];
        [split; [reflexivity | split; [lia | reflexivity]] |].
      destruct (Z.eqb_spec p 23) as [-> | _];
        [split; [reflexivity | split; [lia | reflexivity]] |].
      discriminate Elg. }
    destruct K as (K & N & Lg). specialize (R _ K).
    specialize (C (fun p => includesZ p legacyPorts) Lg).
    rewrite (proj2 (Z.eqb_neq p 443) N) in R. cbn [negb b2z] in R.
    destruct (includesZ 443 openPorts), (includesZ 80 openPorts),
      (Z.leb_spec (len openPorts) 2); cbn [andb negb b2z] in *; lia.
Qed.

Lemma exposed_services_cap_the_score_witness :
  0 <= port_score [443; 3306] <= 100 /\ port_score [443; 3306] <= 58.
Proof.
  exact (exposed_services_cap_the_score [443; 3306] 3306
           (or_intror (or_introl eq_refl))).
Defined.

Lemma Set_valuesZ_from (l acc : list Z) :
  List.NoDup acc ->
  List.NoDup
    (fold_left (fun seen x => if includesZ x seen then seen else (seen ++ [x])%list)
       l acc)
  /\ forall x,
       In x (fold_left
               (fun seen x => if includesZ x seen then seen else (seen ++ [x])%list)
               l acc)
       <-> In x acc \/ In x l.
Proof.
  revert acc. induction l as [| y l IH]; intros acc Hacc; cbn [fold_left].
  - split; [exact Hacc | intros x; cbn; tauto].
  - destruct (includesZ y acc) eqn:E.
    + destruct (IH acc Hacc) as [N M]. split; [exact N |].
      intros x. rewrite M. apply includesZ_In in E. cbn.
      split; [tauto |]. intros [? | [<- | ?]]; tauto.
    + assert (Hn : ~ In y acc).
      { intros H. apply includesZ_In in H. congruence. }
      assert (N' : List.NoDup (acc ++ [y])).
      { apply (Permutation_NoDup (Permutation_cons_append acc y)).
        constructor; assumption. }
      destruct (IH _ N') as [N M]. split; [exact N |].
      intros x. rewrite M, in_app_iff. cbn. tauto.
Qed.

Lemma Set_valuesZ_spec (l : list Z) :
  List.NoDup (Set_valuesZ l) /\ forall x, In x (Set_valuesZ l) <-> In x l.
Proof.
  destruct (Set_valuesZ_from l [] (List.NoDup_nil Z)) as [N M].
  split; [exact N |]. intros x. unfold Set_valuesZ. rewrite M. cbn. tauto.
Qed.

Lemma add_port_members (seed : Z) (adds base : list Z) (x : Z) :
  (In x base -> In x (fold_left (add_port seed) adds base))
  /\ (In x (fold_left (add_port seed) adds base) -> In x base \/ In x adds).
Proof.
  revert base. induction adds as [| a adds IH]; intros base; cbn [fold_left].
  - cbn. tauto.
  - destruct (IH (add_port seed base a)) as [I1 I2].
    assert (A : (In x base -> In x (add_port seed base a))
                /\ (In x (add_port seed base a) -> In x base \/ x = a)).
    { unfold add_port. destruct (_ && _); [| tauto].
      rewrite in_app_iff. cbn. intuition congruence. }
    split; [tauto |]. intros H. cbn. destruct (I2 H) as [H' | H']; [| tauto].
    destruct (proj2 A H') as [? | ->]; tauto.
Qed.

Lemma ascending_sorted (l : list Z) :
  List.NoDup l -> StronglySorted Z.lt (Array_sort ascending l).
Proof.
  intros N.
  assert (S : StronglySorted (by_rank (fun p : Z => p)) (Array_sort ascending l))
    by (apply Array_sort_sorted; intros x _ y _; reflexivity).
  assert (N' : List.NoDup (Array_sort ascending l))
    by (apply (Permutation_NoDup (Array_sort_perm ascending l)), N).
  revert S N'. generalize (Array_sort ascending l). clear l N.
  intros l S. induction S as [| x l S IH F]; intros N; [constructor |].
  apply NoDup_cons_iff in N. destruct N as [Hx N].
  constructor; [apply IH, N |].
  apply List.Forall_forall. intros y Hy.
  rewrite List.Forall_forall in F. specialize (F y Hy). unfold by_rank in F.
  assert (x <> y) by (intros ->; contradiction). lia.
Qed.

(** What is known of the open ports of a domain type. *)
Lemma generateOpenPorts_facts (domainType : string) (seed : Z) :
  StronglySorted Z.lt (generateOpenPorts domainType seed)
  /\ (forall x, In x (baseOpenPorts domainType seed) ->
        In x (generateOpenPorts domainType seed))
  /\ (forall x, In x (generateOpenPorts domainType seed) ->
        In x (baseOpenPorts domainType seed) \/ In x additionalPorts).
Proof.
  unfold generateOpenPorts.
  destruct (Set_valuesZ_spec
              (fold_left (add_port seed) additionalPorts
                 (baseOpenPorts domainType seed))) as [N M].
  pose proof (Array_sort_perm ascending
                (Set_valuesZ (fold_left (add_port seed) additionalPorts
                                (baseOpenPorts domainType seed)))) as P.
  split; [apply ascending_sorted, N |].
  pose proof (fun x => add_port_members seed additionalPorts
                         (baseOpenPorts domainType seed) x) as A.
  revert N M P A.
  generalize (fold_left (add_port seed) additionalPorts
                (baseOpenPorts domainType seed)).
  intros folded. generalize (Set_valuesZ folded). intros unique N M P A.
  generalize dependent (Array_sort ascending unique). intros sorted P.
  split.
  - intros x Hx. apply (Permutation_in x P). apply M. apply A. exact Hx.
  - intros x Hx. apply A. apply M.
    apply (Permutation_in x (Permutation_sym P)). exact Hx.
Qed.

Lemma baseOpenPorts_cases (domainType : string) (seed : Z) :
  In (baseOpenPorts domainType seed)
    [ [80; 443]; [80; 443; 8080]; [80; 443; 8443]; [80; 443; 8080; 8443];
      [25; 143; 993; 80; 443]; [25; 143; 993; 80; 443; 110; 995];
      [80; 443; 3306]; [80; 443; 3306; 5432]; [80; 443; 3306; 27017];
      [80; 443; 3306; 5432; 27017];
      [80; 443; 3000; 8080]; [80; 443; 3000; 8080; 5000; 9000];
      [80; 443; 3000; 8080; 22]; [80; 443; 3000; 8080; 5000; 9000; 22];
      [443]; [443; 22]; [21; 23; 80]; [21; 23; 80; 25; 110]; [80; 443; 22] ].
Proof.
  unfold baseOpenPorts.
  repeat match goal with
         | |- context [(domainType =? ?s)%string] =>
             destruct (domainType =? s)%string
         end;
    repeat match goal with
           | |- context [gt ?a ?b] => destruct (gt a b)
           end;
    cbn; tauto.
Qed.

Lemma riskDefinitions_common (p : Z) :
  In p commonPorts_scanned -> riskDefinitions p <> None.
Proof.
  intros H. cbn in H.
  decompose [or] H; try contradiction; subst p; discriminate.
Qed.

Lemma identifyRiskyPorts_ports (l : list Z) :
  Forall (fun p => riskDefinitions p <> None) l ->
  map port (identifyRiskyPorts l) = l.
Proof.
  induction 1 as [| x l Hx _ IH]; [reflexivity |].
  unfold identifyRiskyPorts. cbn [fold_left].
  rewrite identifyRiskyPorts_from, map_app, IH.
  unfold push_risky. destruct (riskDefinitions x) as [[[r s] d] |]; [| congruence].
  reflexivity.
Qed.

Lemma baseOpenPorts_checked (domainType : string) (seed : Z) :
  forallb (fun x => includesZ x commonPorts_scanned)
    (baseOpenPorts domainType seed)
  && negb (includesZ 6379 (baseOpenPorts domainType seed))
  && (includesZ 80 (baseOpenPorts domainType seed)
      || includesZ 443 (baseOpenPorts domainType seed)) = true.
Proof.
  pose proof (baseOpenPorts_cases domainType seed) as B.
  revert B. generalize (baseOpenPorts domainType seed). intros b.
  match goal with
  | |- In b ?cases -> _ =>
      intros B;
      assert (C : forallb
                    (fun b =>
                       forallb (fun x => includesZ x commonPorts_scanned) b
                       && negb (includesZ 6379 b)
                       && (includesZ 80 b || includesZ 443 b)) cases = true)
        by (vm_compute; reflexivity);
      exact (proj1 (forallb_forall _ _) C b B)
  end.
Qed.

Lemma open_ports_common (domainType : string) (seed : Z) :
  incl (generateOpenPorts domainType seed) commonPorts_scanned
  /\ ~ In 6379 (generateOpenPorts domainType seed)
  /\ (In 80 (generateOpenPorts domainType seed)
      \/ In 443 (generateOpenPorts domainType seed)).
Proof.
  destruct (generateOpenPorts_facts domainType seed) as (_ & M1 & M2).
  pose proof (baseOpenPorts_checked domainType seed) as B.
  revert M1 M2 B.
  generalize (generateOpenPorts domainType seed) (baseOpenPorts domainType seed).
  intros open b M1 M2 B.
  apply andb_prop in B. destruct B as [B W].
  apply andb_prop in B. destruct B as [C N].
  apply negb_true_iff in N.
  split; [| split].
  - intros x Hx. destruct (M2 x Hx) as [H | H].
    + apply includesZ_In. exact (proj1 (forallb_forall _ _) C x H).
    + cbn in H. decompose [or] H; try contradiction; subst x; cbn; tauto.
  - intros Hx. destruct (M2 _ Hx) as [H | H].
    + apply includesZ_In in H. congruence.
    + cbn in H. decompose [or] H; try contradiction; discriminate.
  - apply orb_prop in W.
    destruct W as [W | W]; apply includesZ_In in W; [left | right];
      apply M1, W.
Qed.

Lemma filter_partition_length (open common : list Z) :
  List.NoDup open -> List.NoDup common -> incl open common ->
  len open + len (List.filter (fun p => negb (includesZ p open)) common)
  = len common.
Proof.
  intros No Nc Hi.
  assert (P : Permutation open (List.filter (fun p => includesZ p open) common)).
  { apply Stdlib.Sorting.Permutation.NoDup_Permutation; [exact No | apply List.NoDup_filter, Nc |].
    intros x. rewrite List.filter_In, includesZ_In. split; [| tauto].
    intros H. split; [apply Hi, H | exact H]. }
  unfold len. rewrite (Permutation_length P).
  rewrite <- Nat2Z.inj_add. f_equal.
  clear. induction common as [| c common IH]; [reflexivity |].
  cbn [List.filter]. destruct (includesZ c open); cbn [negb List.length]; lia.
Qed.

Lemma StronglySorted_lt_NoDup (l : list Z) : StronglySorted Z.lt l -> List.NoDup l.
Proof.
  induction 1 as [| x l _ IH F]; constructor; [| exact IH].
  intros Hx. rewrite List.Forall_forall in F. specialize (F x Hx). lia.
Qed.

(** X17: in the mock data of any domain the open ports are strictly
    ascending and among the twenty scanned, the closed ports are the
    scanned ones that are not open, and the counts of open and closed
    ports add up to the twenty scanned. Every open port has a line in
    the risk table, so that the risky ports are all the open ports;
    port 80 or port 443 is open, port 6379 never is, and the scan
    duration is between 2000 and 6999. *)
Theorem generated_port_data (domain : string) :
  StronglySorted Z.lt (openPorts (generateRealisticMockData domain))
  /\ incl (openPorts (generateRealisticMockData domain))
       (commonPorts (generateRealisticMockData domain))
  /\ (forall p, In p (closedPorts (generateRealisticMockData domain))
        <-> In p (commonPorts (generateRealisticMockData domain))
            /\ ~ In p (openPorts (generateRealisticMockData domain)))
  /\ openCount (details (generateRealisticMockData domain))
     + closedCount (details (generateRealisticMockData domain))
     = totalScanned (details (generateRealisticMockData domain))
  /\ totalScanned (details (generateRealisticMockData domain)) = 20
  /\ map port (riskyPorts (generateRealisticMockData domain))
     = openPorts (generateRealisticMockData domain)
  /\ (In 80 (openPorts (generateRealisticMockData domain))
      \/ In 443 (openPorts (generateRealisticMockData domain)))
  /\ ~ In 6379 (openPorts (generateRealisticMockData domain))
  /\ 2000 <= scanDuration (details (generateRealisticMockData domain)) <= 6999.
Proof.
  unfold generateRealisticMockData.
  cbn [openPorts closedPorts commonPorts riskyPorts details openCount
       closedCount totalScanned scanDuration].
  set (t := determineDomainType domain). set (s := seed domain).
  destruct (generateOpenPorts_facts t s) as (S & _ & _).
  destruct (open_ports_common t s) as (I & N & W).
  revert S I N W. generalize (generateOpenPorts t s). intros open S I N W.
  split; [exact S |]. split; [exact I |]. split.
  { intros p. rewrite List.filter_In, negb_true_iff.
    split; intros [H1 H2]; (split; [exact H1 |]).
    - intros H. apply includesZ_In in H. congruence.
    - destruct (includesZ p open) eqn:E; [| reflexivity].
      apply includesZ_In in E. contradiction. }
  split.
  { apply filter_partition_length; [apply StronglySorted_lt_NoDup, S | | exact I].
    apply NoDup_by_nodupZ. reflexivity. }
  split; [reflexivity |]. split.
  { apply identifyRiskyPorts_ports. apply List.Forall_forall.
    intros p Hp. apply riskDefinitions_common, I, Hp. }
  split; [exact W |]. split; [exact N |].
  pose proof (Math_floor_scaled _ 5000
                (port_seededRandom_range (IZR (s * 12))) ltac:(lia)) as R.
  change (IZR 5000) with 5000%R in R. lia.
Qed.

Lemma raw_score_bound (l ds : list Z) (r d g n : Z) :
  List.NoDup ds ->
  forallb (fun x => includesZ x l) ds = true ->
  total risk_penalty ds = r ->
  total (fun p => b2z (includesZ p databasePorts)) ds = d ->
  total (fun p => b2z (includesZ p legacyPorts)) ds = g ->
  len ds = n ->
  r <= total risk_penalty l
  /\ d <= total (fun p => b2z (includesZ p databasePorts)) l
  /\ g <= total (fun p => b2z (includesZ p legacyPorts)) l
  /\ n <= len l.
Proof.
  intros N I <- <- <- <-.
  assert (Hi : incl ds l).
  { intros x Hx. apply includesZ_In.
    exact (proj1 (forallb_forall _ _) I x Hx). }
  rewrite (len_total ds), (len_total l).
  repeat split; apply total_incl; try assumption.
  - apply risk_penalty_nonneg.
  - intros; apply b2z_nonneg.
  - intros; apply b2z_nonneg.
  - intros; lia.
Qed.

(** X18: the mock data of a domain of the legacy type always has the
    score 0, with ports 21 and 23 open and 443 closed; that of a domain
    of the database type has a score of 35 at most, with 3306 open. *)
Theorem legacy_and_database_domains_score_low (domain : string) :
  determineDomainType domain = "legacy_system"
  \/ determineDomainType domain = "database_server" ->
  0 <= score (generateRealisticMockData domain)
    <= (if (determineDomainType domain =? "legacy_system")%string then 0 else 35)
  /\ (if (determineDomainType domain =? "legacy_system")%string
      then In 21 (openPorts (generateRealisticMockData domain))
           /\ In 23 (openPorts (generateRealisticMockData domain))
           /\ ~ In 443 (openPorts (generateRealisticMockData domain))
      else In 3306 (openPorts (generateRealisticMockData domain))).
Proof.
  intros H. unfold generateRealisticMockData. cbn [score openPorts].
  set (s := seed domain).
  rewrite calculatePortScore_identified.
  destruct (generateOpenPorts_facts (determineDomainType domain) s)
    as (_ & M1 & M2).
  assert (A : ~ In 443 additionalPorts)
    by (cbn; intros A; decompose [or] A; try contradiction; discriminate).
  destruct H as [E | E]; rewrite E in *;
    cbn [String.eqb Ascii.eqb Bool.eqb].
  - assert (B : In 21 (baseOpenPorts "legacy_system" s)
                /\ In 23 (baseOpenPorts "legacy_system" s)
                /\ ~ In 443 (baseOpenPorts "legacy_system" s)).
    { unfold baseOpenPorts. cbn [String.eqb Ascii.eqb Bool.eqb].
      destruct (gt _ _); cbn; repeat split; try tauto;
        intros B; decompose [or] B; try contradiction; discriminate. }
    revert M1 M2 B.
    generalize (generateOpenPorts "legacy_system" s)
      (baseOpenPorts "legacy_system" s).
    intros l base M1 M2 (B21 & B23 & B443).
    assert (N : ~ In 443 l) by (intros Hx; destruct (M2 _ Hx); contradiction).
    assert (I21 : In 21 l) by (apply M1, B21).
    assert (I23 : In 23 l) by (apply M1, B23).
    split; [| split; [exact I21 | split; [exact I23 | exact N]]].
    assert (F : includesZ 443 l = false).
    { destruct (includesZ 443 l) eqn:F; [| reflexivity].
      apply includesZ_In in F. contradiction. }
    apply includesZ_In in I21, I23.
    destruct (raw_score_bound l [21; 23] 60 0 2 2) as (R & D & G & L);
      [repeat constructor; cbn; intuition discriminate
      | cbn; rewrite I21, I23; reflexivity
      | reflexivity | reflexivity | reflexivity | reflexivity |].
    unfold raw_score. rewrite F.
    destruct (includesZ 80 l), (Z.leb_spec (len l) 2);
      cbn [andb negb b2z]; lia.
  - assert (B : In 80 (baseOpenPorts "database_server" s)
                /\ In 443 (baseOpenPorts "database_server" s)
                /\ In 3306 (baseOpenPorts "database_server" s)).
    { unfold baseOpenPorts. cbn [String.eqb Ascii.eqb Bool.eqb].
      destruct (gt _ _), (gt _ _); cbn; tauto. }
    revert M1 M2 B.
    generalize (generateOpenPorts "database_server" s)
      (baseOpenPorts "database_server" s).
    intros l base M1 M2 (B80 & B443 & B3306).
    assert (I80 : In 80 l) by (apply M1, B80).
    assert (I443 : In 443 l) by (apply M1, B443).
    assert (I3306 : In 3306 l) by (apply M1, B3306).
    split; [| exact I3306].
    apply includesZ_In in I80, I443, I3306.
    destruct (raw_score_bound l [80; 443; 3306] 40 1 0 3) as (R & D & G & L);
      [repeat constructor; cbn; intuition discriminate
      | cbn; rewrite I80, I443, I3306; reflexivity
      | reflexivity | reflexivity | reflexivity | reflexivity |].
    unfold raw_score. rewrite I80, I443.
    destruct (Z.leb_spec (len l) 2); cbn [andb negb b2z]; lia.
Qed.

Lemma legacy_and_database_domains_score_low_witness :
  score (generateRealisticMockData "old.example.com") = 0.
Proof.
  assert (E : determineDomainType "old.example.com" = "legacy_system")
    by reflexivity.
  pose proof (proj1 (legacy_and_database_domains_score_low "old.example.com"
                       (or_introl E))) as H.
  rewrite E in H. cbn [String.eqb Ascii.eqb Bool.eqb] in H. lia.
Defined.

Lemma existsb_identifyRiskyPorts (l : list Z) :
  existsb (fun p => (risk p =? "critical")%string || (risk p =? "high")%string)
    (identifyRiskyPorts l)
  = existsb severe l.
Proof.
  induction l as [| x l IH]; [reflexivity |].
  unfold identifyRiskyPorts. cbn [fold_left existsb].
  rewrite identifyRiskyPorts_from, existsb_app, IH. f_equal.
  unfold push_risky, severe.
  destruct (riskDefinitions x) as [[[r sv] d] |]; [| reflexivity].
  cbn [app existsb risk]. apply orb_false_r.
Qed.

Lemma mild_port (p : Z) :
  severe p = false ->
  risk_penalty p <= 8
  /\ includesZ p databasePorts = false
  /\ includesZ p legacyPorts = false.
Proof.
  unfold severe, risk_penalty, riskDefinitions.
  repeat match goal with
         | |- context [if ?a =? ?b then _ else _] =>
             destruct (Z.eqb_spec a b) as [-> | ?];
             [cbn; intros H; first [discriminate H | repeat split; lia ] |]
         end.
  intros _. split; [lia |].
  split; cbn;
    repeat match goal with
           | |- context [?a =? ?b] =>
               destruct (Z.eqb_spec a b) as [-> | ?]; [lia |]
           end; reflexivity.
Qed.

Lemma push_rec_In (c : bool) (r x : string) (l : list string) :
  In x (push_rec c r l) -> In x l \/ (c = true /\ x = r).
Proof.
  unfold push_rec. destruct c; [| tauto].
  rewrite in_app_iff. cbn. intuition congruence.
Qed.

Lemma push_rec_In_last (c : bool) (r x : string) (l : list string) :
  In x l -> In x (push_rec c r l).
Proof.
  unfold push_rec. destruct c; [| tauto]. intros H. apply in_or_app. tauto.
Qed.

Lemma last_push (l : list string) (r d : string) :
  List.last (l ++ [r]) d = r.
Proof. apply last_last. Qed.

(** X19: the recommendations for a list of open ports always end with
    the advice to monitor. The praise of an excellent port security is
    among them exactly when at most two ports are open, 443 is one of
    them and no open port is of critical or high risk, and then the
    score of these ports is 100. *)
Theorem port_praise_means_full_score (openPorts : list Z) (domainType : string) :
  List.last
    (generateRecommendations openPorts (identifyRiskyPorts openPorts) domainType)
    ""
  = "🔍 Regular Monitoring: Implement continuous port monitoring and alerting"
  /\ (In "✅ Excellent port security - minimal attack surface detected"
        (generateRecommendations openPorts (identifyRiskyPorts openPorts)
           domainType)
      <-> (len openPorts <=? 2) && includesZ 443 openPorts
          && negb (existsb severe openPorts) = true)
  /\ ((len openPorts <=? 2) && includesZ 443 openPorts
      && negb (existsb severe openPorts) = true ->
      port_score openPorts = 100).
Proof.
  split; [unfold generateRecommendations; cbv zeta; apply last_last |].
  split.
  - rewrite <- existsb_identifyRiskyPorts.
    generalize (identifyRiskyPorts openPorts). intros risky.
    unfold generateRecommendations. cbv zeta.
    set (c := (len openPorts <=? 2) && includesZ 443 openPorts
              && negb (existsb _ risky)).
    split.
    + intros H. apply in_app_or in H. destruct H as [H | [H | []]];
        [| discriminate H].
      apply push_rec_In in H. destruct H as [H | [_ H]]; [| discriminate H].
      apply push_rec_In in H. destruct H as [H | [C _]]; [| exact C].
      exfalso.
      repeat match type of H with
             | In _ (if ?b then _ else _) => destruct b
             | In _ (_ ++ [_])%list =>
                 apply in_app_or in H; destruct H as [H | [H | []]];
                 [| discriminate H]
             | In _ (push_rec _ _ _) =>
                 apply push_rec_In in H; destruct H as [H | [_ H]];
                 [| discriminate H]
             end;
        exact H.
    + intros C. apply in_or_app. left.
      apply push_rec_In_last. fold c in C.
      unfold push_rec at 1. rewrite C. apply in_or_app. right. left. reflexivity.
  - intros C. apply andb_prop in C. destruct C as [C M].
    apply andb_prop in C. destruct C as [L W].
    apply negb_true_iff in M. apply Z.leb_le in L.
    rewrite calculatePortScore_raw. unfold raw_score.
    rewrite W.
    assert (Hm : forall p, In p openPorts -> severe p = false).
    { intros p Hp. destruct (severe p) eqn:E; [| reflexivity].
      assert (existsb severe openPorts = true)
        by (apply existsb_exists; exists p; split; assumption).
      congruence. }
    assert (T : total risk_penalty openPorts <= 8 * len openPorts
                /\ total (fun p => b2z (includesZ p databasePorts)) openPorts = 0
                /\ total (fun p => b2z (includesZ p legacyPorts)) openPorts = 0).
    { clear - Hm.
      induction openPorts as [| x l IH]; [unfold len, total; cbn; lia |].
      destruct (mild_port x (Hm x (or_introl eq_refl))) as (P & D & G).
      destruct IH as (I1 & I2 & I3); [intros p Hp; apply Hm; right; exact Hp |].
      unfold len in *. cbn [total fold_right List.length].
      fold (total risk_penalty l)
        (total (fun p => b2z (includesZ p databasePorts)) l)
        (total (fun p => b2z (includesZ p legacyPorts)) l).
      rewrite D, G. cbn [b2z]. lia. }
    destruct T as (T1 & T2 & T3). rewrite T2, T3.
    assert (0 <= total risk_penalty openPorts)
      by (apply total_nonneg, risk_penalty_nonneg).
    destruct (Z.leb_spec (len openPorts) 2); [| lia].
    destruct (includesZ 80 openPorts); cbn [andb negb b2z]; lia.
Qed.

Lemma port_praise_means_full_score_witness : port_score [80; 443] = 100.
Proof.
  apply (proj2 (proj2 (port_praise_means_full_score [80; 443] "standard_web"))).
  reflexivity.
Defined.

End Ports.

(** ** The WHOIS analyzer *)

Section Whois.
Import JS WhoisAnalyzer.

Lemma whois_seededRandom_range (n : R) : (0 <= seededRandom n < 1)%R.
Proof.
  unfold seededRandom, Math_floor. cbv zeta.
  destruct (base_Int_part (Math_sin n * 10000)) as [H1 H2]. lra.
Qed.

Lemma Math_floor_between (x : R) (a b : Z) :
  (IZR a <= x < IZR b)%R -> a <= Math_floor x <= b - 1.
Proof.
  intros [Ha Hb]. unfold Math_floor.
  destruct (base_Int_part x) as [Hle Hgt].
  split.
  - assert (H : (a - 1 < Int_part x)%Z).
    { apply lt_IZR. rewrite minus_IZR. lra. }
    lia.
  - assert (H : (Int_part x < b)%Z) by (apply lt_IZR; lra).
    lia.
Qed.

Lemma Array_get_in_range {A : Type} (l : list A) (i : Z) :
  0 <= i < len l -> exists x, Array_get l i = Some x /\ In x l.
Proof.
  intros [H0 H1]. unfold Array_get, len in *.
  destruct (Z.ltb_spec i 0); [lia |].
  destruct (nth_error l (Z.to_nat i)) as [x |] eqn:E.
  - exists x. split; [reflexivity |]. apply nth_error_In in E. exact E.
  - apply nth_error_None in E. lia.
Qed.

Lemma random_entry {A : Type} (l : list A) (r : R) :
  (0 <= r < 1)%R -> 0 < len l ->
  exists x, Array_get l (Math_floor (r * IZR (len l))) = Some x /\ In x l.
Proof.
  intros Hr Hl. apply Array_get_in_range.
  pose proof (Math_floor_scaled r (len l) Hr Hl). lia.
Qed.

Lemma ageMultiplier_range (domain : string) (seed : Z) :
  (0 <= ageMultiplier domain seed < 1)%R
  /\ (if str_includes domain "google" || str_includes domain "microsoft"
         || str_includes domain "amazon" || str_includes domain "facebook"
      then (8 / 10 <= ageMultiplier domain seed)%R
      else if str_includes domain "test" || str_includes domain "demo"
              || str_includes domain "staging"
      then (ageMultiplier domain seed < 3 / 10)%R
      else True).
Proof.
  unfold ageMultiplier. cbv zeta.
  pose proof (whois_seededRandom_range (IZR (seed * 2))) as R.
  destruct (_ || _ || _ || _); [split; lra |].
  destruct (_ || _ || _); [split; lra |].
  split; [lra | exact I].
Qed.

Lemma ageDays_range (m : R) :
  (0 <= m < 1)%R ->
  1 <= Z.max 1 (Math_floor (m * 20 * 365)) <= 7299
  /\ ((8 / 10 <= m)%R -> 5840 <= Z.max 1 (Math_floor (m * 20 * 365)))
  /\ ((m < 3 / 10)%R -> Z.max 1 (Math_floor (m * 20 * 365)) <= 2189).
Proof.
  intros Hm.
  assert (A : 0 <= Math_floor (m * 20 * 365) <= 7300 - 1)
    by (apply Math_floor_between; lra).
  split; [lia |]. split; intros H.
  - assert (B : 5840 <= Math_floor (m * 20 * 365) <= 7300 - 1)
      by (apply Math_floor_between; lra).
    lia.
  - assert (B : 0 <= Math_floor (m * 20 * 365) <= 2190 - 1)
      by (apply Math_floor_between; lra).
    lia.
Qed.

Lemma Math_ceil_whole_days (d : Z) :
  Math_ceil (inject_Z (d * (24 * 60 * 60 * 1000))
             / inject_Z (24 * 60 * 60 * 1000))%Q = d.
Proof.
  unfold Math_ceil.
  assert (E : (inject_Z (d * (24 * 60 * 60 * 1000))
               / inject_Z (24 * 60 * 60 * 1000) == inject_Z d)%Q).
  { rewrite inject_Z_mult. field. discriminate. }
  rewrite E. apply Qceiling_Z.
Qed.

Lemma status_score (st : list string) (s : Z) :
  In st statusOptions ->
  fold_left status_step st s = s + 3 \/ fold_left status_step st s = s + 9.
Proof.
  intros H. cbn in H.
  decompose [or] H; try contradiction; subst st;
    unfold status_step; cbn [fold_left];
    repeat match goal with
           | |- context [existsb ?f ?l] =>
               let v := eval vm_compute in (existsb f l) in
               change (existsb f l) with v; cbv iota
           end; lia.
Qed.

Lemma nameServers_length (registrar : option string) (domain : string) :
  2 <= len (nameServerSets registrar domain) <= 3.
Proof.
  unfold nameServerSets, len. cbv zeta.
  destruct registrar as [r |]; [| cbn [List.length]; lia].
  repeat match goal with
         | |- context [if ?c then _ else _] =>
             destruct c; [cbn [List.length]; lia |]
         end.
  cbn [List.length]. lia.
Qed.

Lemma customDNS_length (l : list string) : In l customDNS -> 3 <= len l <= 5.
Proof.
  intros H. cbn in H.
  decompose [or] H; try contradiction; subst l; unfold len; cbn [List.length]; lia.
Qed.

(** The fields of the mock data. *)
Lemma generateRealisticMockData_fields (now : Z) (domain : string) :
  exists (reg : string) (age k u : Z) (st ns : list string) (d : Details),
    let r0 :=
      {| error := None; registrar := Some reg;
         creationDate := Some (now - age * day_ms);
         expirationDate := Some (now + 365 * k * day_ms);
         updatedDate := Some u; status := st; nameServers := ns;
         domainAge := Some age; daysUntilExpiry := Some (365 * k);
         score := 0; recommendations := []; details := no_details |} in
    generateRealisticMockData now domain
    = set_details d
        (set_recommendations
           (generateRecommendations
              (set_score (calculateWhoisScore r0 (Some age) (Some (365 * k))) r0)
              (Some age) (Some (365 * k)))
           (set_score (calculateWhoisScore r0 (Some age) (Some (365 * k))) r0))
    /\ In reg registrars
    /\ 1 <= age <= 7299
    /\ (if str_includes domain "google" || str_includes domain "microsoft"
           || str_includes domain "amazon" || str_includes domain "facebook"
        then 5840 <= age
        else if str_includes domain "test" || str_includes domain "demo"
                || str_includes domain "staging"
        then age <= 2189
        else True)
    /\ 1 <= k <= 9
    /\ now - 729 * day_ms <= u <= now
    /\ In st statusOptions
    /\ 2 <= len ns <= 5
    /\ hasPrivacy d = Some (checkPrivacyProtection (Some reg) domain)
    /\ registrarReputation d = Some (assessRegistrarReputation (Some reg)).
Proof.
  unfold generateRealisticMockData. cbv zeta.
  set (s := seed_number domain).
  destruct (random_entry registrars _ (whois_seededRandom_range (IZR s))
              ltac:(reflexivity)) as (reg & -> & Hreg).
  destruct (random_entry statusOptions _
              (whois_seededRandom_range (IZR (s * 5))) ltac:(reflexivity))
    as (st & -> & Hst).
  destruct (ageMultiplier_range domain s) as [Hm Hbias].
  destruct (ageDays_range _ Hm) as (Hage & Hold & Hnew).
  set (age := Z.max 1 (Math_floor (ageMultiplier domain s * 20 * 365))) in *.
  pose proof (Math_floor_scaled _ 9 (whois_seededRandom_range (IZR (s * 3)))
                ltac:(lia)) as Hk.
  change (IZR 9) with 9%R in Hk.
  set (f := Math_floor (seededRandom (IZR (s * 3)) * 9)) in *.
  pose proof (Math_floor_scaled _ 730 (whois_seededRandom_range (IZR (s * 4)))
                ltac:(lia)) as Hu.
  change (IZR 730) with 730%R in Hu.
  set (du := Math_floor (seededRandom (IZR (s * 4)) * 730)) in *.
  replace (now + (1 + f) * 365 * 24 * 60 * 60 * 1000 - now)
    with (365 * (1 + f) * (24 * 60 * 60 * 1000)) by lia.
  rewrite Math_ceil_whole_days.
  assert (Hns : exists ns,
             (if gt (seededRandom (IZR (s * 6))) (7 / 10)
              then Array_get customDNS
                     (Math_floor (seededRandom (IZR (s * 7))
                                  * IZR (len customDNS)))
              else Some (nameServerSets (Some reg) domain)) = Some ns
             /\ 2 <= len ns <= 5).
  { destruct (gt _ _).
    - destruct (random_entry customDNS _
                  (whois_seededRandom_range (IZR (s * 7))) ltac:(reflexivity))
        as (ns & E & Hin).
      exists ns. split; [exact E |]. pose proof (customDNS_length ns Hin). lia.
    - eexists. split; [reflexivity |].
      pose proof (nameServers_length (Some reg) domain). lia. }
  destruct Hns as (ns & -> & Hlen).
  exists reg, age, (1 + f), (now - du * 24 * 60 * 60 * 1000), st, ns.
  eexists. cbv zeta. split.
  { cbn [domainAge daysUntilExpiry]. unfold day_ms.
    replace (now + (1 + f) * 365 * 24 * 60 * 60 * 1000)
      with (now + 365 * (1 + f) * (24 * 60 * 60 * 1000)) by lia.
    replace (now - age * 24 * 60 * 60 * 1000)
      with (now - age * (24 * 60 * 60 * 1000)) by lia.
    reflexivity. }
  split; [exact Hreg |]. split; [exact Hage |].
  split.
  { destruct (_ || _ || _ || _); [apply Hold, Hbias |].
    destruct (_ || _ || _); [apply Hnew, Hbias | exact I]. }
  split; [lia |]. split; [unfold day_ms; lia |].
  split; [exact Hst |]. split; [exact Hlen |].
  split; reflexivity.
Qed.

Lemma whois_score_bounds (r0 : Result) (age k : Z) :
  In (status r0) statusOptions ->
  2 <= len (nameServers r0) <= 5 ->
  registrarReputation (details r0) = None ->
  1 <= age <= 7299 ->
  1 <= k <= 9 ->
  33 <= calculateWhoisScore r0 (Some age) (Some (365 * k)) <= 100
  /\ (5840 <= age -> 83 <= calculateWhoisScore r0 (Some age) (Some (365 * k))).
Proof.
  intros Hst Hns Hrep Hage Hk. unfold calculateWhoisScore. cbv zeta.
  rewrite Hrep.
  destruct (Z.eqb_spec age 0); [lia |].
  destruct (Z.eqb_spec (365 * k) 0); [lia |].
  match goal with
  | |- context [fold_left status_step (status r0) ?s] =>
      destruct (status_score (status r0) s Hst) as [-> | ->]
  end;
    repeat match goal with
           | |- context [?a >? ?b] => destruct (Z.gtb_spec a b); try lia
           | |- context [?a <? ?b] => destruct (Z.ltb_spec a b); try lia
           | |- context [?a >=? ?b] => destruct (Z.geb_spec a b); try lia
           | |- context [?a =? ?b] => destruct (Z.eqb_spec a b); try lia
           end.
Qed.

Lemma whois_push_rec_keeps (c : bool) (r x : string) (l : list string) :
  In x l -> In x (push_rec c r l).
Proof.
  unfold push_rec. destruct c; [| tauto]. intros H. apply in_or_app. tauto.
Qed.

Lemma whois_push_rec_adds (r : string) (l : list string) :
  In r (push_rec true r l).
Proof. unfold push_rec. apply in_or_app. right. left. reflexivity. Qed.

Lemma whois_advice (result : Result) (domainAge daysUntilExpiry : option Z) :
  (hasPrivacy (details result) = None ->
   In "🛡️ Consider domain privacy protection to hide personal information"
     (generateRecommendations result domainAge daysUntilExpiry))
  /\ (hasDNSSEC (details result) = None ->
      In "🔐 Consider enabling DNSSEC for enhanced security"
        (generateRecommendations result domainAge daysUntilExpiry))
  /\ (above domainAge (365 * 5) = true ->
      In "✅ Domain has excellent age (5+ years) - positive trust indicator"
        (generateRecommendations result domainAge daysUntilExpiry)).
Proof.
  unfold generateRecommendations. cbv zeta.
  split; [| split]; intros ->; cbn [not_set];
    repeat first [ apply whois_push_rec_adds | apply whois_push_rec_keeps ].
Qed.

(** X20: the WHOIS mock data of any domain is no error response. Its
    registrar is one of the twelve listed, the age of the domain is
    between 1 and 7299 days and the creation date lies that many days
    before now, the expiry is a whole number of years of 365 days away,
    from one to nine, the update was at most 729 days ago, the status is
    one of the five listed, there are from two to five name servers, and
    the score is between 33 and 100. *)
Theorem generated_whois_data (now : Z) (domain : string) :
  error (generateRealisticMockData now domain) = None
  /\ (exists reg : string,
        registrar (generateRealisticMockData now domain) = Some reg
        /\ In reg registrars)
  /\ (exists age k : Z,
        domainAge (generateRealisticMockData now domain) = Some age
        /\ 1 <= age <= 7299
        /\ creationDate (generateRealisticMockData now domain)
           = Some (now - age * day_ms)
        /\ 1 <= k <= 9
        /\ daysUntilExpiry (generateRealisticMockData now domain)
           = Some (365 * k)
        /\ expirationDate (generateRealisticMockData now domain)
           = Some (now + 365 * k * day_ms))
  /\ (exists u : Z,
        updatedDate (generateRealisticMockData now domain) = Some u
        /\ now - 729 * day_ms <= u <= now)
  /\ In (status (generateRealisticMockData now domain)) statusOptions
  /\ 2 <= len (nameServers (generateRealisticMockData now domain)) <= 5
  /\ 33 <= score (generateRealisticMockData now domain) <= 100.
Proof.
  destruct (generateRealisticMockData_fields now domain)
    as (reg & age & k & u & st & ns & d & E & Hreg & Hage & _ & Hk & Hu & Hst
        & Hns & _).
  cbv zeta in E. rewrite E.
  cbn [error registrar domainAge creationDate daysUntilExpiry expirationDate
       updatedDate status nameServers score set_details set_recommendations
       set_score].
  split; [reflexivity |].
  split; [exists reg; split; [reflexivity | exact Hreg] |].
  split; [exists age, k; repeat split; try reflexivity; lia |].
  split; [exists u; split; [reflexivity | exact Hu] |].
  split; [exact Hst |]. split; [exact Hns |].
  apply whois_score_bounds; try assumption. reflexivity.
Qed.

(** X21: the recommendations of the mock data always advise privacy
    protection and DNSSEC, whatever the details say of them: they are
    drawn up while the details are still empty. For the same reason the
    score is the one computed without the registrar's reputation. The
    domain mybank.com is advised privacy protection although its details
    say it has it. *)
Theorem whois_advice_ignores_the_details (now : Z) (domain : string) :
  In "🛡️ Consider domain privacy protection to hide personal information"
    (recommendations (generateRealisticMockData now domain))
  /\ In "🔐 Consider enabling DNSSEC for enhanced security"
       (recommendations (generateRealisticMockData now domain))
  /\ (exists reg : string,
        registrar (generateRealisticMockData now domain) = Some reg
        /\ hasPrivacy (details (generateRealisticMockData now domain))
           = Some (checkPrivacyProtection (Some reg) domain)
        /\ registrarReputation (details (generateRealisticMockData now domain))
           = Some (assessRegistrarReputation (Some reg))
        /\ score (generateRealisticMockData now domain)
           = calculateWhoisScore
               (set_details no_details (generateRealisticMockData now domain))
               (domainAge (generateRealisticMockData now domain))
               (daysUntilExpiry (generateRealisticMockData now domain)))
  /\ hasPrivacy (details (generateRealisticMockData now "mybank.com")) = Some true.
Proof.
  split; [| split; [| split]].
  1-3: destruct (generateRealisticMockData_fields now domain)
         as (reg & age & k & u & st & ns & d & E & _ & _ & _ & _ & _ & _ & _
             & Hp & Hr);
       cbv zeta in E; rewrite E;
       cbn [recommendations registrar details score domainAge daysUntilExpiry
            set_details set_recommendations set_score].
  - apply whois_advice. reflexivity.
  - apply whois_advice. reflexivity.
  - exists reg. split; [reflexivity |]. split; [exact Hp |].
    split; [exact Hr |]. reflexivity.
  - destruct (generateRealisticMockData_fields now "mybank.com")
      as (reg & age & k & u & st & ns & d & E & _ & _ & _ & _ & _ & _ & _
          & Hp & _).
    cbv zeta in E. rewrite E. cbn [details set_details]. rewrite Hp.
    f_equal. unfold checkPrivacyProtection. cbv zeta.
    assert (S : nan_or_default
                  (parseInt16 (String.substring 0 4 (MD5.md5_hex "mybank.com")))
                  0 = 15588) by (vm_compute; reflexivity).
    rewrite S. destruct (includes reg _); reflexivity.
Qed.

(** X22: a domain whose name contains google, microsoft, amazon or
    facebook is given an age of 5840 days at least, hence a score of 83
    at least and the praise of its age. *)
Theorem well_known_domains_are_old (now : Z) (domain : string) :
  str_includes domain "google" || str_includes domain "microsoft"
  || str_includes domain "amazon" || str_includes domain "facebook" = true ->
  (exists age : Z,
     domainAge (generateRealisticMockData now domain) = Some age
     /\ 5840 <= age <= 7299)
  /\ 83 <= score (generateRealisticMockData now domain) <= 100
  /\ In "✅ Domain has excellent age (5+ years) - positive trust indicator"
       (recommendations (generateRealisticMockData now domain)).
Proof.
  intros H.
  destruct (generateRealisticMockData_fields now domain)
    as (reg & age & k & u & st & ns & d & E & Hreg & Hage & Hbias & Hk & Hu
        & Hst & Hns & _).
  rewrite H in Hbias. cbv zeta in E. rewrite E.
  cbn [domainAge score recommendations set_details set_recommendations
       set_score].
  split; [exists age; split; [reflexivity | lia] |].
  match goal with
  | |- _ <= calculateWhoisScore ?r0 _ _ <= _ /\ _ =>
      destruct (whois_score_bounds r0 age k Hst Hns eq_refl Hage Hk) as [B1 B2]
  end.
  split; [specialize (B2 Hbias); lia |].
  apply whois_advice. unfold above.
  destruct (Z.eqb_spec age 0); [lia |].
  destruct (Z.gtb_spec age (365 * 5)); [reflexivity | lia].
Qed.

Lemma well_known_domains_are_old_witness :
  83 <= score (generateRealisticMockData 0 "google.com") <= 100.
Proof.
  apply (well_known_domains_are_old 0 "google.com"). reflexivity.
Defined.

End Whois.

(** ** The technology analyzer *)

Section Tech.
Import JS TechAnalyzer.

Lemma score_step_from (l : list Technology) (s : Z) :
  fold_left score_step l s = s + fold_left score_step l 0.
Proof.
  revert s. induction l as [| t l IH]; intros s; cbn [fold_left]; [lia |].
  rewrite IH, (IH (score_step 0 t)). unfold score_step.
  repeat match goal with |- context [if ?c then _ else _] => destruct c end; lia.
Qed.

Lemma score_step_bounds (t : Technology) (s : Z) :
  s - 35 <= score_step s t <= s.
Proof.
  unfold score_step.
  repeat match goal with |- context [if ?c then _ else _] => destruct c end; lia.
Qed.

Lemma score_steps_nonincreasing (l : list Technology) (s : Z) :
  fold_left score_step l s <= s.
Proof.
  revert s. induction l as [| t l IH]; intros s; cbn [fold_left]; [lia |].
  pose proof (IH (score_step s t)). pose proof (score_step_bounds t s). lia.
Qed.

(** X23: the technology score is between 0 and 100. With no technology
    it is 50, with a single one it is 65 at least, and one more
    technology never raises the score of a list that is not empty: to
    detect nothing scores worse than to detect any one technology. *)
Theorem detecting_nothing_scores_50 (first more : Technology)
    (technologies : list Technology) :
  calculateSecurityScore [] = 50
  /\ 65 <= calculateSecurityScore [first] <= 100
  /\ 0 <= calculateSecurityScore technologies <= 100
  /\ calculateSecurityScore ((first :: technologies) ++ [more])
     <= calculateSecurityScore (first :: technologies).
Proof.
  split; [reflexivity |]. split; [| split].
  - unfold calculateSecurityScore, len. cbn [List.length fold_left].
    destruct (Z.eqb_spec (Z.of_nat 1) 0); [lia |].
    pose proof (score_step_bounds first 100). lia.
  - unfold calculateSecurityScore. destruct (len technologies =? 0); lia.
  - unfold calculateSecurityScore, len. cbn [app List.length].
    rewrite !Nat2Z.inj_succ.
    destruct (Z.eqb_spec (Z.succ (Z.of_nat (List.length (technologies ++ [more])))) 0);
      [lia |].
    destruct (Z.eqb_spec (Z.succ (Z.of_nat (List.length technologies))) 0);
      [lia |].
    change (first :: (technologies ++ [more])%list)
      with ((first :: technologies) ++ [more])%list.
    rewrite fold_left_app. cbn [fold_left].
    pose proof (score_step_bounds more
                  (fold_left score_step technologies (score_step 100 first))).
    lia.
Qed.

Lemma calculateConfidence_found (p : Pattern) (html : string) :
  test p html = true -> calculateConfidence p html = 25.
Proof. intros H. unfold calculateConfidence. rewrite H. reflexivity. Qed.

Lemma find_test (html : string) (ps : list Pattern) :
  match find (fun p => test p html) ps with
  | Some p => existsb (fun p => test p html) ps = true /\ test p html = true
  | None => existsb (fun p => test p html) ps = false
  end.
Proof.
  induction ps as [| q ps IH]; cbn [find existsb]; [reflexivity |].
  destruct (test q html) eqn:E; [split; [reflexivity | exact E] |].
  cbn [orb]. exact IH.
Qed.

Lemma detect_found (html : string)
    (state : list Technology * list (string * list Technology))
    (s : Signature) :
  detect html state s
  = if existsb (fun p => test p html) (patterns s) then
      let technology :=
        {| name := techName s;
           category := sig_category s;
           risk := toLowerCase (sig_risk s);
           outdated := checkIfOutdated (techName s) html;
           confidence := 25 |} in
      (if existsb (fun t => (name t =? techName s)%string) (fst state)
       then fst state else (fst state ++ [technology])%list,
       add_to_category (sig_category s) technology (snd state))
    else state.
Proof.
  unfold detect. destruct state as [ts cs]. cbn [fst snd].
  pose proof (find_test html (patterns s)) as F.
  destruct (find (fun p => test p html) (patterns s)) as [p |].
  - destruct F as [-> F]. rewrite (calculateConfidence_found p html F).
    reflexivity.
  - rewrite F. reflexivity.
Qed.

(** X24: the analysis of a page that is not empty finds the
    technologies whose signature the page matches, in the order React,
    jQuery, WordPress, PHP, each once, with the confidence 25 and a low
    or medium risk, and one category for each; the details count them,
    no high risk and at most three outdated ones. The score is 50 when
    nothing is found and between 20 and 95 otherwise, whereas a page
    that could not be fetched, or is empty, scores 90. *)
Theorem analysis_of_a_page (html : string) :
  html <> "" ->
  map name (technologies (analyze (Some html))) = detected html
  /\ Forall (fun t => confidence t = 25 /\ (risk t = "low" \/ risk t = "medium"))
       (technologies (analyze (Some html)))
  /\ map fst (categories (analyze (Some html)))
     = map category (technologies (analyze (Some html)))
  /\ (exists d : Details,
        details (analyze (Some html)) = Some d
        /\ totalTechnologies d = len (detected html)
        /\ totalTechnologies d <= 4
        /\ highRiskCount d = 0
        /\ 0 <= outdatedCount d <= 3
        /\ outdatedCount d <= totalTechnologies d)
  /\ (if len (detected html) =? 0
      then score (analyze (Some html)) = 50
      else 20 <= score (analyze (Some html)) <= 95)
  /\ score (analyze None) = 90
  /\ score (analyze (Some "")) = 90.
Proof.
  intros H. unfold analyze.
  rewrite (proj2 (String.eqb_neq html "") H).
  cbn [technologies categories details score].
  unfold analyzeHtml, detected, signatures.
  cbn [fold_left List.filter patterns].
  remember (existsb (fun p => test p html)
              [Text "react.js"; Text "react-dom.js"; Text "__react__";
               Text "data-reactroot"]) as d1 eqn:E1.
  remember (existsb (fun p => test p html)
              [Text "jquery.js"; Text "jquery.min.js"; Text "$(";
               Text "jquery."]) as d2 eqn:E2.
  remember (existsb (fun p => test p html)
              [Text "wp-content"; Text "wp-includes"; Text "wordpress";
               Text "wp-admin"]) as d3 eqn:E3.
  remember (existsb (fun p => test p html)
              [Text ".php"; Text "php"; Powered_by_php]) as d4 eqn:E4.
  rewrite (detect_found html (_, _)).
  cbn [patterns techName sig_category sig_risk fst snd]. rewrite <- E1.
  destruct d1;
    cbn [existsb orb app add_to_category name String.eqb Ascii.eqb Bool.eqb];
    rewrite (detect_found html (_, _));
    cbn [patterns techName sig_category sig_risk fst snd]; rewrite <- E2;
    destruct d2;
    cbn [existsb orb app add_to_category name String.eqb Ascii.eqb Bool.eqb];
    rewrite (detect_found html (_, _));
    cbn [patterns techName sig_category sig_risk fst snd]; rewrite <- E3;
    destruct d3;
    cbn [existsb orb app add_to_category name String.eqb Ascii.eqb Bool.eqb];
    rewrite (detect_found html (_, _));
    cbn [patterns techName sig_category sig_risk fst snd]; rewrite <- E4;
    destruct d4;
    cbn [existsb orb app add_to_category name String.eqb Ascii.eqb Bool.eqb].
  all: clear E1 E2 E3 E4.
  all: cbn [map techName found found_categories found_details].
  all: repeat match goal with
              | |- context [checkIfOutdated "React" ?h] =>
                  change (checkIfOutdated "React" h) with false
              | |- context [checkIfOutdated ?n ?h] =>
                  destruct (checkIfOutdated n h)
              end.
  all: split; [reflexivity |].
  all: split;
    [repeat (apply List.Forall_cons;
             [split; [reflexivity | (left; reflexivity) || (right; reflexivity)] |]);
     apply List.Forall_nil |].
  all: split; [reflexivity |].
  all: split;
    [eexists; split; [reflexivity |];
     cbn [totalTechnologies highRiskCount outdatedCount];
     vm_compute; repeat split; discriminate |].
  all: split; [vm_compute; first [reflexivity | split; discriminate] |].
  all: split; reflexivity.
Qed.

Lemma analysis_of_a_page_witness :
  map name (technologies (analyze (Some "<script src=/jquery-1.12/jquery.js>")))
  = ["jQuery"]
  /\ score (analyze (Some "<script src=/jquery-1.12/jquery.js>")) = 75.
Proof.
  assert (N : "<script src=/jquery-1.12/jquery.js>" <> "") by discriminate.
  destruct (analysis_of_a_page _ N) as (E & _).
  split; [rewrite E; vm_compute; reflexivity | vm_compute; reflexivity].
Defined.

End Tech.

(** ** The headers analyzer *)

Section Headers.
Import JS HeadersAnalyzer.

Ltac header_cases :=
  repeat match goal with
         | |- context [if ?c then _ else _] => destruct c
         | |- context [match ?x with Some _ => _ | None => _ end] => destruct x
         end.

Lemma analyzeCSP_range (v : string) (a : HeaderAnalysis) :
  10 <= fst (analyzeCSP v a) <= 35.
Proof.
  unfold analyzeCSP. cbv zeta. cbn [List.filter].
  destruct (str_includes (toLowerCase v) (toLowerCase "default-src")),
    (str_includes (toLowerCase v) (toLowerCase "script-src")),
    (str_includes (toLowerCase v) (toLowerCase "style-src")),
    (str_includes (toLowerCase v) "unsafe-inline"),
    (str_includes (toLowerCase v) "unsafe-eval");
    unfold len; cbn; lia.
Qed.

Lemma analyzeHSTS_range (v : string) (a : HeaderAnalysis) :
  10 <= fst (analyzeHSTS v a) <= 25
  /\ (fst (analyzeHSTS v a) = 25
      <-> (exists maxAge, maxAgeMatch (toLowerCase v) = Some maxAge
                          /\ 31536000 <= maxAge)
          /\ str_includes (toLowerCase v) "includesubdomains" = true
          /\ str_includes (toLowerCase v) "preload" = true).
Proof.
  unfold analyzeHSTS. cbv zeta.
  destruct (maxAgeMatch (toLowerCase v)) as [m |];
    [destruct (Z.geb_spec m 31536000); [| destruct (Z.geb_spec m 86400)] |];
    destruct (str_includes (toLowerCase v) "includesubdomains"),
      (str_includes (toLowerCase v) "preload");
    cbn [fst]; (split; [lia |]);
    (split;
     [ intros K;
       first [ exfalso; lia
             | split; [exists m; split; [reflexivity | lia]
                      | split; reflexivity] ]
     | intros ((m' & E & Hm) & H1 & H2);
       first [ reflexivity | discriminate H1 | discriminate H2
             | discriminate E | injection E as <-; lia ] ]).
Qed.

Lemma header_bounds (headerName headerValue : string) :
  2 <= score (analyzeSpecificHeader headerName headerValue) <= 35.
Proof.
  pose proof (analyzeCSP_range headerValue
                {| present := true; value := headerValue; score := 0;
                   issues := []; recommendations := [] |}) as C.
  destruct (analyzeHSTS_range headerValue
              {| present := true; value := headerValue; score := 0;
                 issues := []; recommendations := [] |}) as [Hs _].
  unfold analyzeSpecificHeader. cbv zeta.
  destruct (headerName =? "Content-Security-Policy")%string.
  { destruct (analyzeCSP _ _) as [s a]. cbn [fst score set_score] in *. lia. }
  destruct (headerName =? "X-Frame-Options")%string.
  { unfold analyzeXFrameOptions. cbv zeta. header_cases; cbn; lia. }
  destruct (headerName =? "X-Content-Type-Options")%string.
  { unfold analyzeXContentTypeOptions. cbv zeta. header_cases; cbn; lia. }
  destruct (headerName =? "Strict-Transport-Security")%string.
  { destruct (analyzeHSTS _ _) as [s a]. cbn [fst score set_score] in *. lia. }
  destruct (headerName =? "X-XSS-Protection")%string.
  { unfold analyzeXXSSProtection. cbv zeta. header_cases; cbn; lia. }
  destruct (headerName =? "Referrer-Policy")%string.
  { unfold analyzeReferrerPolicy. cbv zeta. header_cases; cbn; lia. }
  destruct (headerName =? "Permissions-Policy")%string.
  { unfold analyzePermissionsPolicy. header_cases; cbn; lia. }
  cbn. lia.
Qed.


Lemma set_detail_fresh (header : string) (a : HeaderAnalysis)
    (d : list (string * HeaderAnalysis)) :
  ~ In header (map fst d) -> set_detail header a d = (d ++ [(header, a)])%list.
Proof.
  induction d as [| [h a'] d IH]; intros H; [reflexivity |].
  cbn [set_detail app]. cbn [map fst In] in H.
  destruct (String.eqb_spec h header) as [-> | _]; [tauto |].
  rewrite IH by tauto. reflexivity.
Qed.

Lemma detail_scores_app (d d' : list (string * HeaderAnalysis)) :
  detail_scores (d ++ d') = detail_scores d + detail_scores d'.
Proof.
  unfold detail_scores. induction d as [| e d IH]; cbn [app fold_right]; lia.
Qed.

Lemma required_loop (headers : Headers) (l : list string) (s : Z)
    (m : list string) (d : list (string * HeaderAnalysis)) :
  List.NoDup (map fst d ++ l) ->
  fold_left (required_step headers) l (s, m, d)
  = (s + detail_scores (analysed headers l),
     (m ++ List.filter (fun h => absent (headerValue headers h)) l)%list,
     (d ++ analysed headers l)%list).
Proof.
  revert s m d. induction l as [| h l IH]; intros s m d N.
  - cbn. rewrite Z.add_0_r, !app_nil_r. reflexivity.
  - cbn [fold_left]. unfold required_step at 2. unfold analysed, sent.
    cbn [List.filter].
    assert (Hh : ~ In h (map fst d)).
    { intros Hin. apply NoDup_remove_2 in N. apply N, in_or_app. tauto. }
    destruct (absent (headerValue headers h)) eqn:E; cbn [negb map].
    + rewrite IH.
      * unfold analysed, sent. rewrite <- app_assoc. reflexivity.
      * apply NoDup_remove_1 in N. exact N.
    + rewrite set_detail_fresh by exact Hh. rewrite IH.
      * unfold analysed, sent. rewrite <- !app_assoc.
        cbn [app detail_scores fold_right snd]. rewrite Z.add_assoc.
        reflexivity.
      * rewrite map_app, <- app_assoc. cbn [map fst app].
        apply (Permutation_NoDup (l := map fst d ++ h :: l)); [| exact N].
        apply Permutation_refl.
Qed.

Lemma additional_loop (headers : Headers) (l : list string) (s : Z)
    (m : list string) (d : list (string * HeaderAnalysis)) :
  List.NoDup (map fst d ++ l) ->
  fold_left (additional_step headers) l (s, m, d)
  = (s + detail_scores (analysed headers l), m, (d ++ analysed headers l)%list).
Proof.
  revert s d. induction l as [| h l IH]; intros s d N.
  - cbn. rewrite Z.add_0_r, !app_nil_r. reflexivity.
  - cbn [fold_left]. unfold additional_step at 2. unfold analysed, sent.
    cbn [List.filter].
    assert (Hh : ~ In h (map fst d)).
    { intros Hin. apply NoDup_remove_2 in N. apply N, in_or_app. tauto. }
    destruct (absent (headerValue headers h)) eqn:E; cbn [negb map].
    + rewrite IH; [reflexivity |]. apply NoDup_remove_1 in N. exact N.
    + rewrite set_detail_fresh by exact Hh. rewrite IH.
      * unfold analysed, sent. rewrite <- !app_assoc.
        cbn [app detail_scores fold_right snd]. rewrite Z.add_assoc.
        reflexivity.
      * rewrite map_app, <- app_assoc. cbn [map fst app]. exact N.
Qed.

Lemma map_fst_analysed (headers : Headers) (l : list string) :
  map fst (analysed headers l) = List.filter (sent headers) l.
Proof.
  unfold analysed. rewrite map_map. cbn [fst]. apply map_id.
Qed.

Lemma analysed_app (headers : Headers) (l l' : list string) :
  analysed headers (l ++ l') = (analysed headers l ++ analysed headers l')%list.
Proof. unfold analysed. rewrite List.filter_app, map_app. reflexivity. Qed.

Lemma NoDup_filter_app (f : string -> bool) (l more : list string) :
  List.NoDup (l ++ more) -> List.NoDup (List.filter f l ++ more).
Proof.
  induction l as [| h l IH]; intros N; [exact N |].
  cbn [app List.filter] in *. apply NoDup_cons_iff in N. destruct N as [Hh N].
  destruct (f h); [| apply IH, N].
  cbn [app]. constructor; [| apply IH, N].
  intros Hin. apply Hh. apply in_app_or in Hin. apply in_or_app.
  destruct Hin as [Hin | Hin]; [left | right; exact Hin].
  apply List.filter_In in Hin. tauto.
Qed.

Lemma analyzeHeaders_closed_form (headers : Headers) :
  analyzeHeaders headers
  = {| analysis_score :=
         Z.min 100
           (Z.max 0
              (detail_scores
                 (analysed headers (getRequiredHeaders ++ additionalHeaders))));
       missingHeaders :=
         List.filter (fun h => absent (headerValue headers h)) getRequiredHeaders;
       details := analysed headers (getRequiredHeaders ++ additionalHeaders);
       analysis_recommendations :=
         generateRecommendations
           (List.filter (fun h => absent (headerValue headers h))
              getRequiredHeaders)
           (analysed headers (getRequiredHeaders ++ additionalHeaders)) |}.
Proof.
  unfold analyzeHeaders. cbv zeta.
  rewrite required_loop
    by (apply NoDup_by_nodup; vm_compute; reflexivity).
  rewrite additional_loop.
  - rewrite analysed_app, detail_scores_app. cbn [app].
    rewrite Z.add_0_l. reflexivity.
  - cbn [app]. rewrite map_fst_analysed. apply NoDup_filter_app.
    apply NoDup_by_nodup. vm_compute. reflexivity.
Qed.

Lemma includes_In (x : string) (l : list string) : includes x l = true <-> In x l.
Proof.
  unfold includes. rewrite existsb_exists. split.
  - intros (y & Hy & E). apply String.eqb_eq in E. subst y. exact Hy.
  - intros H. exists x. split; [exact H | apply String.eqb_refl].
Qed.

Lemma Set_values_from (l acc : list string) :
  List.NoDup acc ->
  List.NoDup
    (fold_left (fun seen x => if includes x seen then seen else (seen ++ [x])%list)
       l acc)
  /\ forall x,
       In x (fold_left
               (fun seen x => if includes x seen then seen else (seen ++ [x])%list)
               l acc)
       <-> In x acc \/ In x l.
Proof.
  revert acc. induction l as [| y l IH]; intros acc Hacc; cbn [fold_left].
  - split; [exact Hacc | intros x; cbn; tauto].
  - destruct (includes y acc) eqn:E.
    + destruct (IH acc Hacc) as [N M]. split; [exact N |].
      intros x. rewrite M. apply includes_In in E. cbn.
      split; [tauto |]. intros [? | [<- | ?]]; tauto.
    + assert (Hn : ~ In y acc).
      { intros H. apply includes_In in H. congruence. }
      assert (N' : List.NoDup (acc ++ [y])).
      { apply (Permutation_NoDup (Permutation_cons_append acc y)).
        constructor; assumption. }
      destruct (IH _ N') as [N M]. split; [exact N |].
      intros x. rewrite M, in_app_iff. cbn. tauto.
Qed.

Lemma Set_values_spec (l : list string) :
  List.NoDup (Set_values l) /\ forall x, In x (Set_values l) <-> In x l.
Proof.
  destruct (Set_values_from l [] (List.NoDup_nil string)) as [N M].
  split; [exact N |]. intros x. unfold Set_values. rewrite M. cbn. tauto.
Qed.

Lemma advice_loop (l acc : list string) (x : string) :
  In x (fold_left
          (fun recommendations header =>
             match advice header with
             | Some r => (recommendations ++ [r])%list
             | None => recommendations
             end) l acc)
  <-> In x acc \/ exists h, In h l /\ advice h = Some x.
Proof.
  revert acc. induction l as [| h l IH]; intros acc; cbn [fold_left].
  - split; [tauto | intros [H | (h & [] & _)]; exact H].
  - rewrite IH. destruct (advice h) as [r |] eqn:E.
    + rewrite in_app_iff. cbn [In]. split.
      * intros [[H | [<- | []]] | (h' & Hh & E')]; [tauto | |].
        -- right. exists h. split; [left; reflexivity | exact E].
        -- right. exists h'. split; [right; exact Hh | exact E'].
      * intros [H | (h' & [<- | Hh] & E')]; [tauto | |].
        -- left. right. left. congruence.
        -- right. exists h'. split; [exact Hh | exact E'].
    + split.
      * intros [H | (h' & Hh & E')]; [tauto |].
        right. exists h'. split; [right; exact Hh | exact E'].
      * intros [H | (h' & [<- | Hh] & E')]; [tauto | congruence |].
        right. exists h'. split; [exact Hh | exact E'].
Qed.

Lemma details_loop (d : list (string * HeaderAnalysis)) (acc : list string)
    (x : string) :
  In x (fold_left
          (fun recommendations entry =>
             (recommendations ++ HeadersAnalyzer.recommendations (snd entry))%list) d acc)
  <-> In x acc \/ exists e, In e d /\ In x (HeadersAnalyzer.recommendations (snd e)).
Proof.
  revert acc. induction d as [| e d IH]; intros acc; cbn [fold_left].
  - split; [tauto | intros [H | (e & [] & _)]; exact H].
  - rewrite IH, in_app_iff. split.
    + intros [[H | H] | (e' & He & H)]; [tauto | |].
      * right. exists e. split; [left; reflexivity | exact H].
      * right. exists e'. split; [right; exact He | exact H].
    + intros [H | (e' & [<- | He] & H)]; [tauto | tauto |].
      right. exists e'. split; [exact He | exact H].
Qed.

Lemma generateRecommendations_spec (missing : list string)
    (d : list (string * HeaderAnalysis)) :
  List.NoDup (generateRecommendations missing d)
  /\ forall x,
       In x (generateRecommendations missing d)
       <-> (exists h, In h missing /\ advice h = Some x)
           \/ (exists e, In e d /\ In x (recommendations (snd e))).
Proof.
  unfold generateRecommendations. cbv zeta.
  match goal with
  | |- List.NoDup (Set_values ?l) /\ _ =>
      destruct (Set_values_spec l) as [N M]
  end.
  split; [exact N |]. intros x. rewrite M.
  rewrite (details_loop d _ x), advice_loop. cbn [In]. tauto.
Qed.

Lemma detail_scores_bounds (headers : Headers) (l : list string) :
  2 * len (analysed headers l) <= detail_scores (analysed headers l)
    <= 35 * len (analysed headers l).
Proof.
  unfold analysed, len. induction (List.filter (sent headers) l) as [| h hs IH].
  - cbn. lia.
  - cbn [map detail_scores fold_right snd List.length].
    fold (detail_scores
            (map (fun header =>
                    (header,
                     analyzeSpecificHeader header
                       match headerValue headers header with
                       | Some v => v
                       | None => ""
                       end)) hs)).
    destruct (header_bounds h
                match headerValue headers h with Some v => v | None => "" end).
    lia.
Qed.

(** X26: the analysis of the headers of a response. The score is the
    sum of the scores of the details, capped at 100, each detail adding
    between 2 and 35; the missing headers are the required ones the
    response did not send, in their order; the details are the analyses
    of the required and additional headers it sent, in their order; the
    recommendations hold no text twice, and are the advice for the
    missing headers together with the recommendations of the details. *)
Theorem analysis_of_the_headers (headers : Headers) :
  analysis_score (analyzeHeaders headers)
  = Z.min 100 (detail_scores (details (analyzeHeaders headers)))
  /\ 2 * len (details (analyzeHeaders headers))
     <= detail_scores (details (analyzeHeaders headers))
     <= 35 * len (details (analyzeHeaders headers))
  /\ 0 <= analysis_score (analyzeHeaders headers) <= 100
  /\ missingHeaders (analyzeHeaders headers)
     = List.filter (fun h => negb (sent headers h)) getRequiredHeaders
  /\ details (analyzeHeaders headers)
     = analysed headers (getRequiredHeaders ++ additionalHeaders)
  /\ map fst (details (analyzeHeaders headers))
     = List.filter (sent headers) (getRequiredHeaders ++ additionalHeaders)
  /\ List.NoDup (analysis_recommendations (analyzeHeaders headers))
  /\ (forall x,
        In x (analysis_recommendations (analyzeHeaders headers))
        <-> (exists h,
               In h (missingHeaders (analyzeHeaders headers))
               /\ advice h = Some x)
            \/ (exists e,
                  In e (details (analyzeHeaders headers))
                  /\ In x (recommendations (snd e)))).
Proof.
  rewrite analyzeHeaders_closed_form.
  cbn [analysis_score missingHeaders details analysis_recommendations].
  pose proof (detail_scores_bounds headers
                (getRequiredHeaders ++ additionalHeaders)) as B.
  assert (L : 0 <= len (analysed headers
                          (getRequiredHeaders ++ additionalHeaders)))
    by (unfold len; lia).
  destruct (generateRecommendations_spec
              (List.filter (fun h => absent (headerValue headers h))
                 getRequiredHeaders)
              (analysed headers (getRequiredHeaders ++ additionalHeaders)))
    as [N M].
  split; [lia |]. split; [exact B |]. split; [lia |].
  split.
  { apply filter_ext. intros h. unfold sent. rewrite negb_involutive.
    reflexivity. }
  split; [reflexivity |]. split; [apply map_fst_analysed |].
  split; [exact N | exact M].
Qed.

End Headers.
